(** * Version resolution of the pull-request resource: [Check] and its ledger

    A shallow embedding of [check.go] and [models.go]: the ledger codec
    ([GetVersionStringFromPullRequest], [GenerateVersion],
    [ExtractVersionFromVersionString]), the fold classifier ([AboveTheFold])
    and the resolver ([Check]).

    Go strings are byte sequences ([string]); [int] and [int64] are [Z] with
    the range checks of [strconv] written out; a panic and a returned [error]
    are two different results of a call; slices live in a store of backing
    arrays, so that [append] and [sort.Sort] alias as they do in Go. *)

From Stdlib Require Import ZArith List Bool Ascii String Lia Permutation Sorted.
Import ListNotations.
Local Open Scope Z_scope.
Local Open Scope list_scope.

(** ** Results of a call *)

(** [strconv.NumError]: the function that failed, its input, and the cause. *)
Inductive NumErrorCause := ErrSyntax | ErrRange.

Module NumError.
Record t := mk {
  Func : string;
  Num : string;
  Err : NumErrorCause
}.
End NumError.

(** Go [error] values met in [Check]. [Errorf msg e] stands for
    [fmt.Errorf(msg, e)] with the format string [msg]. *)
Inductive error :=
| ErrNum (e : NumError.t)
| ErrBadPattern
| ErrManager (msg : string)
| Errorf (format : string) (cause : error).

(** What a panic carries: the value passed to [panic], or the run-time error
    of an index outside a slice. *)
Inductive panic :=
| PanicError (e : NumError.t)
| IndexOutOfRange (index : nat) (length : nat).

(** A value with an [error], as in [(T, error)]. *)
Inductive result (A : Type) :=
| Ok (a : A)
| Err (e : error).
Arguments Ok {A} a.
Arguments Err {A} e.

(** A call returns normally, returns a non-nil error, or panics. *)
Inductive outcome (A : Type) :=
| Returned (a : A)
| Failed (e : error)
| Panicked (p : panic).
Arguments Returned {A} a.
Arguments Failed {A} e.
Arguments Panicked {A} p.

Definition bind {A B : Type} (m : outcome A) (k : A -> outcome B) : outcome B :=
  match m with
  | Returned a => k a
  | Failed e => Failed e
  | Panicked p => Panicked p
  end.

Notation "x <- m ;; k" := (bind m (fun x => k))
  (at level 61, m at next level, right associativity).

(** ** Package [strings], at the separators [Check] uses (one byte each) *)

Module strings.

(** [strings.Contains(s, string(c))]. *)
Fixpoint Contains (s : string) (c : ascii) : bool :=
  match s with
  | EmptyString => false
  | String a s' => Ascii.eqb a c || Contains s' c
  end.

(** [strings.Split(s, string(sep))]: the fields between the separators; a
    string without separator, the empty one too, is its only field. *)
Fixpoint Split (s : string) (sep : ascii) : list string :=
  match s with
  | EmptyString => [EmptyString]
  | String a s' =>
      if Ascii.eqb a sep then EmptyString :: Split s' sep
      else match Split s' sep with
           | [] => [String a EmptyString]
           | field :: fields => String a field :: fields
           end
  end.

(** [strings.Join(elems, sep)]. *)
Fixpoint Join (elems : list string) (sep : string) : string :=
  match elems with
  | [] => EmptyString
  | [e] => e
  | e :: rest => (e ++ sep ++ Join rest sep)%string
  end.

End strings.

(** ** Package [strconv], base 10 and 64 bits *)

Module strconv.

Definition maxUint64 : Z := 2 ^ 64 - 1.
Definition minInt64 : Z := - 2 ^ 63.
Definition maxInt64 : Z := 2 ^ 63 - 1.

Definition isDigit (c : ascii) : bool :=
  let n := Z.of_nat (nat_of_ascii c) in (48 <=? n) && (n <=? 57).

Definition digitValue (c : ascii) : Z := Z.of_nat (nat_of_ascii c) - 48.

Definition digitChar (d : Z) : ascii := ascii_of_nat (Z.to_nat (48 + d)).

(** The digits of [u], most significant first, in front of [acc]. *)
Fixpoint formatBits (fuel : nat) (u : Z) (acc : string) : string :=
  match fuel with
  | O => acc
  | S fuel' =>
      if u <? 10 then String (digitChar u) acc
      else formatBits fuel' (u / 10) (String (digitChar (u mod 10)) acc)
  end.

Definition FormatUint (u : Z) : string :=
  formatBits (S (Z.to_nat (Z.log2 u))) u EmptyString.

(** [strconv.FormatInt(i, 10)]. *)
Definition FormatInt (i : Z) : string :=
  if i <? 0 then String "-" (FormatUint (- i)) else FormatUint i.

(** [strconv.Itoa(i)] is [FormatInt(int64(i), 10)]. *)
Definition Itoa (i : Z) : string := FormatInt i.

(** The loop of [ParseUint(s, 10, 64)]: a byte that is no digit is a syntax
    error, a value past [maxUint64] a range error, whichever comes first. *)
Fixpoint parseDigits (s : string) (n : Z) : NumErrorCause + Z :=
  match s with
  | EmptyString => inr n
  | String c s' =>
      if isDigit c then
        if maxUint64 / 10 + 1 <=? n then inl ErrRange
        else
          let n1 := n * 10 + digitValue c in
          if maxUint64 <? n1 then inl ErrRange else parseDigits s' n1
      else inl ErrSyntax
  end.

Definition ParseUint (s : string) : NumErrorCause + Z :=
  match s with
  | EmptyString => inl ErrSyntax
  | _ => parseDigits s 0
  end.

(** [strconv.ParseInt(s, 10, 64)]. *)
Definition ParseInt (s0 : string) : NumError.t + Z :=
  let fnParseInt := "ParseInt"%string in
  match s0 with
  | EmptyString => inl (NumError.mk fnParseInt s0 ErrSyntax)
  | String c rest =>
      let neg := Ascii.eqb c "-" in
      let s := if Ascii.eqb c "+" || neg then rest else s0 in
      match ParseUint s with
      | inl ErrSyntax => inl (NumError.mk fnParseInt s0 ErrSyntax)
      | inl ErrRange => inl (NumError.mk fnParseInt s0 ErrRange)
      | inr un =>
          let cutoff := 2 ^ 63 in
          if negb neg && (cutoff <=? un) then inl (NumError.mk fnParseInt s0 ErrRange)
          else if neg && (cutoff <? un) then inl (NumError.mk fnParseInt s0 ErrRange)
          else inr (if neg then - un else un)
      end
  end.

(** [strconv.ParseBool(str)]. *)
Definition ParseBool (str : string) : NumError.t + bool :=
  if existsb (String.eqb str) ["1"; "t"; "T"; "TRUE"; "true"; "True"]%string then inr true
  else if existsb (String.eqb str) ["0"; "f"; "F"; "FALSE"; "false"; "False"]%string then inr false
  else inl (NumError.mk "ParseBool" str ErrSyntax).

End strconv.

(** ** Package [time]: instants as [Check] observes them *)

Module time.

(** A [time.Time] without monotonic clock reading, as decoded from the remote
    side or built by [time.Unix]: the seconds since January 1 of year 1, an
    [int64], and the nanoseconds within the second. *)
Record Time := mkTime {
  sec : Z;
  nsec : Z
}.

(** The value of an [int64] computation: [z] modulo 2^64, signed. *)
Definition wrap64 (z : Z) : Z := (z + 2 ^ 63) mod 2 ^ 64 - 2 ^ 63.

(** The seconds from year 1 to 1970. *)
Definition unixToInternal : Z := 62135596800.

(** [time.Unix(sec, nsec)], for [nsec] within one second. Not every [sec]
    has a time value: the sum is an [int64] and wraps around. *)
Definition Unix (sec nsec : Z) : Time := mkTime (wrap64 (sec + unixToInternal)) nsec.

(** The method [t.Unix()]. *)
Definition Time_Unix (t : Time) : Z := wrap64 (sec t - unixToInternal).

(** [t.After(u)]. *)
Definition After (t u : Time) : bool :=
  (sec u <? sec t) || ((sec t =? sec u) && (nsec u <? nsec t)).

End time.

(** ** The data model of [models.go] *)

(** [AlreadySeenVersion]: one decoded entry of the ledger. *)
Module AlreadySeenVersion.
Record t := mk {
  PR : string;
  committedDate : time.Time
}.
End AlreadySeenVersion.

(** [Version], the unit communicated with Concourse. *)
Module Version.
Record t := mk {
  PR : string;
  Commit : string;
  CommittedDate : time.Time;
  AlreadySeen : string
}.
End Version.

Module CommitObject.
Record t := mk {
  ID : string;
  OID : string;
  CommittedDate : time.Time;
  Message : string;
  AuthorLogin : string
}.
End CommitObject.

(** [PullRequest]: the embedded [PullRequestObject] and the tip commit. *)
Module PullRequest.
Record t := mk {
  ID : string;
  Number : Z;
  Title : string;
  URL : string;
  BaseRefName : string;
  HeadRefName : string;
  RepositoryURL : string;
  Tip : CommitObject.t
}.
End PullRequest.

Definition CheckResponse := list Version.t.

(** [NewVersion] constructs a new Version. *)
Definition NewVersion (p : PullRequest.t) (alreadySeen : string) : Version.t :=
  {| Version.PR := PullRequest.ID p;
     Version.Commit := CommitObject.ID (PullRequest.Tip p);
     Version.CommittedDate := CommitObject.CommittedDate (PullRequest.Tip p);
     Version.AlreadySeen := alreadySeen |}.

(** ** The ledger codec of [check.go] *)

Definition GetVersionStringFromPullRequest (pull : PullRequest.t) : string :=
  (strconv.Itoa (PullRequest.Number pull) ++ ":"
   ++ strconv.FormatInt (time.Time_Unix (CommitObject.CommittedDate (PullRequest.Tip pull))))%string.

Definition ExtractVersionFromVersionString (alreadySeenPair : string)
  : outcome AlreadySeenVersion.t :=
  let pairs := strings.Split alreadySeenPair ":" in
  match nth_error pairs 1 with
  | None => Panicked (IndexOutOfRange 1 (List.length pairs))
  | Some field =>
      match strconv.ParseInt field with
      | inl err => Panicked (PanicError err)
      | inr committedDateAsInt =>
          Returned {| AlreadySeenVersion.PR := nth 0 pairs EmptyString;
                      AlreadySeenVersion.committedDate := time.Unix committedDateAsInt 0 |}
      end
  end.

Definition GenerateVersion (pulls : list PullRequest.t) : string :=
  strings.Join (map GetVersionStringFromPullRequest pulls) ",".

(** ** The fold classifier *)

(** The loop of [AboveTheFold] over the remaining pairs, with the two flags
    it carries. *)
Fixpoint foldPairs (pullRequest : AlreadySeenVersion.t) (pairs : list string)
  (isAboveTheFold isFoundInPairs : bool) : outcome (bool * bool) :=
  match pairs with
  | [] => Returned (isAboveTheFold, isFoundInPairs)
  | thisPair :: rest =>
      thisPairVersion <- ExtractVersionFromVersionString thisPair ;;
      if String.eqb (AlreadySeenVersion.PR thisPairVersion) (AlreadySeenVersion.PR pullRequest)
      then foldPairs pullRequest rest
             (if time.After (AlreadySeenVersion.committedDate pullRequest)
                            (AlreadySeenVersion.committedDate thisPairVersion)
              then true else isAboveTheFold)
             true
      else foldPairs pullRequest rest isAboveTheFold isFoundInPairs
  end.

Definition AboveTheFold (pullRequestVersion alreadySeen : string) : outcome bool :=
  if negb (strings.Contains alreadySeen ":") then Returned true
  else
    let pairs := strings.Split alreadySeen "," in
    pullRequest <- ExtractVersionFromVersionString pullRequestVersion ;;
    flags <- foldPairs pullRequest pairs false false ;;
    let '(isAboveTheFold, isFoundInPairs) := flags in
    Returned (if negb isFoundInPairs then true else isAboveTheFold).

Example AboveTheFold_newer :
  AboveTheFold "2:9" "1:5,2:7" = Returned true.
Proof. reflexivity. Qed.

Example AboveTheFold_same :
  AboveTheFold "2:7" "1:5,2:7" = Returned false.
Proof. reflexivity. Qed.

Example FormatInt_examples :
  strconv.FormatInt 1700000000 = "1700000000"%string /\
  strconv.FormatInt (-42) = "-42"%string /\
  strconv.FormatInt 0 = "0"%string.
Proof. repeat split. Qed.

Example ParseInt_examples :
  strconv.ParseInt "1700000000" = inr 1700000000 /\
  strconv.ParseInt "-9223372036854775808" = inr (- 2 ^ 63) /\
  strconv.ParseInt "9223372036854775808" = inl (NumError.mk "ParseInt" "9223372036854775808" ErrRange) /\
  strconv.ParseInt "notanumber" = inl (NumError.mk "ParseInt" "notanumber" ErrSyntax) /\
  strconv.ParseInt "+7" = inr 7.
Proof. repeat split. Qed.

(** ** What [Check] takes from the Go runtime and standard library *)

(** [less] is the strict part of a total preorder: what [sort.Sort] needs of
    a [Less] method to promise a sorted result. *)
Definition strictOrder {A : Type} (less : A -> A -> bool) : Prop :=
  (forall a b, less a b = true -> less b a = false) /\
  (forall a b c, less b a = false -> less c b = false -> less c a = false).

(** The parts of Go that are no code of this repository, by their documented
    contracts: [sort.Sort] permutes its argument into an order in which no
    element is [Less] than an earlier one (it is not stable, so the order of
    elements neither of which is [Less] than the other is the
    implementation's); the capacity [append] gives a slice it has to grow
    holds the new length; [filepath.Match]; and [MatchString] of a compiled
    regular expression, by its source text. *)
Record GoRuntime := mkGoRuntime {
  sort_Sort : forall A : Type, (A -> A -> bool) -> list A -> list A;
  sort_Sort_permutes :
    forall (A : Type) (less : A -> A -> bool) (l : list A),
      Permutation (sort_Sort A less l) l;
  sort_Sort_sorts :
    forall (A : Type) (less : A -> A -> bool) (l : list A),
      strictOrder less ->
      StronglySorted (fun a b => less b a = false) (sort_Sort A less l);
  growslice : nat -> nat -> nat;
  growslice_fits : forall oldCap newLen : nat, (newLen <= growslice oldCap newLen)%nat;
  filepath_Match : string -> string -> result bool;
  regexp_MatchString : string -> string -> bool
}.
Arguments sort_Sort g {A} less l.

(** ** Slices over a store of backing arrays *)

Module slices.
Section Slices.
Variable go : GoRuntime.
Variable A : Type.

(** A slice header; every slice of [Check] starts at index 0 of its array.
    The nil slice has no array: it is given array 0, which stays empty. *)
Record slice := mkSlice {
  array : nat;
  len : nat;
  cap : nat
}.

Definition nil : slice := mkSlice 0 0 0.

(** The store: the written cells of each array, and the next free array. *)
Record heap := mkHeap {
  cells : nat -> list A;
  next : nat
}.

Definition empty : heap := mkHeap (fun _ => []) 1.

(** The elements a slice shows: [range s]. *)
Definition elems (h : heap) (s : slice) : list A :=
  firstn (len s) (cells h (array s)).

Definition store (h : heap) (a : nat) (v : list A) : heap :=
  mkHeap (fun x => if Nat.eqb x a then v else cells h x) (next h).

(** [append(s, xs...)]: within the capacity the elements are written into
    the array [s] points to and the result shares it; otherwise a new array
    receives a copy. *)
Definition append (h : heap) (s : slice) (xs : list A) : heap * slice :=
  let n := (len s + List.length xs)%nat in
  if (n <=? cap s)%nat then
    (store h (array s) (elems h s ++ xs ++ skipn n (cells h (array s))),
     mkSlice (array s) n (cap s))
  else
    (mkHeap (fun x => if Nat.eqb x (next h) then elems h s ++ xs else cells h x)
            (S (next h)),
     mkSlice (next h) n (growslice go (cap s) n)).

(** [sort.Sort(s)] with the method [less]: the array is permuted in place. *)
Definition sort (less : A -> A -> bool) (h : heap) (s : slice) : heap :=
  store h (array s)
        (sort_Sort go less (elems h s) ++ skipn (len s) (cells h (array s))).

(** The capacity of a slice grown from nil by [n] appends of one element. *)
Fixpoint capAfter (n : nat) : nat :=
  match n with
  | O => O
  | S k => if (S k <=? capAfter k)%nat then capAfter k
           else growslice go (capAfter k) (S k)
  end.

End Slices.
Arguments cells {A} h a.
Arguments next {A} h.
Arguments empty {A}.
Arguments elems {A} h s.
Arguments store {A} h a v.
Arguments append go {A} h s xs.
Arguments sort go {A} less h s.
End slices.

(** ** The requests of [check.go] *)

Module Source.
Record t := mk {
  Repository : string;
  AccessToken : string;
  V3Endpoint : string;
  V4Endpoint : string;
  Paths : list string;
  IgnorePaths : list string;
  DisableCISkip : string
}.
End Source.

Module CheckRequest.
Record t := mk {
  Source : Source.t;
  Version : Version.t
}.
End CheckRequest.

(** The interface [Github], as far as [Check] calls it. A call answers from
    the state [G] of the remote side and may change it. *)
Record Github (G : Type) := mkGithub {
  ListOpenPullRequests : G -> result (list PullRequest.t) * G;
  ListModifiedFiles : Z -> G -> result (list string) * G
}.
Arguments ListOpenPullRequests {G} g.
Arguments ListModifiedFiles {G} g.

(** [CheckResponse.Less(i, j)]: [r[j].CommittedDate.After(r[i].CommittedDate)]. *)
Definition CheckResponse_Less (ri rj : Version.t) : bool :=
  time.After (Version.CommittedDate rj) (Version.CommittedDate ri).

(** [Pulls.Less(i, j)]: [r[j].Number > r[i].Number]. *)
Definition Pulls_Less (ri rj : PullRequest.t) : bool :=
  PullRequest.Number ri <? PullRequest.Number rj.

Section Resolver.
Variable go : GoRuntime.

Definition ContainsSkipCI (s : string) : bool :=
  regexp_MatchString go "(?i)\[(ci skip|skip ci)\]" s.

Fixpoint FilterIgnorePath (files : list string) (pattern : string)
  : result (list string) :=
  match files with
  | [] => Ok []
  | file :: rest =>
      match filepath_Match go pattern file with
      | Err err => Err err
      | Ok matched =>
          match FilterIgnorePath rest pattern with
          | Err err => Err err
          | Ok out => Ok (if negb matched then file :: out else out)
          end
      end
  end.

Fixpoint FilterPath (files : list string) (pattern : string)
  : result (list string) :=
  match files with
  | [] => Ok []
  | file :: rest =>
      match filepath_Match go pattern file with
      | Err err => Err err
      | Ok matched =>
          match FilterPath rest pattern with
          | Err err => Err err
          | Ok out => Ok (if matched then file :: out else out)
          end
      end
  end.

(** The loop over [request.Source.Paths]: the files any pattern wants. *)
Fixpoint wantedByPaths (files : list string) (patterns : list string)
  (wanted : list string) : result (list string) :=
  match patterns with
  | [] => Ok wanted
  | pattern :: rest =>
      match FilterPath files pattern with
      | Err err => Err (Errorf "path match failed: %s" err)
      | Ok w => wantedByPaths files rest (wanted ++ w)
      end
  end.

(** The loop over [request.Source.IgnorePaths]: the files no pattern ignores. *)
Fixpoint wantedByIgnorePaths (wanted : list string) (patterns : list string)
  : result (list string) :=
  match patterns with
  | [] => Ok wanted
  | pattern :: rest =>
      match FilterIgnorePath wanted pattern with
      | Err err => Err (Errorf "ignore path match failed: %s" err)
      | Ok wanted' => wantedByIgnorePaths wanted' rest
      end
  end.

Definition nonEmpty {A : Type} (l : list A) : bool :=
  (0 <? List.length l)%nat.

Section WithManager.
Context {G : Type}.
Variable request : CheckRequest.t.
Variable manager : Github G.
Variable disableSkipCI : bool.

(** The body of [Check]'s loop up to the fold: [Ok false] is a [continue],
    an error leaves [Check]. *)
Definition passesFilters (p : PullRequest.t) (g : G) : result bool * G :=
  let source := CheckRequest.Source request in
  if negb disableSkipCI && ContainsSkipCI (PullRequest.Title p) then (Ok false, g)
  else if negb disableSkipCI && ContainsSkipCI (CommitObject.Message (PullRequest.Tip p))
  then (Ok false, g)
  else
    let '(listed, g') :=
      if nonEmpty (Source.Paths source) || nonEmpty (Source.IgnorePaths source)
      then ListModifiedFiles manager (PullRequest.Number p) g
      else (Ok [], g) in
    match listed with
    | Err err => (Err (Errorf "failed to list modified files: %s" err), g')
    | Ok files =>
        let byPaths :=
          if nonEmpty (Source.Paths source) then
            match wantedByPaths files (Source.Paths source) [] with
            | Err err => Err err
            | Ok wanted => Ok (nonEmpty wanted)
            end
          else Ok true in
        match byPaths with
        | Err err => (Err err, g')
        | Ok false => (Ok false, g')
        | Ok true =>
            if nonEmpty (Source.IgnorePaths source) then
              match wantedByIgnorePaths files (Source.IgnorePaths source) with
              | Err err => (Err err, g')
              | Ok wanted => (Ok (nonEmpty wanted), g')
              end
            else (Ok true, g')
        end
    end.

(** The loop of [Check] over [pulls], with the two slices it appends to. *)
Fixpoint checkLoop (pulls : list PullRequest.t)
  (h : slices.heap PullRequest.t)
  (newPullsToReturn alreadySeenPullsToHide : slices.slice) (g : G)
  : outcome (slices.heap PullRequest.t * slices.slice * slices.slice) :=
  match pulls with
  | [] => Returned (h, newPullsToReturn, alreadySeenPullsToHide)
  | p :: rest =>
      match passesFilters p g with
      | (Err err, _) => Failed err
      | (Ok false, g') => checkLoop rest h newPullsToReturn alreadySeenPullsToHide g'
      | (Ok true, g') =>
          above <- AboveTheFold (GetVersionStringFromPullRequest p)
                                (Version.AlreadySeen (CheckRequest.Version request)) ;;
          if (above : bool) then
            let '(h', s') := slices.append go h newPullsToReturn [p] in
            checkLoop rest h' s' alreadySeenPullsToHide g'
          else
            let '(h', s') := slices.append go h alreadySeenPullsToHide [p] in
            checkLoop rest h' newPullsToReturn s' g'
      end
  end.

(** The same loop without the fold: the pulls that reach [AboveTheFold]. *)
Fixpoint filterLoop (pulls : list PullRequest.t) (g : G)
  : result (list PullRequest.t) :=
  match pulls with
  | [] => Ok []
  | p :: rest =>
      match passesFilters p g with
      | (Err err, _) => Err err
      | (Ok keep, g') =>
          match filterLoop rest g' with
          | Err err => Err err
          | Ok kept => Ok (if keep then p :: kept else kept)
          end
      end
  end.

End WithManager.

(** [request.Source.DisableCISkip], parsed when set. *)
Definition parseDisableCISkip (request : CheckRequest.t) : result bool :=
  let flag := Source.DisableCISkip (CheckRequest.Source request) in
  if String.eqb flag "" then Ok false
  else match strconv.ParseBool flag with
       | inl err => Err (Errorf "failed to parse disable_ci_skip: %s" (ErrNum err))
       | inr b => Ok b
       end.

(** What [Check] does with the response once it is sorted. *)
Definition applyPolicy (previous : Version.t) (response : CheckResponse) : CheckResponse :=
  let alreadySeen := Version.AlreadySeen previous in
  let response :=
    if (List.length response =? 0)%nat && negb (String.eqb alreadySeen "")
    then response ++ [previous] else response in
  if negb (List.length response =? 0)%nat && String.eqb alreadySeen ""
  then skipn (List.length response - 1) response
  else response.

(** [Check] (business logic). *)
Definition Check {G : Type} (request : CheckRequest.t) (manager : Github G) (g : G)
  : outcome CheckResponse :=
  match ListOpenPullRequests manager g with
  | (Err err, _) => Failed (Errorf "failed to get last commits: %s" err)
  | (Ok pulls, g) =>
      match parseDisableCISkip request with
      | Err err => Failed err
      | Ok disableSkipCI =>
          st <- checkLoop request manager disableSkipCI pulls
                  slices.empty slices.nil slices.nil g ;;
          let '(h, newPullsToReturn, alreadySeenPullsToHide) := st in
          let '(h, combinedVersions) :=
            slices.append go h newPullsToReturn (slices.elems h alreadySeenPullsToHide) in
          let h := slices.sort go Pulls_Less h combinedVersions in
          let versionsJustSeen := GenerateVersion (slices.elems h combinedVersions) in
          let response :=
            map (fun p => NewVersion p versionsJustSeen) (slices.elems h newPullsToReturn) in
          let response := sort_Sort go CheckResponse_Less response in
          Returned (applyPolicy (CheckRequest.Version request) response)
      end
  end.

(** The snapshot [Check] classifies: the open pull requests that pass the
    skip markers and the path filters. *)
Definition snapshot {G : Type} (request : CheckRequest.t) (manager : Github G) (g : G)
  : result (list PullRequest.t) :=
  match ListOpenPullRequests manager g with
  | (Err err, _) => Err (Errorf "failed to get last commits: %s" err)
  | (Ok pulls, g) =>
      match parseDisableCISkip request with
      | Err err => Err err
      | Ok disableSkipCI => filterLoop request manager disableSkipCI pulls g
      end
  end.

End Resolver.

(** ** Notions to state the properties with *)

(** The values of an [int64], and of an [int] on a 64-bit platform. *)
Definition isInt64 (i : Z) : Prop := strconv.minInt64 <= i <= strconv.maxInt64.

Fixpoint digitsOnly (s : string) : bool :=
  match s with
  | EmptyString => true
  | String c s' => strconv.isDigit c && digitsOnly s'
  end.

(** [p.Tip.CommittedDate.Time]. *)
Definition tipDate (p : PullRequest.t) : time.Time :=
  CommitObject.CommittedDate (PullRequest.Tip p).

(** The range of the [int] field of a pull request. *)
Definition inRange (p : PullRequest.t) : Prop :=
  isInt64 (PullRequest.Number p).

(** *** Decoding a ledger *)

(** The entry a pull request contributes to a ledger: its number, and its
    tip to the second. *)
Definition entryOf (p : PullRequest.t) : AlreadySeenVersion.t :=
  {| AlreadySeenVersion.PR := strconv.Itoa (PullRequest.Number p);
     AlreadySeenVersion.committedDate := time.Unix (time.Time_Unix (tipDate p)) 0 |}.

(** [ExtractVersionFromVersionString] over the pairs of a ledger, in order. *)
Fixpoint decodeEntries (pairs : list string) : outcome (list AlreadySeenVersion.t) :=
  match pairs with
  | [] => Returned []
  | thisPair :: rest =>
      thisPairVersion <- ExtractVersionFromVersionString thisPair ;;
      entries <- decodeEntries rest ;;
      Returned (thisPairVersion :: entries)
  end.

(** The entries of a ledger, as [AboveTheFold] decodes them. *)
Definition decodeLedger (alreadySeen : string) : outcome (list AlreadySeenVersion.t) :=
  decodeEntries (strings.Split alreadySeen ",").

(** The two tests of the loop of [AboveTheFold] on one decoded entry. *)
Definition sameRecord (pullRequest thisPairVersion : AlreadySeenVersion.t) : bool :=
  String.eqb (AlreadySeenVersion.PR thisPairVersion) (AlreadySeenVersion.PR pullRequest).

Definition advanced (pullRequest thisPairVersion : AlreadySeenVersion.t) : bool :=
  sameRecord pullRequest thisPairVersion &&
  time.After (AlreadySeenVersion.committedDate pullRequest)
             (AlreadySeenVersion.committedDate thisPairVersion).

(** The verdict of [AboveTheFold] on decoded entries. *)
Definition aboveEntries (pullRequest : AlreadySeenVersion.t)
  (entries : list AlreadySeenVersion.t) : bool :=
  if negb (existsb (sameRecord pullRequest) entries) then true
  else existsb (advanced pullRequest) entries.


(** The record [p] has an entry in the ledger, and its tip, to the second
    as a ledger records it, is not after the timestamp of any entry that
    carries its number. *)
Definition matchedNotAdvanced (alreadySeen : string) (p : PullRequest.t) : Prop :=
  (exists thisPair entry,
      In thisPair (strings.Split alreadySeen ",") /\
      ExtractVersionFromVersionString thisPair = Returned entry /\
      AlreadySeenVersion.PR entry = strconv.Itoa (PullRequest.Number p)) /\
  (forall thisPair entry,
      In thisPair (strings.Split alreadySeen ",") ->
      ExtractVersionFromVersionString thisPair = Returned entry ->
      AlreadySeenVersion.PR entry = strconv.Itoa (PullRequest.Number p) ->
      time.After (AlreadySeenVersion.committedDate (entryOf p))
                 (AlreadySeenVersion.committedDate entry) = false).

(** *** The order of instants *)

(** [t] is not later than [u]. *)
Definition notLater (t u : time.Time) : Prop :=
  time.sec t < time.sec u \/ (time.sec t = time.sec u /\ time.nsec t <= time.nsec u).

(** *** The partition of the snapshot *)

(** The verdict of [AboveTheFold] on a pull request, where it returns. *)
Definition isAbove (alreadySeen : string) (p : PullRequest.t) : bool :=
  match AboveTheFold (GetVersionStringFromPullRequest p) alreadySeen with
  | Returned above => above
  | _ => false
  end.

(** [p] goes to [alreadySeenPullsToHide]. *)
Definition isBelow (alreadySeen : string) (p : PullRequest.t) : bool :=
  negb (isAbove alreadySeen p).

(** The two partitions of the snapshot against a ledger. *)
Definition newRecords (alreadySeen : string) (snap : list PullRequest.t) :=
  filter (isAbove alreadySeen) snap.

Definition seenRecords (alreadySeen : string) (snap : list PullRequest.t) :=
  filter (isBelow alreadySeen) snap.

(** *** [Check] without the store

    [resolve] is [Check] on the snapshot, as a function of lists: the fold
    partitions the snapshot, and [assemble] builds the response. The slice
    [newPullsToReturn] is read again after [combinedVersions] was sorted;
    when [append] had room in its array the two share it, and what is read
    is the head of the sorted array ([reported]). *)

Section Resolving.
Variable go : GoRuntime.

Fixpoint partitionFold (alreadySeen : string) (snap news seen : list PullRequest.t)
  : outcome (list PullRequest.t * list PullRequest.t) :=
  match snap with
  | [] => Returned (news, seen)
  | p :: rest =>
      above <- AboveTheFold (GetVersionStringFromPullRequest p) alreadySeen ;;
      if (above : bool) then partitionFold alreadySeen rest (news ++ [p]) seen
      else partitionFold alreadySeen rest news (seen ++ [p])
  end.

(** Whether [append(newPullsToReturn, alreadySeenPullsToHide...)] writes into
    the array of [newPullsToReturn]. *)
Definition shares (news seen : list PullRequest.t) : bool :=
  (List.length news + List.length seen <=? slices.capAfter go (List.length news))%nat.

(** The pull requests [Check] builds Versions from. *)
Definition reported (news seen : list PullRequest.t) : list PullRequest.t :=
  if shares news seen
  then firstn (List.length news) (sort_Sort go Pulls_Less (news ++ seen))
  else news.

(** The ledger embedded in the Versions [Check] builds. *)
Definition versionsJustSeen (news seen : list PullRequest.t) : string :=
  GenerateVersion (sort_Sort go Pulls_Less (news ++ seen)).

(** The response before the policy. *)
Definition sortedResponse (news seen : list PullRequest.t) : CheckResponse :=
  sort_Sort go CheckResponse_Less
    (map (fun p => NewVersion p (versionsJustSeen news seen)) (reported news seen)).

(** The response of [Check], from the two partitions. *)
Definition assemble (previous : Version.t) (news seen : list PullRequest.t)
  : CheckResponse :=
  applyPolicy previous (sortedResponse news seen).

Definition resolve (previous : Version.t) (snap : list PullRequest.t)
  : outcome CheckResponse :=
  parts <- partitionFold (Version.AlreadySeen previous) snap [] [] ;;
  Returned (assemble previous (fst parts) (snd parts)).

(** *** The store during the loop *)

(** The slice [s] of the store [h] holds [content], appended one by one. *)
Definition holds (h : slices.heap PullRequest.t) (s : slices.slice)
  (content : list PullRequest.t) : Prop :=
  slices.cells h (slices.array s) = content /\
  slices.len s = List.length content /\
  slices.cap s = slices.capAfter go (List.length content) /\
  (slices.array s < slices.next h)%nat /\
  (content <> [] -> slices.array s <> 0%nat).

(** Two slices on different arrays, unless both are nil. *)
Definition separate (s t : slices.slice) : Prop :=
  slices.array s = slices.array t -> slices.array s = 0%nat.

End Resolving.

(** ** A runtime to evaluate [Check] on small inputs

    The standard toolchain on slices of at most 12 elements: [sort.Sort] is
    its insertion sort, and [append] doubles a capacity below 256. The two
    matchers are exact on the inputs used here: texts in ASCII, patterns
    without metacharacters. *)

Module small.
Section InsertionSort.
Context {A : Type}.
Variable less : A -> A -> bool.

(** One pass of the inner loop: [x] moves down past every element it is
    [less] than; [sortedRev] is the sorted prefix, last element first. *)
Fixpoint insertDown (x : A) (sortedRev : list A) : list A :=
  match sortedRev with
  | [] => [x]
  | y :: below => if less x y then y :: insertDown x below else x :: y :: below
  end.

Definition insertionSort (data : list A) : list A :=
  rev (fold_left (fun sortedRev x => insertDown x sortedRev) data []).

End InsertionSort.

(** [nextslicecap] of the runtime, without the rounding to a size class
    (which keeps a power of two as it is). *)
Definition growslice (oldCap newLen : nat) : nat :=
  if (2 * oldCap <? newLen)%nat then newLen
  else if (oldCap <? 256)%nat then (2 * oldCap)%nat
  else Nat.max newLen (oldCap + (oldCap + 3 * 256) / 4)%nat.

Definition toLower (c : ascii) : ascii :=
  let n := nat_of_ascii c in
  if ((65 <=? n) && (n <=? 90))%nat then ascii_of_nat (n + 32) else c.

Fixpoint lower (s : string) : string :=
  match s with
  | EmptyString => EmptyString
  | String c s' => String (toLower c) (lower s')
  end.

Fixpoint hasSubstring (sub s : string) : bool :=
  String.prefix sub s ||
  match s with
  | EmptyString => false
  | String _ s' => hasSubstring sub s'
  end.

(** The one expression [Check] compiles, on ASCII text. *)
Definition MatchString (expr s : string) : bool :=
  hasSubstring "[ci skip]" (lower s) || hasSubstring "[skip ci]" (lower s).

Definition Match (pattern name : string) : result bool :=
  Ok (String.eqb pattern name).

End small.

(** ** The insertion sort meets the contract of [sort.Sort] *)

Section InsertionSortFacts.
Context {A : Type}.
Variable less : A -> A -> bool.

Lemma insertDown_permutes (x : A) (l : list A) :
  Permutation (small.insertDown less x l) (x :: l).
Proof.
  induction l as [|y l IH]; simpl.
  - apply Permutation_refl.
  - destruct (less x y).
    + eapply perm_trans; [apply perm_skip, IH | apply perm_swap].
    + apply Permutation_refl.
Qed.

Lemma fold_insertDown_permutes (data acc : list A) :
  Permutation (fold_left (fun s x => small.insertDown less x s) data acc) (data ++ acc).
Proof.
  revert acc; induction data as [|x data IH]; intros acc; simpl.
  - apply Permutation_refl.
  - eapply perm_trans; [apply IH|].
    eapply perm_trans; [apply Permutation_app_head, insertDown_permutes|].
    apply Permutation_sym, Permutation_middle.
Qed.

Lemma insertionSort_permutes (data : list A) :
  Permutation (small.insertionSort less data) data.
Proof.
  unfold small.insertionSort.
  eapply perm_trans; [apply Permutation_sym, Permutation_rev|].
  eapply perm_trans; [apply fold_insertDown_permutes|].
  rewrite app_nil_r; apply Permutation_refl.
Qed.

Hypothesis less_order : strictOrder less.

Lemma insertDown_sorted (x : A) (l : list A) :
  StronglySorted (fun a b => less a b = false) l ->
  StronglySorted (fun a b => less a b = false) (small.insertDown less x l).
Proof.
  destruct less_order as [asym trans].
  induction 1 as [|y l Hs IH Hy]; simpl.
  - repeat constructor.
  - destruct (less x y) eqn:E.
    + constructor; [exact IH|].
      eapply Permutation_Forall; [apply Permutation_sym, insertDown_permutes|].
      constructor; [apply asym, E | exact Hy].
    + constructor; [constructor; assumption|].
      constructor; [exact E|].
      rewrite Forall_forall in Hy |- *; intros z Hz.
      apply (trans z y x); [apply Hy, Hz | exact E].
Qed.

Lemma fold_insertDown_sorted (data acc : list A) :
  StronglySorted (fun a b => less a b = false) acc ->
  StronglySorted (fun a b => less a b = false)
    (fold_left (fun s x => small.insertDown less x s) data acc).
Proof.
  revert acc; induction data as [|x data IH]; intros acc Hacc; simpl.
  - exact Hacc.
  - apply IH, insertDown_sorted, Hacc.
Qed.

Lemma StronglySorted_rev (R : A -> A -> Prop) (l : list A) :
  StronglySorted R l -> StronglySorted (fun a b => R b a) (rev l).
Proof.
  induction 1 as [|y l Hs IH Hy]; simpl.
  - constructor.
  - clear Hs. revert IH. generalize (rev_involutive l).
    assert (Hy' : Forall (R y) (rev l)).
    { rewrite Forall_forall in Hy |- *; intros z Hz; apply Hy, in_rev, Hz. }
    clear Hy. intros _. induction (rev l) as [|z r IHr]; simpl; intros Hr.
    + repeat constructor.
    + inversion Hr; subst. inversion Hy'; subst.
      constructor; [apply IHr; assumption|].
      apply Forall_app; split; [assumption|]. repeat constructor; assumption.
Qed.

Lemma insertionSort_sorts (data : list A) :
  StronglySorted (fun a b => less b a = false) (small.insertionSort less data).
Proof.
  unfold small.insertionSort.
  apply (StronglySorted_rev (fun a b => less a b = false)).
  apply fold_insertDown_sorted; constructor.
Qed.

End InsertionSortFacts.

Lemma small_growslice_fits (oldCap newLen : nat) :
  (newLen <= small.growslice oldCap newLen)%nat.
Proof.
  unfold small.growslice.
  destruct (2 * oldCap <? newLen)%nat eqn:E1; [lia|].
  apply Nat.ltb_ge in E1.
  destruct (oldCap <? 256)%nat; lia.
Qed.

(** The runtime used to evaluate [Check] on concrete requests. *)
Definition smallRuntime : GoRuntime :=
  {| sort_Sort := fun A less l => small.insertionSort less l;
     sort_Sort_permutes := fun A less l => insertionSort_permutes less l;
     sort_Sort_sorts := fun A less l ord => insertionSort_sorts less ord l;
     growslice := small.growslice;
     growslice_fits := small_growslice_fits;
     filepath_Match := small.Match;
     regexp_MatchString := small.MatchString |}.

(** ** Facts about [strings] *)

Lemma Contains_append (a b : string) (c : ascii) :
  strings.Contains (a ++ b) c = strings.Contains a c || strings.Contains b c.
Proof.
  induction a as [|x a IH]; simpl; [reflexivity|].
  rewrite IH; apply orb_assoc.
Qed.

Lemma Split_without (s : string) (sep : ascii) :
  strings.Contains s sep = false -> strings.Split s sep = [s].
Proof.
  induction s as [|a s IH]; simpl; intros H; [reflexivity|].
  apply orb_false_iff in H; destruct H as [Ha Hs].
  rewrite Ha, (IH Hs); reflexivity.
Qed.

Lemma Split_append (a b : string) (sep : ascii) :
  strings.Contains a sep = false ->
  strings.Split (a ++ String sep b) sep = a :: strings.Split b sep.
Proof.
  induction a as [|x a IH]; simpl; intros H.
  - rewrite Ascii.eqb_refl; reflexivity.
  - apply orb_false_iff in H; destruct H as [Hx Ha].
    rewrite Hx, (IH Ha); reflexivity.
Qed.

Lemma Split_Join (elems : list string) (sep : ascii) :
  elems <> [] ->
  Forall (fun e => strings.Contains e sep = false) elems ->
  strings.Split (strings.Join elems (String sep EmptyString)) sep = elems.
Proof.
  induction elems as [|e rest IH]; intros Hne Hall; [congruence|].
  inversion Hall as [|? ? He Hrest]; subst.
  destruct rest as [|e' rest'].
  - simpl; apply Split_without, He.
  - change (strings.Join (e :: e' :: rest') (String sep EmptyString))
      with (e ++ String sep (strings.Join (e' :: rest') (String sep EmptyString)))%string.
    rewrite (Split_append _ _ _ He), IH; [reflexivity | discriminate | exact Hrest].
Qed.

(** A field that contains [c] comes from a string that contains [c]. *)
Lemma Contains_field (s : string) (sep c : ascii) (field : string) :
  In field (strings.Split s sep) ->
  strings.Contains field c = true -> strings.Contains s c = true.
Proof.
  revert field; induction s as [|a s IH]; simpl; intros field Hin Hc.
  - destruct Hin as [<-|[]]; exact Hc.
  - destruct (Ascii.eqb a sep).
    + destruct Hin as [<-|Hin]; [discriminate|].
      rewrite (IH _ Hin Hc); apply orb_true_r.
    + destruct (strings.Split s sep) as [|f fs] eqn:E.
      * destruct Hin as [<-|[]]. simpl in Hc.
        rewrite orb_false_r in Hc; rewrite Hc; reflexivity.
      * destruct Hin as [<-|Hin].
        -- simpl in Hc. apply orb_true_iff in Hc; destruct Hc as [Hc|Hc].
           ++ rewrite Hc; reflexivity.
           ++ rewrite (IH f (or_introl eq_refl) Hc); apply orb_true_r.
        -- rewrite (IH field (or_intror Hin) Hc); apply orb_true_r.
Qed.

Lemma Split_second_field (s : string) (sep : ascii) (field : string) :
  nth_error (strings.Split s sep) 1 = Some field -> strings.Contains s sep = true.
Proof.
  intros H. destruct (strings.Contains s sep) eqn:E; [reflexivity|].
  rewrite (Split_without _ _ E) in H; discriminate.
Qed.

(** ** Facts about [strconv] *)

Lemma digitChar_cases (d : Z) :
  0 <= d < 10 ->
  strconv.isDigit (strconv.digitChar d) = true /\
  strconv.digitValue (strconv.digitChar d) = d.
Proof.
  intros H.
  assert (C : d = 0 \/ d = 1 \/ d = 2 \/ d = 3 \/ d = 4 \/ d = 5 \/ d = 6
              \/ d = 7 \/ d = 8 \/ d = 9) by lia.
  repeat (destruct C as [->|C]; [split; reflexivity|]).
  subst; split; reflexivity.
Qed.

Lemma formatBits_digitsOnly (fuel : nat) (u : Z) (acc : string) :
  0 <= u -> digitsOnly acc = true -> digitsOnly (strconv.formatBits fuel u acc) = true.
Proof.
  revert u acc; induction fuel as [|fuel IH]; simpl; intros u acc Hu Hacc; [exact Hacc|].
  destruct (u <? 10) eqn:E.
  - apply Z.ltb_lt in E. simpl.
    rewrite (proj1 (digitChar_cases u (conj Hu E))), Hacc; reflexivity.
  - apply IH; [apply Z.div_pos; lia|]. simpl.
    rewrite (proj1 (digitChar_cases (u mod 10) (Z.mod_pos_bound u 10 eq_refl))), Hacc.
    reflexivity.
Qed.

Lemma formatBits_head (fuel : nat) (u : Z) (acc : string) :
  0 <= u -> digitsOnly acc = true ->
  exists c rest, strconv.formatBits (S fuel) u acc = String c rest /\
                 strconv.isDigit c = true.
Proof.
  intros Hu Hacc.
  pose proof (formatBits_digitsOnly (S fuel) u acc Hu Hacc) as D.
  assert (N : forall f v a, a <> EmptyString -> strconv.formatBits f v a <> EmptyString).
  { induction f as [|f IHf]; simpl; intros v a Ha; [exact Ha|].
    destruct (v <? 10); [discriminate | apply IHf; discriminate]. }
  destruct (strconv.formatBits (S fuel) u acc) as [|c rest] eqn:E.
  - exfalso. simpl in E. destruct (u <? 10); [discriminate|].
    revert E; apply N; discriminate.
  - simpl in D. apply andb_true_iff in D. exists c, rest; tauto.
Qed.

Lemma log2_div10 (u : Z) : 10 <= u -> Z.log2 (u / 10) < Z.log2 u.
Proof.
  intros H.
  assert (Z.log2 (u / 10) <= Z.log2 (u / 2)).
  { apply Z.log2_le_mono. apply Z.div_le_lower_bound; [lia|].
    pose proof (Z.mul_div_le u 10); pose proof (Z.mod_pos_bound u 10).
    pose proof (Z.div_mod u 10). lia. }
  assert (S : u / 2 = Z.shiftr u 1) by (rewrite Z.shiftr_div_pow2; [reflexivity | lia]).
  rewrite S, Z.log2_shiftr in H0 by lia.
  assert (0 < Z.log2 u) by (apply Z.log2_pos; lia). lia.
Qed.

Lemma parseDigits_digit (d n : Z) (s : string) :
  0 <= d < 10 -> 0 <= n -> n * 10 + d <= strconv.maxUint64 ->
  strconv.parseDigits (String (strconv.digitChar d) s) n
  = strconv.parseDigits s (n * 10 + d).
Proof.
  intros Hd Hn Hmax. destruct (digitChar_cases d Hd) as [Hc Hv].
  cbn [strconv.parseDigits]. rewrite Hc, Hv.
  change strconv.maxUint64 with 18446744073709551615 in *.
  change (18446744073709551615 / 10 + 1) with 1844674407370955162.
  destruct (Z.leb_spec 1844674407370955162 n); [lia|].
  destruct (Z.ltb_spec 18446744073709551615 (n * 10 + d)); [lia | reflexivity].
Qed.

Lemma parseDigits_formatBits (fuel : nat) (u : Z) (acc : string) :
  0 <= u <= strconv.maxUint64 -> (Z.to_nat (Z.log2 u) < fuel)%nat ->
  strconv.parseDigits (strconv.formatBits fuel u acc) 0 = strconv.parseDigits acc u.
Proof.
  revert u acc; induction fuel as [|fuel IH]; intros u acc Hu Hf; [lia|].
  cbn [strconv.formatBits]. destruct (u <? 10) eqn:E.
  - apply Z.ltb_lt in E.
    rewrite parseDigits_digit by lia. reflexivity.
  - apply Z.ltb_ge in E.
    pose proof (Z.div_mod u 10 ltac:(lia)) as DM.
    pose proof (Z.mod_pos_bound u 10 eq_refl) as MB.
    rewrite IH.
    + rewrite parseDigits_digit by lia. f_equal; lia.
    + lia.
    + pose proof (log2_div10 u E). pose proof (Z.log2_nonneg (u / 10)). lia.
Qed.

Lemma ParseUint_FormatUint (u : Z) :
  0 <= u <= strconv.maxUint64 -> strconv.ParseUint (strconv.FormatUint u) = inr u.
Proof.
  intros Hu. unfold strconv.FormatUint.
  destruct (formatBits_head (Z.to_nat (Z.log2 u)) u EmptyString (proj1 Hu) eq_refl)
    as (c & rest & E & _).
  unfold strconv.ParseUint. rewrite E, <- E.
  rewrite parseDigits_formatBits; [reflexivity | exact Hu | lia].
Qed.

(** What [FormatInt] writes, [ParseInt] reads back. *)
Lemma ParseInt_FormatInt (i : Z) :
  isInt64 i -> strconv.ParseInt (strconv.FormatInt i) = inr i.
Proof.
  unfold isInt64, strconv.minInt64, strconv.maxInt64. intros Hi.
  unfold strconv.FormatInt. destruct (i <? 0) eqn:E.
  - apply Z.ltb_lt in E. unfold strconv.ParseInt.
    replace (Ascii.eqb "-" "+") with false by reflexivity.
    rewrite Ascii.eqb_refl. cbn [orb negb andb].
    rewrite ParseUint_FormatUint by (unfold strconv.maxUint64; lia).
    replace (2 ^ 63 <? - i) with false by (symmetry; apply Z.ltb_ge; lia).
    f_equal; lia.
  - apply Z.ltb_ge in E.
    destruct (formatBits_head (Z.to_nat (Z.log2 i)) i EmptyString E eq_refl)
      as (c & rest & Ec & Hc).
    pose proof (ParseUint_FormatUint i) as P. unfold strconv.FormatUint in *.
    rewrite Ec in *. unfold strconv.ParseInt.
    assert (Hplus : Ascii.eqb c "+" = false).
    { destruct (Ascii.eqb c "+") eqn:X; [|reflexivity].
      apply Ascii.eqb_eq in X; subst; discriminate. }
    assert (Hminus : Ascii.eqb c "-" = false).
    { destruct (Ascii.eqb c "-") eqn:X; [|reflexivity].
      apply Ascii.eqb_eq in X; subst; discriminate. }
    rewrite Hplus, Hminus. cbn [orb negb andb].
    rewrite P by (unfold strconv.maxUint64; lia).
    replace (2 ^ 63 <=? i) with false by (symmetry; apply Z.leb_gt; lia).
    reflexivity.
Qed.

Lemma FormatInt_injective (i j : Z) :
  isInt64 i -> isInt64 j -> strconv.FormatInt i = strconv.FormatInt j -> i = j.
Proof.
  intros Hi Hj E.
  pose proof (ParseInt_FormatInt i Hi) as Pi.
  rewrite E, (ParseInt_FormatInt j Hj) in Pi. congruence.
Qed.

Lemma digitsOnly_Contains (s : string) (c : ascii) :
  digitsOnly s = true -> strconv.isDigit c = false -> strings.Contains s c = false.
Proof.
  intros Hs Hc. induction s as [|a s IH]; simpl in *; [reflexivity|].
  apply andb_true_iff in Hs; destruct Hs as [Ha Hs].
  rewrite (IH Hs), orb_false_r.
  destruct (Ascii.eqb a c) eqn:E; [|reflexivity].
  apply Ascii.eqb_eq in E; subst; congruence.
Qed.

(** A formatted integer holds neither of the ledger's separators. *)
Lemma FormatInt_Contains (i : Z) (c : ascii) :
  strconv.isDigit c = false -> c <> "-"%char ->
  strings.Contains (strconv.FormatInt i) c = false.
Proof.
  intros Hc Hm. unfold strconv.FormatInt, strconv.FormatUint.
  destruct (i <? 0) eqn:E.
  - apply Z.ltb_lt in E. cbn [strings.Contains].
    apply orb_false_iff; split.
    + destruct (Ascii.eqb "-" c) eqn:X; [|reflexivity].
      apply Ascii.eqb_eq in X; congruence.
    + apply digitsOnly_Contains; [apply formatBits_digitsOnly; [lia | reflexivity] | exact Hc].
  - apply Z.ltb_ge in E.
    apply digitsOnly_Contains; [apply formatBits_digitsOnly; [lia | reflexivity] | exact Hc].
Qed.

Lemma wrap64_isInt64 (z : Z) : isInt64 (time.wrap64 z).
Proof.
  unfold isInt64, time.wrap64, strconv.minInt64, strconv.maxInt64.
  pose proof (Z.mod_pos_bound (z + 2 ^ 63) (2 ^ 64) eq_refl). lia.
Qed.

Lemma Extract_not_Failed (s : string) (e : error) :
  ExtractVersionFromVersionString s <> Failed e.
Proof.
  unfold ExtractVersionFromVersionString.
  destruct (nth_error _ 1); [|discriminate].
  destruct (strconv.ParseInt s0); discriminate.
Qed.

Lemma Extract_GetVersionString (p : PullRequest.t) :
  ExtractVersionFromVersionString (GetVersionStringFromPullRequest p) = Returned (entryOf p).
Proof.
  pose proof (wrap64_isInt64 (time.sec (tipDate p) - time.unixToInternal)) as Hr.
  unfold ExtractVersionFromVersionString, GetVersionStringFromPullRequest.
  change (":" ++ ?x)%string with (String ":" x).
  rewrite Split_append by (apply FormatInt_Contains; [reflexivity | discriminate]).
  rewrite Split_without by (apply FormatInt_Contains; [reflexivity | discriminate]).
  cbn [nth_error nth]. fold (tipDate p). unfold time.Time_Unix at 1.
  rewrite (ParseInt_FormatInt _ Hr). reflexivity.
Qed.

Lemma GetVersionString_no_comma (p : PullRequest.t) :
  strings.Contains (GetVersionStringFromPullRequest p) "," = false.
Proof.
  unfold GetVersionStringFromPullRequest.
  rewrite !Contains_append.
  rewrite !FormatInt_Contains by (reflexivity || discriminate).
  reflexivity.
Qed.

Lemma GetVersionString_colon (p : PullRequest.t) :
  strings.Contains (GetVersionStringFromPullRequest p) ":" = true.
Proof.
  unfold GetVersionStringFromPullRequest.
  rewrite !Contains_append. simpl. apply orb_true_r.
Qed.

Lemma decodeEntries_versionStrings (pulls : list PullRequest.t) :
  decodeEntries (map GetVersionStringFromPullRequest pulls) = Returned (map entryOf pulls).
Proof.
  induction pulls as [|p pulls IH]; [reflexivity|].
  cbn [map decodeEntries].
  rewrite (Extract_GetVersionString p). cbn [bind].
  rewrite IH. reflexivity.
Qed.

(** Decoding inverts [GenerateVersion] on a non-empty list of pull requests. *)
Lemma decodeLedger_GenerateVersion (pulls : list PullRequest.t) :
  pulls <> [] ->
  decodeLedger (GenerateVersion pulls) = Returned (map entryOf pulls).
Proof.
  intros Hne. unfold decodeLedger, GenerateVersion.
  rewrite Split_Join.
  - apply decodeEntries_versionStrings.
  - destruct pulls; [congruence | discriminate].
  - apply Forall_forall. intros e He. apply in_map_iff in He.
    destruct He as (p & <- & _). apply GetVersionString_no_comma.
Qed.

Lemma GenerateVersion_colon (pulls : list PullRequest.t) :
  pulls <> [] -> strings.Contains (GenerateVersion pulls) ":" = true.
Proof.
  destruct pulls as [|p rest]; [congruence|]. intros _.
  unfold GenerateVersion. cbn [map strings.Join].
  destruct (map GetVersionStringFromPullRequest rest).
  - apply GetVersionString_colon.
  - rewrite Contains_append, GetVersionString_colon. reflexivity.
Qed.

(** The loop of [AboveTheFold] decodes the pairs in order and answers from
    the decoded entries. *)
Lemma foldPairs_decodes (pullRequest : AlreadySeenVersion.t) (pairs : list string)
  (isAboveTheFold isFoundInPairs : bool) :
  foldPairs pullRequest pairs isAboveTheFold isFoundInPairs =
  (entries <- decodeEntries pairs ;;
   Returned (isAboveTheFold || existsb (advanced pullRequest) entries,
             isFoundInPairs || existsb (sameRecord pullRequest) entries)).
Proof.
  revert isAboveTheFold isFoundInPairs.
  induction pairs as [|thisPair rest IH]; intros a f; cbn [foldPairs decodeEntries].
  - cbn. rewrite !orb_false_r. reflexivity.
  - destruct (ExtractVersionFromVersionString thisPair) as [v|e|pv]; cbn [bind];
      [|reflexivity|reflexivity].
    fold (sameRecord pullRequest v).
    rewrite !IH. destruct (decodeEntries rest); cbn [bind existsb];
      [|destruct (sameRecord pullRequest v); reflexivity..].
    assert (Hadv : advanced pullRequest v = sameRecord pullRequest v &&
              time.After (AlreadySeenVersion.committedDate pullRequest)
                         (AlreadySeenVersion.committedDate v)) by reflexivity.
    rewrite Hadv.
    destruct (sameRecord pullRequest v); cbn [andb orb].
    + destruct (time.After _ _); cbn [orb]; rewrite ?orb_true_r; reflexivity.
    + reflexivity.
Qed.

Theorem AboveTheFold_decodes (pullRequestVersion alreadySeen : string) :
  AboveTheFold pullRequestVersion alreadySeen =
  if negb (strings.Contains alreadySeen ":") then Returned true
  else
    pullRequest <- ExtractVersionFromVersionString pullRequestVersion ;;
    entries <- decodeLedger alreadySeen ;;
    Returned (aboveEntries pullRequest entries).
Proof.
  unfold AboveTheFold, decodeLedger, aboveEntries.
  destruct (negb _); [reflexivity|].
  destruct (ExtractVersionFromVersionString pullRequestVersion); cbn [bind]; try reflexivity.
  rewrite foldPairs_decodes.
  destruct (decodeEntries _); reflexivity.
Qed.

Lemma decodeEntries_not_Failed (pairs : list string) (e : error) :
  decodeEntries pairs <> Failed e.
Proof.
  induction pairs as [|p rest IH]; cbn [decodeEntries]; [discriminate|].
  pose proof (Extract_not_Failed p) as X.
  destruct (ExtractVersionFromVersionString p); cbn [bind]; try discriminate.
  - destruct (decodeEntries rest); cbn [bind]; try discriminate. exact IH.
  - intros H; apply (X e0); reflexivity.
Qed.

Lemma AboveTheFold_not_Failed (pullRequestVersion alreadySeen : string) (e : error) :
  AboveTheFold pullRequestVersion alreadySeen <> Failed e.
Proof.
  rewrite AboveTheFold_decodes. destruct (negb _); [discriminate|].
  pose proof (Extract_not_Failed pullRequestVersion) as X.
  destruct (ExtractVersionFromVersionString pullRequestVersion); cbn [bind].
  - pose proof (decodeEntries_not_Failed (strings.Split alreadySeen ",")) as Y.
    unfold decodeLedger. destruct (decodeEntries _); cbn [bind]; try discriminate.
    intros H; apply (Y e0); reflexivity.
  - intros H; apply (X e0); reflexivity.
  - discriminate.
Qed.

(** ** The store during the loop *)

Section Resolve.
Variable go : GoRuntime.

Lemma holds_elems h s content : holds go h s content -> slices.elems h s = content.
Proof.
  intros (Hc & Hl & _). unfold slices.elems. rewrite Hc, Hl. apply firstn_all.
Qed.

Lemma holds_nil : holds go slices.empty slices.nil [].
Proof. repeat split; simpl; auto; lia. Qed.

(** Appending one element to a slice keeps it, and any separate slice. *)
Lemma append_holds h s t content other (p : PullRequest.t) :
  holds go h s content -> holds go h t other -> separate s t ->
  holds go (fst (slices.append go h s [p])) (snd (slices.append go h s [p])) (content ++ [p]) /\
  holds go (fst (slices.append go h s [p])) t other /\
  separate (snd (slices.append go h s [p])) t.
Proof.
  intros Hs Ht Hsep.
  pose proof (holds_elems _ _ _ Hs) as He.
  destruct Hs as (Hc & Hl & Hcap & Hlt & Hnz).
  destruct Ht as (Hc' & Hl' & Hcap' & Hlt' & Hnz').
  unfold slices.append, separate in *. rewrite He.
  cbn [List.length]. rewrite Hl, Hcap.
  assert (Hlen : List.length (content ++ [p]) = S (List.length content))
    by (rewrite length_app; simpl; lia).
  replace (List.length content + 1)%nat with (S (List.length content)) by lia.
  destruct (S (List.length content) <=? slices.capAfter go (List.length content))%nat eqn:E;
    unfold holds, slices.store;
    cbn [fst snd slices.cells slices.next slices.array slices.len slices.cap].
  - assert (Hne : content <> []).
    { intros ->. simpl in E. discriminate. }
    specialize (Hnz Hne).
    assert (Hdiff : slices.array t <> slices.array s).
    { intros X. symmetry in X. apply Hnz, Hsep, X. }
    repeat split.
    + rewrite Nat.eqb_refl, Hc.
      rewrite skipn_all2 by lia. rewrite app_nil_r. reflexivity.
    + symmetry; exact Hlen.
    + rewrite Hlen. cbn [slices.capAfter]. rewrite E. reflexivity.
    + exact Hlt.
    + intros _; exact Hnz.
    + apply Nat.eqb_neq in Hdiff. rewrite Hdiff. exact Hc'.
    + exact Hl'.
    + exact Hcap'.
    + exact Hlt'.
    + exact Hnz'.
    + intros X. symmetry in X. contradiction.
  - repeat split.
    + rewrite Nat.eqb_refl. reflexivity.
    + symmetry; exact Hlen.
    + rewrite Hlen. cbn [slices.capAfter]. rewrite E. reflexivity.
    + lia.
    + intros _. lia.
    + replace (slices.array t =? slices.next h)%nat with false
        by (symmetry; apply Nat.eqb_neq; lia).
      exact Hc'.
    + exact Hl'.
    + exact Hcap'.
    + lia.
    + exact Hnz'.
    + intros X. lia.
Qed.

Lemma separate_sym s t : separate s t -> separate t s.
Proof. unfold separate. intros H X. rewrite X. symmetry in X. apply H, X. Qed.

(** After the loop: what the two slices show once [combinedVersions] is
    appended and sorted. *)
Lemma combined_aliases h newS seenS news seen :
  holds go h newS news -> holds go h seenS seen -> separate newS seenS ->
  let appended := slices.append go h newS (slices.elems h seenS) in
  let sorted := slices.sort go Pulls_Less (fst appended) (snd appended) in
  slices.elems sorted (snd appended) = sort_Sort go Pulls_Less (news ++ seen) /\
  slices.elems sorted newS = reported go news seen.
Proof.
  intros Hn Hs Hsep.
  pose proof (holds_elems _ _ _ Hn) as En.
  pose proof (holds_elems _ _ _ Hs) as Es.
  destruct Hn as (Hc & Hl & Hcap & Hlt & Hnz).
  pose proof (Permutation_length (sort_Sort_permutes go _ Pulls_Less (news ++ seen))) as Hlen.
  rewrite length_app in Hlen.
  cbv zeta. unfold slices.append, reported, shares. rewrite Es, En, Hl, Hcap.
  destruct (List.length news + List.length seen <=? slices.capAfter go (List.length news))%nat;
    unfold slices.sort, slices.elems;
    cbn [fst snd slices.store slices.cells slices.next slices.array slices.len slices.cap].
  - rewrite !Nat.eqb_refl, Hc.
    rewrite (skipn_all2 news) by lia. rewrite app_nil_r.
    rewrite (firstn_all2 (n := List.length news + List.length seen) (news ++ seen))
      by (rewrite length_app; lia).
    rewrite skipn_all2 by (rewrite length_app; lia). rewrite app_nil_r.
    split; [|rewrite Hl; reflexivity].
    apply firstn_all2; lia.
  - rewrite !Nat.eqb_refl.
    rewrite (firstn_all2 (n := List.length news + List.length seen) (news ++ seen))
      by (rewrite length_app; lia).
    rewrite skipn_all2 by (rewrite length_app; lia). rewrite app_nil_r.
    replace (slices.array newS =? slices.next h)%nat with false
      by (symmetry; apply Nat.eqb_neq; lia).
    split; [apply firstn_all2; lia|].
    rewrite Hc, Hl. apply firstn_all.
Qed.

End Resolve.

(** ** [Check] is [resolve] on the snapshot *)

Section Refinement.
Variable go : GoRuntime.
Context {G : Type}.
Variable request : CheckRequest.t.
Variable manager : Github G.

Lemma checkLoop_partitions (disableSkipCI : bool) (pulls : list PullRequest.t) :
  forall (g : G) (snap : list PullRequest.t) h newS seenS news seen,
    filterLoop go request manager disableSkipCI pulls g = Ok snap ->
    holds go h newS news -> holds go h seenS seen -> separate newS seenS ->
    match partitionFold (Version.AlreadySeen (CheckRequest.Version request)) snap news seen with
    | Returned (news', seen') =>
        exists h' newS' seenS',
          checkLoop go request manager disableSkipCI pulls h newS seenS g
          = Returned (h', newS', seenS') /\
          holds go h' newS' news' /\ holds go h' seenS' seen' /\ separate newS' seenS'
    | Failed e => checkLoop go request manager disableSkipCI pulls h newS seenS g = Failed e
    | Panicked v => checkLoop go request manager disableSkipCI pulls h newS seenS g = Panicked v
    end.
Proof.
  induction pulls as [|p rest IH]; intros g snap h newS seenS news seen Hf Hn Hs Hsep.
  - simpl in Hf. injection Hf as <-. simpl. eauto 10.
  - cbn [filterLoop checkLoop] in *.
    destruct (passesFilters go request manager disableSkipCI p g) as [[keep|err] g'];
      [|discriminate].
    destruct (filterLoop go request manager disableSkipCI rest g') as [kept|] eqn:Ek;
      [|discriminate].
    injection Hf as <-.
    destruct keep.
    + cbn [partitionFold].
      destruct (AboveTheFold _ _) as [above|e|v]; cbn [bind]; [|reflexivity|reflexivity].
      destruct above.
      * destruct (append_holds go h newS seenS news seen p Hn Hs Hsep) as (A1 & A2 & A3).
        destruct (slices.append go h newS [p]) as [h' s']. cbn [fst snd] in *.
        apply (IH g' kept h' s' seenS (news ++ [p]) seen Ek A1 A2 A3).
      * destruct (append_holds go h seenS newS seen news p Hs Hn (separate_sym _ _ Hsep))
          as (A1 & A2 & A3).
        destruct (slices.append go h seenS [p]) as [h' s']. cbn [fst snd] in *.
        apply (IH g' kept h' newS s' news (seen ++ [p]) Ek A2 A1 (separate_sym _ _ A3)).
    + apply (IH g' kept h newS seenS news seen Ek Hn Hs Hsep).
Qed.

(** On a snapshot that the filters deliver, [Check] panics, or returns, as
    [resolve] does on the snapshot and the previous Version. *)
Theorem Check_resolves (g : G) (snap : list PullRequest.t) :
  snapshot go request manager g = Ok snap ->
  Check go request manager g = resolve go (CheckRequest.Version request) snap.
Proof.
  unfold snapshot, Check, resolve.
  destruct (ListOpenPullRequests manager g) as [[pulls|err] g1]; [|discriminate].
  destruct (parseDisableCISkip request) as [disableSkipCI|err]; [|discriminate].
  intros Hf.
  pose proof (checkLoop_partitions disableSkipCI pulls g1 snap slices.empty slices.nil
                slices.nil [] [] Hf (holds_nil go) (holds_nil go) (fun _ => eq_refl)) as L.
  destruct (partitionFold _ snap [] []) as [[news seen]|e|v]; cbn [bind].
  - destruct L as (h & newS & seenS & -> & Hn & Hs & Hsep). cbn [bind fst snd].
    pose proof (combined_aliases go h newS seenS news seen Hn Hs Hsep) as A.
    cbv zeta in A.
    destruct (slices.append go h newS (slices.elems h seenS)) as [h1 combined].
    cbn [fst snd] in A. destruct A as [-> ->]. reflexivity.
  - rewrite L; reflexivity.
  - rewrite L; reflexivity.
Qed.

(** When [Check] returns, the filters had delivered a snapshot. *)
Lemma checkLoop_Returned_filters (disableSkipCI : bool) (pulls : list PullRequest.t) :
  forall (g : G) h newS seenS st,
    checkLoop go request manager disableSkipCI pulls h newS seenS g = Returned st ->
    exists snap, filterLoop go request manager disableSkipCI pulls g = Ok snap.
Proof.
  induction pulls as [|p rest IH]; intros g h newS seenS st H; cbn [filterLoop checkLoop] in *.
  - eauto.
  - destruct (passesFilters go request manager disableSkipCI p g) as [[keep|err] g'];
      [|discriminate].
    assert (R : exists snap, filterLoop go request manager disableSkipCI rest g' = Ok snap).
    { destruct keep; [|eapply IH; exact H].
      destruct (AboveTheFold _ _) as [above|e|v]; cbn [bind] in H; try discriminate.
      destruct above.
      - destruct (slices.append go h newS [p]) as [h' s']. eapply IH; exact H.
      - destruct (slices.append go h seenS [p]) as [h' s']. eapply IH; exact H. }
    destruct R as [kept ->]. eauto.
Qed.

Theorem Check_Returned_snapshot (g : G) (response : CheckResponse) :
  Check go request manager g = Returned response ->
  exists snap, snapshot go request manager g = Ok snap /\
               resolve go (CheckRequest.Version request) snap = Returned response.
Proof.
  intros H.
  assert (S : exists snap, snapshot go request manager g = Ok snap).
  { unfold Check, snapshot in *.
    destruct (ListOpenPullRequests manager g) as [[pulls|err] g1]; [|discriminate].
    destruct (parseDisableCISkip request) as [disableSkipCI|err]; [|discriminate].
    destruct (checkLoop go request manager disableSkipCI pulls _ _ _ g1) as [st|e|v] eqn:E;
      cbn [bind] in H; try discriminate.
    eapply checkLoop_Returned_filters; exact E. }
  destruct S as [snap Hs]. exists snap. split; [exact Hs|].
  rewrite <- (Check_resolves g snap Hs). exact H.
Qed.

End Refinement.

Lemma After_false (t u : time.Time) : time.After t u = false <-> notLater t u.
Proof.
  unfold time.After, notLater.
  destruct (Z.ltb_spec (time.sec u) (time.sec t));
    destruct (Z.eqb_spec (time.sec t) (time.sec u));
    destruct (Z.ltb_spec (time.nsec u) (time.nsec t)); cbn; split; intros; try lia;
    try discriminate; reflexivity.
Qed.

Lemma After_true (t u : time.Time) :
  time.After t u = true <-> (notLater t u -> False).
Proof.
  rewrite <- After_false. destruct (time.After t u); split; intros; congruence.
Qed.

(** Of two different instants one is after the other. *)
Lemma After_total (t u : time.Time) :
  t <> u -> time.After u t = false -> time.After t u = true.
Proof.
  intros Hne H. apply (proj1 (After_false _ _)) in H. apply (proj2 (After_true _ _)).
  unfold notLater in *.
  destruct t as [ts tn], u as [us un]; simpl in *.
  intros H'. apply Hne. f_equal; lia.
Qed.

Lemma After_irreflexive (t : time.Time) : time.After t t = false.
Proof. apply (proj2 (After_false t t)). unfold notLater. lia. Qed.

Lemma CheckResponse_Less_order : strictOrder CheckResponse_Less.
Proof.
  unfold strictOrder, CheckResponse_Less. split.
  - intros a b H. apply (proj2 (After_false _ _)).
    pose proof (proj1 (After_true _ _) H) as H'.
    unfold notLater in *. lia.
  - intros a b c H1 H2.
    apply (proj1 (After_false _ _)) in H1. apply (proj1 (After_false _ _)) in H2.
    apply (proj2 (After_false _ _)). unfold notLater in *. lia.
Qed.

Lemma Pulls_Less_order : strictOrder Pulls_Less.
Proof.
  unfold strictOrder, Pulls_Less. split.
  - intros a b H. apply Z.ltb_lt in H. apply Z.ltb_ge. lia.
  - intros a b c H1 H2. apply Z.ltb_ge in H1, H2. apply Z.ltb_ge. lia.
Qed.

(** ** The policy on the sorted response *)

Lemma eqb_empty (s : string) : String.eqb s "" = true <-> s = EmptyString.
Proof. apply String.eqb_eq. Qed.

Lemma applyPolicy_nothing_new (previous : Version.t) :
  Version.AlreadySeen previous <> EmptyString -> applyPolicy previous [] = [previous].
Proof.
  intros H. unfold applyPolicy.
  destruct (String.eqb (Version.AlreadySeen previous) "") eqn:E.
  - apply eqb_empty in E; contradiction.
  - reflexivity.
Qed.

Lemma applyPolicy_first_check_empty (previous : Version.t) :
  Version.AlreadySeen previous = EmptyString -> applyPolicy previous [] = [].
Proof. intros H. unfold applyPolicy. rewrite H. reflexivity. Qed.

Lemma applyPolicy_new (previous : Version.t) (response : CheckResponse) :
  response <> [] -> Version.AlreadySeen previous <> EmptyString ->
  applyPolicy previous response = response.
Proof.
  intros Hne H. unfold applyPolicy.
  destruct (String.eqb (Version.AlreadySeen previous) "") eqn:E.
  - apply eqb_empty in E; contradiction.
  - destruct response as [|v rest]; [congruence|]. reflexivity.
Qed.

Lemma applyPolicy_first_check (previous : Version.t) (older : CheckResponse) (latest : Version.t) :
  Version.AlreadySeen previous = EmptyString ->
  applyPolicy previous (older ++ [latest]) = [latest].
Proof.
  intros H. unfold applyPolicy. rewrite H. cbn [String.eqb negb andb].
  rewrite andb_false_r, andb_true_r.
  rewrite length_app. cbn [List.length].
  replace (List.length older + 1 =? 0)%nat with false by (symmetry; apply Nat.eqb_neq; lia).
  cbn [negb]. replace (List.length older + 1 - 1)%nat with (List.length older) by lia.
  rewrite skipn_app, skipn_all, Nat.sub_diag. reflexivity.
Qed.

(** The policy adds nothing to a response that is not empty. *)
Lemma applyPolicy_In (previous : Version.t) (response : CheckResponse) (v : Version.t) :
  response <> [] -> In v (applyPolicy previous response) -> In v response.
Proof.
  intros Hne. unfold applyPolicy.
  destruct response as [|v0 rest]; [congruence|].
  cbn [List.length Nat.eqb andb negb]. destruct (String.eqb _ _); [|auto].
  intros H. rewrite <- (firstn_skipn (S (List.length rest) - 1) (v0 :: rest)).
  apply in_or_app; right; exact H.
Qed.

Lemma applyPolicy_nonempty (previous : Version.t) (response : CheckResponse) :
  response <> [] -> applyPolicy previous response <> [].
Proof.
  intros Hne. destruct (exists_last Hne) as (older & latest & ->).
  destruct (String.eqb (Version.AlreadySeen previous) "") eqn:E.
  - apply eqb_empty in E. rewrite applyPolicy_first_check by exact E. discriminate.
  - rewrite applyPolicy_new; [exact Hne | exact Hne |].
    intros X. apply eqb_empty in X. congruence.
Qed.

Lemma StronglySorted_app_r {A : Type} (R : A -> A -> Prop) (l1 l2 : list A) :
  StronglySorted R (l1 ++ l2) -> StronglySorted R l2.
Proof.
  induction l1 as [|x l1 IH]; simpl; intros H; [exact H|].
  inversion H; subst. auto.
Qed.

Lemma applyPolicy_sorted (R : Version.t -> Version.t -> Prop)
  (previous : Version.t) (response : CheckResponse) :
  StronglySorted R response -> StronglySorted R (applyPolicy previous response).
Proof.
  intros H. unfold applyPolicy.
  destruct response as [|v rest].
  - cbn. destruct (String.eqb _ _); cbn; repeat constructor.
  - cbn [List.length Nat.eqb andb negb app].
    destruct (String.eqb _ _); [|exact H].
    apply (StronglySorted_app_r R (firstn (S (List.length rest) - 1) (v :: rest))).
    rewrite firstn_skipn. exact H.
Qed.

Lemma partitionFold_Returned (alreadySeen : string) (snap : list PullRequest.t) :
  forall news seen parts,
    partitionFold alreadySeen snap news seen = Returned parts ->
    parts = (news ++ filter (isAbove alreadySeen) snap,
             seen ++ filter (isBelow alreadySeen) snap) /\
    forall p, In p snap ->
      AboveTheFold (GetVersionStringFromPullRequest p) alreadySeen
      = Returned (isAbove alreadySeen p).
Proof.
  induction snap as [|p rest IH]; intros news seen parts H; cbn [partitionFold filter] in *.
  - injection H as <-. rewrite !app_nil_r. split; [reflexivity | intros p []].
  - destruct (AboveTheFold (GetVersionStringFromPullRequest p) alreadySeen) as [above|e|v] eqn:E;
      cbn [bind] in H; try discriminate.
    assert (Hp : isAbove alreadySeen p = above) by (unfold isAbove; rewrite E; reflexivity).
    assert (Hb : isBelow alreadySeen p = negb above) by (unfold isBelow; rewrite Hp; reflexivity).
    rewrite Hp, Hb.
    destruct above; cbn [negb]; apply IH in H; destruct H as [-> Hall];
      rewrite <- app_assoc; (split; [reflexivity|]);
      intros q [<-|Hq]; auto; rewrite Hp; exact E.
Qed.

Lemma partitionFold_total (alreadySeen : string) (snap : list PullRequest.t) :
  (forall p, In p snap ->
     exists above, AboveTheFold (GetVersionStringFromPullRequest p) alreadySeen = Returned above) ->
  forall news seen,
    partitionFold alreadySeen snap news seen
    = Returned (news ++ filter (isAbove alreadySeen) snap,
                seen ++ filter (isBelow alreadySeen) snap).
Proof.
  induction snap as [|p rest IH]; intros Hall news seen; cbn [partitionFold filter].
  - rewrite !app_nil_r. reflexivity.
  - destruct (Hall p (or_introl eq_refl)) as [above E].
    assert (Hp : isAbove alreadySeen p = above) by (unfold isAbove; rewrite E; reflexivity).
    assert (Hb : isBelow alreadySeen p = negb above) by (unfold isBelow; rewrite Hp; reflexivity).
    rewrite Hp, Hb, E. cbn [bind].
    destruct above; cbn [negb]; rewrite IH by (intros q Hq; apply Hall; right; exact Hq);
      rewrite <- !app_assoc; reflexivity.
Qed.

Lemma partition_Permutation {A : Type} (f : A -> bool) (l : list A) :
  Permutation (filter f l ++ filter (fun x => negb (f x)) l) l.
Proof.
  induction l as [|x l IH]; simpl; [constructor|].
  destruct (f x); simpl.
  - constructor; exact IH.
  - apply Permutation_sym, Permutation_cons_app, Permutation_sym, IH.
Qed.

Lemma filter_nonempty {A : Type} (f : A -> bool) (l : list A) (x : A) :
  In x l -> f x = true -> filter f l <> [].
Proof.
  intros Hin Hf E.
  assert (In x (filter f l)) by (apply filter_In; auto).
  rewrite E in H. contradiction.
Qed.

Lemma filter_none {A : Type} (f : A -> bool) (l : list A) :
  (forall x, In x l -> f x = false) -> filter f l = [].
Proof.
  induction l as [|x l IH]; simpl; intros H; [reflexivity|].
  rewrite (H x (or_introl eq_refl)). apply IH. intros y Hy; apply H; right; exact Hy.
Qed.

Lemma filter_all {A : Type} (f : A -> bool) (l : list A) :
  (forall x, In x l -> f x = true) -> filter f l = l.
Proof.
  induction l as [|x l IH]; simpl; intros H; [reflexivity|].
  rewrite (H x (or_introl eq_refl)). f_equal. apply IH. intros y Hy; apply H; right; exact Hy.
Qed.

(** ** What [Check] returns, in terms of the snapshot *)

Section Assembled.
Variable go : GoRuntime.
Context {G : Type}.
Variable request : CheckRequest.t.
Variable manager : Github G.

Let previous := CheckRequest.Version request.
Let alreadySeen := Version.AlreadySeen (CheckRequest.Version request).

Lemma Check_Returned_assembles (g : G) (response : CheckResponse) :
  Check go request manager g = Returned response ->
  exists snap,
    snapshot go request manager g = Ok snap /\
    response = assemble go previous (newRecords alreadySeen snap) (seenRecords alreadySeen snap) /\
    forall p, In p snap ->
      AboveTheFold (GetVersionStringFromPullRequest p) alreadySeen
      = Returned (isAbove alreadySeen p).
Proof.
  intros H. destruct (Check_Returned_snapshot go request manager g response H) as (snap & Hs & Hr).
  exists snap. split; [exact Hs|].
  unfold resolve in Hr.
  destruct (partitionFold _ snap [] []) as [parts|e|v] eqn:E; cbn [bind] in Hr; try discriminate.
  destruct (partitionFold_Returned _ _ _ _ _ E) as [-> Hall].
  cbn [fst snd app] in Hr. injection Hr as <-. split; [reflexivity | exact Hall].
Qed.

Lemma Check_assembles (g : G) (snap : list PullRequest.t) :
  snapshot go request manager g = Ok snap ->
  (forall p, In p snap ->
     exists above,
       AboveTheFold (GetVersionStringFromPullRequest p) alreadySeen = Returned above) ->
  Check go request manager g
  = Returned (assemble go previous (newRecords alreadySeen snap) (seenRecords alreadySeen snap)).
Proof.
  intros Hs Hall. rewrite (Check_resolves go request manager g snap Hs).
  unfold resolve. fold alreadySeen. rewrite (partitionFold_total _ _ Hall). reflexivity.
Qed.

End Assembled.

Section AssembleFacts.
Variable go : GoRuntime.

Lemma reported_length (news seen : list PullRequest.t) :
  List.length (reported go news seen) = List.length news.
Proof.
  unfold reported. destruct (shares go news seen); [|reflexivity].
  apply firstn_length_le.
  rewrite (Permutation_length (sort_Sort_permutes go _ Pulls_Less (news ++ seen))).
  rewrite length_app. lia.
Qed.

Lemma reported_nothing (seen : list PullRequest.t) : reported go [] seen = [].
Proof.
  pose proof (reported_length [] seen) as H. destruct (reported go [] seen); [reflexivity|].
  discriminate.
Qed.

Lemma reported_nonempty (news seen : list PullRequest.t) :
  news <> [] -> reported go news seen <> [].
Proof.
  intros Hne E. pose proof (reported_length news seen) as H. rewrite E in H.
  destruct news; [congruence | discriminate].
Qed.

(** With nothing to hide, the reported pull requests are the new ones. *)
Lemma reported_all_new (news : list PullRequest.t) :
  Permutation (reported go news []) news.
Proof.
  unfold reported. destruct (shares go news []); [|apply Permutation_refl].
  rewrite app_nil_r.
  rewrite firstn_all2
    by (rewrite (Permutation_length (sort_Sort_permutes go _ Pulls_Less news)); lia).
  apply sort_Sort_permutes.
Qed.

Lemma assemble_policy (previous : Version.t) (news seen : list PullRequest.t) :
  assemble go previous news seen = applyPolicy previous (sortedResponse go news seen).
Proof. reflexivity. Qed.

Lemma sortedResponse_nothing (seen : list PullRequest.t) : sortedResponse go [] seen = [].
Proof.
  unfold sortedResponse. rewrite reported_nothing. cbn [map].
  apply Permutation_nil, Permutation_sym, sort_Sort_permutes.
Qed.

Lemma sortedResponse_nonempty (news seen : list PullRequest.t) :
  news <> [] -> sortedResponse go news seen <> [].
Proof.
  intros Hne E. unfold sortedResponse in E.
  pose proof (sort_Sort_permutes go _ CheckResponse_Less
    (map (fun p => NewVersion p (versionsJustSeen go news seen)) (reported go news seen))) as P.
  rewrite E in P. apply Permutation_nil in P. apply map_eq_nil in P.
  exact (reported_nonempty news seen Hne P).
Qed.

Lemma sortedResponse_In (news seen : list PullRequest.t) (v : Version.t) :
  In v (sortedResponse go news seen) ->
  exists p, In p (reported go news seen) /\ v = NewVersion p (versionsJustSeen go news seen).
Proof.
  intros H. unfold sortedResponse in H.
  apply (Permutation_in _ (sort_Sort_permutes go _ _ _)) in H.
  apply in_map_iff in H. destruct H as (p & <- & Hp). eauto.
Qed.

Lemma sortedResponse_sorted (news seen : list PullRequest.t) :
  StronglySorted (fun a b => CheckResponse_Less b a = false) (sortedResponse go news seen).
Proof. apply sort_Sort_sorts, CheckResponse_Less_order. Qed.

End AssembleFacts.

(** ** Requests to evaluate [Check] on *)

Module example.

Definition pull (number seconds : Z) : PullRequest.t :=
  {| PullRequest.ID := ("PR" ++ strconv.Itoa number)%string;
     PullRequest.Number := number;
     PullRequest.Title := "a pull request";
     PullRequest.URL := "";
     PullRequest.BaseRefName := "master";
     PullRequest.HeadRefName := "feature";
     PullRequest.RepositoryURL := "";
     PullRequest.Tip :=
       {| CommitObject.ID := ("commit" ++ strconv.Itoa seconds)%string;
          CommitObject.OID := "";
          CommitObject.CommittedDate := time.Unix seconds 0;
          CommitObject.Message := "a commit";
          CommitObject.AuthorLogin := "" |} |}.

Definition source : Source.t :=
  {| Source.Repository := "itsdalmo/test-repository";
     Source.AccessToken := "oauthtoken";
     Source.V3Endpoint := "";
     Source.V4Endpoint := "";
     Source.Paths := [];
     Source.IgnorePaths := [];
     Source.DisableCISkip := "" |}.

(** A remote side that lists [pulls] and no modified files. *)
Definition manager (pulls : list PullRequest.t) : Github unit :=
  {| ListOpenPullRequests := fun g => (Ok pulls, g);
     ListModifiedFiles := fun _ g => (Ok [], g) |}.

(** The Version of pull request 1 at second 5, with the ledger [alreadySeen]. *)
Definition previous (alreadySeen : string) : Version.t :=
  NewVersion (pull 1 5) alreadySeen.

Definition request (alreadySeen : string) : CheckRequest.t :=
  {| CheckRequest.Source := source; CheckRequest.Version := previous alreadySeen |}.

Definition check (pulls : list PullRequest.t) (alreadySeen : string) : outcome CheckResponse :=
  Check smallRuntime (request alreadySeen) (manager pulls) tt.

End example.

(** A remote side with a state: it has one more, skipped, pull request open
    and counts the calls it answers. *)
Definition countingManager : Github nat :=
  {| ListOpenPullRequests := fun calls =>
       (Ok [ {| PullRequest.ID := "PR9"; PullRequest.Number := 9;
                PullRequest.Title := "wip [ci skip]"; PullRequest.URL := "";
                PullRequest.BaseRefName := ""; PullRequest.HeadRefName := "";
                PullRequest.RepositoryURL := "";
                PullRequest.Tip := PullRequest.Tip (example.pull 9 90) |};
             example.pull 1 10; example.pull 2 30 ], S calls);
     ListModifiedFiles := fun _ calls => (Ok [], S calls) |}.

(** The scenarios of the specification. *)
Example first_check_returns_latest :
  example.check [example.pull 1 10; example.pull 2 20] ""
  = Returned [NewVersion (example.pull 2 20) "1:10,2:20"].
Proof. reflexivity. Qed.

Example later_check_returns_advanced :
  example.check [example.pull 1 10; example.pull 2 30] "1:10,2:20"
  = Returned [NewVersion (example.pull 2 30) "1:10,2:30"].
Proof. reflexivity. Qed.

Example unchanged_check_returns_previous :
  example.check [example.pull 1 10; example.pull 2 20] "1:10,2:20"
  = Returned [example.previous "1:10,2:20"].
Proof. reflexivity. Qed.

(** ** The properties of [Check] *)

(** C7. In every list of Versions [Check] returns, a Version that occurs
    before another one was committed no later than it: the output is
    ascending by committed timestamp. *)
Theorem Check_ordered_by_committed (go : GoRuntime) {G : Type}
  (request : CheckRequest.t) (manager : Github G) (g : G)
  (response before between after : CheckResponse) (a b : Version.t) :
  Check go request manager g = Returned response ->
  response = before ++ a :: between ++ b :: after ->
  notLater (Version.CommittedDate a) (Version.CommittedDate b).
Proof.
  intros H Hshape.
  destruct (Check_Returned_assembles go request manager g response H) as (snap & _ & Hr & _).
  rewrite assemble_policy in Hr.
  match type of Hr with _ = applyPolicy _ (sortedResponse _ ?news ?seen) =>
    pose proof (applyPolicy_sorted _ (CheckRequest.Version request) _
                  (sortedResponse_sorted go news seen)) as S
  end.
  rewrite <- Hr, Hshape in S.
  apply StronglySorted_app_r in S. inversion S as [|? ? _ Hall]; subst.
  rewrite Forall_forall in Hall.
  apply (proj1 (After_false _ _)). apply (Hall b). apply in_elt.
Qed.

Lemma Check_ordered_by_committed_witness :
  notLater (time.Unix 20 0) (time.Unix 30 0).
Proof.
  apply (Check_ordered_by_committed smallRuntime
           (example.request "1:10,2:10,3:10")
           (example.manager [example.pull 3 30; example.pull 1 10; example.pull 2 20]) tt
           [NewVersion (example.pull 2 20) "1:10,2:20,3:30";
            NewVersion (example.pull 3 30) "1:10,2:20,3:30"]
           [] [] []
           (NewVersion (example.pull 2 20) "1:10,2:20,3:30")
           (NewVersion (example.pull 3 30) "1:10,2:20,3:30"));
    reflexivity.
Defined.

(** C8. [Check] is a function of the snapshot and the previous Version: two
    invocations that see the same snapshot and are given the same previous
    Version end alike, with the same list of Versions and so the same ledger
    strings, whatever else differs between them (the remote side and its
    state, the source configuration). *)
Theorem Check_idempotent (go : GoRuntime) {G G' : Type}
  (request request' : CheckRequest.t) (manager : Github G) (manager' : Github G')
  (g : G) (g' : G') (snap : list PullRequest.t) :
  snapshot go request manager g = Ok snap ->
  snapshot go request' manager' g' = Ok snap ->
  CheckRequest.Version request = CheckRequest.Version request' ->
  Check go request manager g = Check go request' manager' g'.
Proof.
  intros Hs Hs' Hv.
  rewrite (Check_resolves go request manager g snap Hs).
  rewrite (Check_resolves go request' manager' g' snap Hs').
  rewrite Hv. reflexivity.
Qed.

Lemma Check_idempotent_witness :
  Check smallRuntime (example.request "1:10,2:20")
        (example.manager [example.pull 1 10; example.pull 2 30]) tt
  = Check smallRuntime (example.request "1:10,2:20") countingManager 7%nat.
Proof.
  apply (Check_idempotent smallRuntime _ _ _ _ tt 7%nat
           [example.pull 1 10; example.pull 2 30]); reflexivity.
Defined.

(** C10. The Versions of one response never disagree about what has been
    seen: any two carry the same ledger string; and when some record of the
    snapshot is above the fold, that string is the one ledger computed from
    the whole snapshot before any Version was built. *)
Theorem Check_one_ledger (go : GoRuntime) {G : Type}
  (request : CheckRequest.t) (manager : Github G) (g : G) (response : CheckResponse) :
  Check go request manager g = Returned response ->
  exists snap,
    snapshot go request manager g = Ok snap /\
    (forall a b, In a response -> In b response ->
                 Version.AlreadySeen a = Version.AlreadySeen b) /\
    (newRecords (Version.AlreadySeen (CheckRequest.Version request)) snap <> [] ->
     forall v, In v response ->
       Version.AlreadySeen v
       = versionsJustSeen go
           (newRecords (Version.AlreadySeen (CheckRequest.Version request)) snap)
           (seenRecords (Version.AlreadySeen (CheckRequest.Version request)) snap)).
Proof.
  intros H.
  destruct (Check_Returned_assembles go request manager g response H) as (snap & Hs & Hr & _).
  exists snap. split; [exact Hs|].
  set (news := newRecords _ snap) in *. set (seen := seenRecords _ snap) in *.
  rewrite assemble_policy in Hr.
  assert (New : news <> [] -> forall v, In v response ->
            Version.AlreadySeen v = versionsJustSeen go news seen).
  { intros Hne v Hv. rewrite Hr in Hv.
    apply applyPolicy_In in Hv; [|apply sortedResponse_nonempty, Hne].
    apply sortedResponse_In in Hv. destruct Hv as (p & _ & ->). reflexivity. }
  split; [|exact New].
  intros a b Ha Hb. destruct news as [|n news'] eqn:En.
  - rewrite sortedResponse_nothing in Hr. unfold applyPolicy in Hr. cbn in Hr.
    destruct (String.eqb _ _); cbn in Hr; subst response.
    + destruct Ha.
    + destruct Ha as [<-|[]], Hb as [<-|[]]. reflexivity.
  - rewrite (New ltac:(discriminate) a Ha), (New ltac:(discriminate) b Hb). reflexivity.
Qed.

Lemma Check_one_ledger_witness :
  exists snap,
    snapshot smallRuntime (example.request "1:10,2:10,3:10")
      (example.manager [example.pull 3 30; example.pull 1 10; example.pull 2 20]) tt = Ok snap /\
    (forall a b,
        In a [NewVersion (example.pull 2 20) "1:10,2:20,3:30";
              NewVersion (example.pull 3 30) "1:10,2:20,3:30"] ->
        In b [NewVersion (example.pull 2 20) "1:10,2:20,3:30";
              NewVersion (example.pull 3 30) "1:10,2:20,3:30"] ->
        Version.AlreadySeen a = Version.AlreadySeen b) /\
    (newRecords "1:10,2:10,3:10" snap <> [] ->
     forall v,
       In v [NewVersion (example.pull 2 20) "1:10,2:20,3:30";
             NewVersion (example.pull 3 30) "1:10,2:20,3:30"] ->
       Version.AlreadySeen v
       = versionsJustSeen smallRuntime (newRecords "1:10,2:10,3:10" snap)
                          (seenRecords "1:10,2:10,3:10" snap)).
Proof.
  apply (Check_one_ledger smallRuntime (example.request "1:10,2:10,3:10")
           (example.manager [example.pull 3 30; example.pull 1 10; example.pull 2 20]) tt).
  reflexivity.
Defined.

(** *** A ledger without colon *)

Lemma AboveTheFold_without_colon (pullRequestVersion alreadySeen : string) :
  strings.Contains alreadySeen ":" = false ->
  AboveTheFold pullRequestVersion alreadySeen = Returned true.
Proof. intros H. unfold AboveTheFold. rewrite H. reflexivity. Qed.

(** Without a colon in the previous ledger every record of the snapshot is
    new, and [Check] applies its policy to the Versions of all of them. *)
Lemma Check_without_colon (go : GoRuntime) {G : Type}
  (request : CheckRequest.t) (manager : Github G) (g : G) (snap : list PullRequest.t) :
  strings.Contains (Version.AlreadySeen (CheckRequest.Version request)) ":" = false ->
  snapshot go request manager g = Ok snap ->
  newRecords (Version.AlreadySeen (CheckRequest.Version request)) snap = snap /\
  seenRecords (Version.AlreadySeen (CheckRequest.Version request)) snap = [] /\
  exists response,
    Permutation response
      (map (fun p => NewVersion p (GenerateVersion (sort_Sort go Pulls_Less snap))) snap) /\
    StronglySorted (fun a b => CheckResponse_Less b a = false) response /\
    Check go request manager g = Returned (applyPolicy (CheckRequest.Version request) response).
Proof.
  intros Hc Hs.
  set (alreadySeen := Version.AlreadySeen (CheckRequest.Version request)) in *.
  assert (Habove : forall p, isAbove alreadySeen p = true).
  { intros p. unfold isAbove. rewrite AboveTheFold_without_colon by exact Hc. reflexivity. }
  assert (Hnew : newRecords alreadySeen snap = snap)
    by (apply filter_all; intros; apply Habove).
  assert (Hseen : seenRecords alreadySeen snap = []).
  { apply filter_none. intros p _. unfold isBelow. rewrite Habove. reflexivity. }
  split; [exact Hnew|]. split; [exact Hseen|].
  exists (sortedResponse go snap []). split; [|split].
  - unfold sortedResponse, versionsJustSeen. rewrite app_nil_r.
    eapply perm_trans; [apply sort_Sort_permutes|].
    apply Permutation_map, reported_all_new.
  - apply sortedResponse_sorted.
  - rewrite (Check_assembles go request manager g snap Hs).
    + fold alreadySeen. rewrite Hnew, Hseen. reflexivity.
    + intros p _. exists true. apply AboveTheFold_without_colon, Hc.
Qed.

(** C6. Against a ledger that holds no colon (the empty one, or any garbage
    without colon) [AboveTheFold] answers [true] for every current entry, and
    [Check] does not fail: every record of the snapshot is classified as new,
    none as seen, and the response it applies its policy to holds a Version
    of each record. *)
Theorem colon_free_ledger_all_new (go : GoRuntime) {G : Type}
  (request : CheckRequest.t) (manager : Github G) (g : G)
  (snap : list PullRequest.t) (currentEntry : string) :
  strings.Contains (Version.AlreadySeen (CheckRequest.Version request)) ":" = false ->
  snapshot go request manager g = Ok snap ->
  AboveTheFold currentEntry (Version.AlreadySeen (CheckRequest.Version request)) = Returned true /\
  newRecords (Version.AlreadySeen (CheckRequest.Version request)) snap = snap /\
  seenRecords (Version.AlreadySeen (CheckRequest.Version request)) snap = [] /\
  exists response,
    Permutation response
      (map (fun p => NewVersion p (GenerateVersion (sort_Sort go Pulls_Less snap))) snap) /\
    Check go request manager g = Returned (applyPolicy (CheckRequest.Version request) response).
Proof.
  intros Hc Hs. split; [apply AboveTheFold_without_colon, Hc|].
  destruct (Check_without_colon go request manager g snap Hc Hs)
    as (Hnew & Hseen & response & Hp & _ & Hr).
  split; [exact Hnew|]. split; [exact Hseen|]. exists response. auto.
Qed.

Lemma colon_free_ledger_all_new_witness :
  AboveTheFold "not an entry" "garbage" = Returned true /\
  newRecords "garbage" [example.pull 2 20; example.pull 1 10]
  = [example.pull 2 20; example.pull 1 10] /\
  seenRecords "garbage" [example.pull 2 20; example.pull 1 10] = [] /\
  exists response,
    Permutation response
      (map (fun p => NewVersion p
                       (GenerateVersion
                          (sort_Sort smallRuntime Pulls_Less
                             [example.pull 2 20; example.pull 1 10])))
           [example.pull 2 20; example.pull 1 10]) /\
    example.check [example.pull 2 20; example.pull 1 10] "garbage"
    = Returned (applyPolicy (example.previous "garbage") response).
Proof.
  apply (colon_free_ledger_all_new smallRuntime (example.request "garbage")
           (example.manager [example.pull 2 20; example.pull 1 10]) tt
           [example.pull 2 20; example.pull 1 10] "not an entry"); reflexivity.
Defined.

Example garbage_ledger_returns_all :
  example.check [example.pull 2 20; example.pull 1 10] "garbage"
  = Returned [NewVersion (example.pull 1 10) "1:10,2:20";
              NewVersion (example.pull 2 20) "1:10,2:20"].
Proof. reflexivity. Qed.

(** *** The first check *)

Lemma StronglySorted_last {A : Type} (R : A -> A -> Prop) (l : list A) (z : A) :
  StronglySorted R (l ++ [z]) -> forall x, In x l -> R x z.
Proof.
  induction l as [|y l IH]; simpl; intros H x Hx; [destruct Hx|].
  inversion H as [|? ? Hs Hall]; subst. destruct Hx as [<-|Hx].
  - rewrite Forall_forall in Hall. apply Hall, in_or_app. right; left; reflexivity.
  - apply IH; assumption.
Qed.

Lemma NoDup_map_injective {A B : Type} (f : A -> B) (l : list A) (x y : A) :
  NoDup (map f l) -> In x l -> In y l -> f x = f y -> x = y.
Proof.
  induction l as [|a l IH]; simpl; intros Hnd Hx Hy E; [destruct Hx|].
  inversion Hnd as [|? ? Hna Hnd']; subst.
  destruct Hx as [<-|Hx], Hy as [<-|Hy]; auto.
  - exfalso. apply Hna. rewrite E. apply in_map, Hy.
  - exfalso. apply Hna. rewrite <- E. apply in_map, Hx.
Qed.

(** C3. On the first check (the previous Version carries the empty ledger),
    with at least one record in the snapshot and pairwise different tip
    timestamps, [Check] returns exactly one Version: the one built from the
    record whose tip is after every other record's. *)
Theorem first_check_returns_latest_only (go : GoRuntime) {G : Type}
  (request : CheckRequest.t) (manager : Github G) (g : G) (snap : list PullRequest.t) :
  snapshot go request manager g = Ok snap ->
  snap <> [] ->
  NoDup (map tipDate snap) ->
  Version.AlreadySeen (CheckRequest.Version request) = EmptyString ->
  exists latest,
    In latest snap /\
    (forall p, In p snap -> p <> latest -> time.After (tipDate latest) (tipDate p) = true) /\
    Check go request manager g
    = Returned [NewVersion latest (GenerateVersion (sort_Sort go Pulls_Less snap))].
Proof.
  intros Hs Hne Hnd Hempty.
  assert (Hc : strings.Contains (Version.AlreadySeen (CheckRequest.Version request)) ":" = false)
    by (rewrite Hempty; reflexivity).
  destruct (Check_without_colon go request manager g snap Hc Hs)
    as (_ & _ & response & Hp & Hsorted & Hr).
  set (ledger := GenerateVersion (sort_Sort go Pulls_Less snap)) in *.
  assert (Hrne : response <> []).
  { intros ->. apply Permutation_nil, map_eq_nil in Hp. contradiction. }
  destruct (exists_last Hrne) as (older & last & ->).
  rewrite (applyPolicy_first_check _ older last Hempty) in Hr.
  assert (Hlast : In last (map (fun p => NewVersion p ledger) snap)).
  { eapply Permutation_in; [exact Hp|]. apply in_or_app; right; left; reflexivity. }
  apply in_map_iff in Hlast. destruct Hlast as (latest & <- & Hin).
  exists latest. split; [exact Hin|]. split; [|exact Hr].
  intros p Hpin Hdiff.
  assert (Hdate : tipDate latest <> tipDate p).
  { intros E. apply Hdiff. symmetry.
    apply (NoDup_map_injective tipDate snap latest p Hnd Hin Hpin E). }
  apply After_total; [exact Hdate|].
  assert (Hv : In (NewVersion p ledger) (older ++ [NewVersion latest ledger])).
  { eapply Permutation_in; [apply Permutation_sym, Hp|].
    apply (in_map (fun q => NewVersion q ledger)), Hpin. }
  apply in_app_or in Hv. destruct Hv as [Hv|[Hv|[]]].
  - apply (StronglySorted_last _ _ _ Hsorted _ Hv).
  - exfalso. apply Hdate. apply (f_equal Version.CommittedDate) in Hv. exact Hv.
Qed.

Lemma first_check_returns_latest_only_witness :
  exists latest,
    In latest [example.pull 3 30; example.pull 1 40; example.pull 2 20] /\
    (forall p, In p [example.pull 3 30; example.pull 1 40; example.pull 2 20] ->
               p <> latest -> time.After (tipDate latest) (tipDate p) = true) /\
    example.check [example.pull 3 30; example.pull 1 40; example.pull 2 20] ""
    = Returned [NewVersion latest
                  (GenerateVersion
                     (sort_Sort smallRuntime Pulls_Less
                        [example.pull 3 30; example.pull 1 40; example.pull 2 20]))].
Proof.
  apply (first_check_returns_latest_only smallRuntime (example.request "")
           (example.manager [example.pull 3 30; example.pull 1 40; example.pull 2 20]) tt).
  - reflexivity.
  - discriminate.
  - repeat constructor; simpl; intros H;
      repeat (destruct H as [H|H]; [discriminate|]); exact H.
  - reflexivity.
Defined.

(** *** Entries that do not decode *)

Lemma Split_with_separator (s : string) (sep : ascii) :
  strings.Contains s sep = true ->
  exists first second rest, strings.Split s sep = first :: second :: rest.
Proof.
  induction s as [|a s IH]; simpl; intros H; [discriminate|].
  destruct (Ascii.eqb a sep).
  - destruct s as [|b s']; simpl; [eauto|].
    destruct (Ascii.eqb b sep); [eauto|].
    destruct (strings.Split s' sep); eauto.
  - destruct (IH H) as (f1 & f2 & rest & ->). eauto.
Qed.

Lemma Extract_with_colon (thisPair : string) (index length : nat) :
  strings.Contains thisPair ":" = true ->
  ExtractVersionFromVersionString thisPair <> Panicked (IndexOutOfRange index length).
Proof.
  intros H. unfold ExtractVersionFromVersionString.
  destruct (Split_with_separator _ _ H) as (f1 & f2 & rest & ->). cbn [nth_error].
  destruct (strconv.ParseInt f2); discriminate.
Qed.

Lemma decodeEntries_with_colons (pairs : list string) (index length : nat) :
  (forall thisPair, In thisPair pairs -> strings.Contains thisPair ":" = true) ->
  decodeEntries pairs <> Panicked (IndexOutOfRange index length).
Proof.
  induction pairs as [|thisPair rest IH]; intros Hall; cbn [decodeEntries]; [discriminate|].
  pose proof (Extract_with_colon thisPair index length (Hall _ (or_introl eq_refl))) as X.
  destruct (ExtractVersionFromVersionString thisPair); cbn [bind];
    [|discriminate|intros Q; apply X; congruence].
  specialize (IH (fun e He => Hall e (or_intror He))).
  destruct (decodeEntries rest); cbn [bind]; [discriminate|discriminate|exact IH].
Qed.


(** C9. [AboveTheFold] is partial. Against the ledger ["1:5,garbage"], which
    holds a colon and an entry without one, it panics with an index out of
    range (the second field of a one-element split), for the entry of any
    pull request; and this panic is unreachable when the current entry and
    every comma-separated entry of the ledger hold a colon. *)
Theorem AboveTheFold_partial :
  AboveTheFold "2:7" "1:5,garbage" = Panicked (IndexOutOfRange 1 1) /\
  (forall p : PullRequest.t,
      AboveTheFold (GetVersionStringFromPullRequest p) "1:5,garbage"
      = Panicked (IndexOutOfRange 1 1)) /\
  (forall (currentEntry alreadySeen : string) (index length : nat),
      strings.Contains currentEntry ":" = true ->
      (forall thisPair, In thisPair (strings.Split alreadySeen ",") ->
                        strings.Contains thisPair ":" = true) ->
      AboveTheFold currentEntry alreadySeen <> Panicked (IndexOutOfRange index length)).
Proof.
  split; [reflexivity|]. split.
  - intros p. rewrite AboveTheFold_decodes.
    rewrite (Extract_GetVersionString p). reflexivity.
  - intros currentEntry alreadySeen index length Hc Hall.
    rewrite AboveTheFold_decodes. destruct (negb _); [discriminate|].
    pose proof (Extract_with_colon currentEntry index length Hc) as X.
    destruct (ExtractVersionFromVersionString currentEntry); cbn [bind];
      [|discriminate|intros Q; apply X; congruence].
    pose proof (decodeEntries_with_colons _ index length Hall) as Y.
    unfold decodeLedger.
    destruct (decodeEntries _); cbn [bind];
      [discriminate|discriminate|intros Q; apply Y; congruence].
Qed.






Example notanumber_panic_value :
  example.check [example.pull 1 5] "P1:notanumber"
  = Panicked (PanicError (NumError.mk "ParseInt" "notanumber" ErrSyntax)).
Proof. reflexivity. Qed.


(** *** The ledger of the Versions [Check] builds *)

Lemma Itoa_NoDup (snap : list PullRequest.t) :
  Forall inRange snap -> NoDup (map PullRequest.Number snap) ->
  NoDup (map (fun p => strconv.Itoa (PullRequest.Number p)) snap).
Proof.
  intros Hr Hnd. rewrite <- (map_map PullRequest.Number strconv.Itoa).
  apply NoDup_map_NoDup_ForallPairs; [|exact Hnd].
  intros x y Hx Hy E. apply in_map_iff in Hx, Hy.
  destruct Hx as (p & <- & Hp), Hy as (q & <- & Hq).
  rewrite Forall_forall in Hr.
  apply FormatInt_injective; [apply (Hr p Hp) | apply (Hr q Hq) | exact E].
Qed.

(** C2, as the code has it. When some record of the snapshot is above the
    fold, so that [Check] builds its Versions anew, the ledger carried by
    every Version it returns decodes to exactly one entry per record of the
    snapshot, with that record's current tip timestamp, and to nothing else;
    record numbers being distinct, so are the decoded ids. *)
Theorem new_versions_carry_whole_snapshot (go : GoRuntime) {G : Type}
  (request : CheckRequest.t) (manager : Github G) (g : G)
  (snap : list PullRequest.t) (response : CheckResponse) (v : Version.t) :
  snapshot go request manager g = Ok snap ->
  Forall inRange snap ->
  NoDup (map PullRequest.Number snap) ->
  Check go request manager g = Returned response ->
  newRecords (Version.AlreadySeen (CheckRequest.Version request)) snap <> [] ->
  In v response ->
  exists entries,
    decodeLedger (Version.AlreadySeen v) = Returned entries /\
    Permutation entries (map entryOf snap) /\
    NoDup (map AlreadySeenVersion.PR entries).
Proof.
  intros Hs Hr Hnd Hc Hnew Hv.
  destruct (Check_Returned_assembles go request manager g response Hc) as (snap' & Hs' & Hresp & _).
  rewrite Hs in Hs'. injection Hs' as <-.
  set (news := newRecords _ snap) in *. set (seen := seenRecords _ snap) in *.
  rewrite assemble_policy in Hresp. rewrite Hresp in Hv.
  apply applyPolicy_In in Hv; [|apply sortedResponse_nonempty, Hnew].
  apply sortedResponse_In in Hv. destruct Hv as (p & _ & ->).
  cbn [NewVersion Version.AlreadySeen]. unfold versionsJustSeen.
  set (combined := sort_Sort go Pulls_Less (news ++ seen)).
  assert (P : Permutation combined snap).
  { eapply perm_trans; [apply sort_Sort_permutes|]. apply partition_Permutation. }
  exists (map entryOf combined). split; [|split].
  - apply decodeLedger_GenerateVersion.
    intros E. rewrite E in P. apply Permutation_nil in P. subst snap. apply Hnew. reflexivity.
  - apply Permutation_map, P.
  - rewrite map_map. cbn [entryOf AlreadySeenVersion.PR].
    eapply Permutation_NoDup; [apply Permutation_map, Permutation_sym, P|].
    apply Itoa_NoDup; assumption.
Qed.

Lemma new_versions_carry_whole_snapshot_witness :
  exists entries,
    decodeLedger (Version.AlreadySeen (NewVersion (example.pull 2 30) "1:10,2:30"))
    = Returned entries /\
    Permutation entries (map entryOf [example.pull 2 30; example.pull 1 10]) /\
    NoDup (map AlreadySeenVersion.PR entries).
Proof.
  apply (new_versions_carry_whole_snapshot smallRuntime (example.request "1:10,2:20,3:25")
           (example.manager [example.pull 2 30; example.pull 1 10]) tt
           [example.pull 2 30; example.pull 1 10]
           [NewVersion (example.pull 2 30) "1:10,2:30"]).
  - reflexivity.
  - repeat constructor; cbv; intros; discriminate.
  - repeat constructor; simpl; intros H;
      repeat (destruct H as [H|H]; [discriminate|]); exact H.
  - reflexivity.
  - discriminate.
  - left; reflexivity.
Defined.

(** C2, as stated, fails: the Version [Check] re-emits when nothing advanced
    carries the previous ledger, here with an entry for record 2, which is
    no longer in the snapshot. *)
Lemma reemitted_ledger_keeps_closed_record :
  example.check [example.pull 1 5] "1:5,2:7" = Returned [example.previous "1:5,2:7"] /\
  decodeLedger (Version.AlreadySeen (example.previous "1:5,2:7"))
  = Returned [ {| AlreadySeenVersion.PR := "1";
                  AlreadySeenVersion.committedDate := time.Unix 5 0 |};
               {| AlreadySeenVersion.PR := "2";
                  AlreadySeenVersion.committedDate := time.Unix 7 0 |} ] /\
  ~ Permutation
      [ {| AlreadySeenVersion.PR := "1";
           AlreadySeenVersion.committedDate := time.Unix 5 0 |};
        {| AlreadySeenVersion.PR := "2";
           AlreadySeenVersion.committedDate := time.Unix 7 0 |} ]
      (map entryOf [example.pull 1 5]).
Proof.
  split; [reflexivity|]. split; [reflexivity|].
  intros P. apply Permutation_length in P. discriminate.
Qed.

(** *** The steady state *)

Lemma Extract_Returned (thisPair : string) (entry : AlreadySeenVersion.t) :
  ExtractVersionFromVersionString thisPair = Returned entry ->
  strings.Contains thisPair ":" = true.
Proof.
  unfold ExtractVersionFromVersionString.
  destruct (nth_error _ 1) as [field|] eqn:E; [|discriminate].
  destruct (strconv.ParseInt field); [discriminate|].
  intros _. eapply Split_second_field; exact E.
Qed.

Lemma decodeEntries_In (pairs : list string) (entries : list AlreadySeenVersion.t) :
  decodeEntries pairs = Returned entries ->
  (forall entry, In entry entries ->
     exists thisPair, In thisPair pairs /\
                      ExtractVersionFromVersionString thisPair = Returned entry) /\
  (forall thisPair, In thisPair pairs ->
     exists entry, In entry entries /\
                   ExtractVersionFromVersionString thisPair = Returned entry).
Proof.
  revert entries. induction pairs as [|first rest IH]; intros entries H; cbn [decodeEntries] in H.
  - injection H as <-. split; intros ? [].
  - destruct (ExtractVersionFromVersionString first) as [e|?|?] eqn:E; cbn [bind] in H;
      try discriminate.
    destruct (decodeEntries rest) as [es|?|?]; cbn [bind] in H; try discriminate.
    injection H as <-. destruct (IH es eq_refl) as [I1 I2]. split.
    + intros entry [<-|Hin].
      * exists first. split; [left; reflexivity | exact E].
      * destruct (I1 entry Hin) as (q & Hq & Eq). exists q. split; [right; exact Hq | exact Eq].
    + intros q [<-|Hin].
      * exists e. split; [left; reflexivity | exact E].
      * destruct (I2 q Hin) as (entry & He & Eq). exists entry.
        split; [right; exact He | exact Eq].
Qed.

(** A record that is matched and not advanced is below the fold of a ledger
    that decodes. *)
Lemma matchedNotAdvanced_below (alreadySeen : string) (entries : list AlreadySeenVersion.t)
  (p : PullRequest.t) :
  decodeLedger alreadySeen = Returned entries ->
  matchedNotAdvanced alreadySeen p ->
  AboveTheFold (GetVersionStringFromPullRequest p) alreadySeen = Returned false.
Proof.
  intros Hd ((q & entry & Hq & Eq & Hid) & Hle).
  destruct (decodeEntries_In _ _ Hd) as [I1 I2].
  rewrite AboveTheFold_decodes.
  rewrite (Contains_field alreadySeen "," ":" q Hq (Extract_Returned _ _ Eq)).
  cbn [negb]. rewrite (Extract_GetVersionString p), Hd. cbn [bind].
  unfold aboveEntries.
  assert (Hfound : existsb (sameRecord (entryOf p)) entries = true).
  { apply existsb_exists. destruct (I2 q Hq) as (entry' & Hin & Eq').
    exists entry'. split; [exact Hin|].
    assert (entry' = entry) by congruence. subst entry'.
    unfold sameRecord. cbn [entryOf AlreadySeenVersion.PR]. apply String.eqb_eq, Hid. }
  rewrite Hfound. cbn [negb]. f_equal.
  destruct (existsb (advanced (entryOf p)) entries) eqn:Ea; [|reflexivity].
  apply existsb_exists in Ea. destruct Ea as (e & Hin & Hadv).
  unfold advanced, sameRecord in Hadv. apply andb_true_iff in Hadv.
  destruct Hadv as [Hsame Hafter]. apply String.eqb_eq in Hsame.
  destruct (I1 e Hin) as (q' & Hq' & Eq').
  pose proof (Hle q' e Hq' Eq' Hsame) as L. congruence.
Qed.

(** C4, as the code has it. When the previous ledger is not empty and all of
    its entries decode, every record of the snapshot has an entry in it, and
    no record's tip is after the timestamp of an entry with its number, then
    [Check] returns the previous Version, unchanged, and nothing else. *)
Theorem steady_state_reemits_previous (go : GoRuntime) {G : Type}
  (request : CheckRequest.t) (manager : Github G) (g : G)
  (snap : list PullRequest.t) (entries : list AlreadySeenVersion.t) :
  snapshot go request manager g = Ok snap ->
  Version.AlreadySeen (CheckRequest.Version request) <> EmptyString ->
  decodeLedger (Version.AlreadySeen (CheckRequest.Version request)) = Returned entries ->
  (forall p, In p snap ->
             matchedNotAdvanced (Version.AlreadySeen (CheckRequest.Version request)) p) ->
  Check go request manager g = Returned [CheckRequest.Version request].
Proof.
  intros Hs Hne Hd Hall.
  set (alreadySeen := Version.AlreadySeen (CheckRequest.Version request)) in *.
  assert (Hbelow : forall p, In p snap ->
            AboveTheFold (GetVersionStringFromPullRequest p) alreadySeen = Returned false).
  { intros p Hp. apply (matchedNotAdvanced_below alreadySeen entries p);
      [exact Hd | apply Hall, Hp]. }
  rewrite (Check_assembles go request manager g snap Hs)
    by (intros p Hp; exists false; apply Hbelow, Hp).
  fold alreadySeen.
  assert (Hnew : newRecords alreadySeen snap = []).
  { apply filter_none. intros p Hp. unfold isAbove. rewrite (Hbelow p Hp). reflexivity. }
  rewrite Hnew, assemble_policy, sortedResponse_nothing.
  rewrite applyPolicy_nothing_new by exact Hne. reflexivity.
Qed.

Lemma steady_state_reemits_previous_witness :
  example.check [example.pull 1 10; example.pull 2 20] "2:20,1:15"
  = Returned [example.previous "2:20,1:15"].
Proof.
  apply (steady_state_reemits_previous smallRuntime (example.request "2:20,1:15")
           (example.manager [example.pull 1 10; example.pull 2 20]) tt
           [example.pull 1 10; example.pull 2 20]
           [ {| AlreadySeenVersion.PR := "2";
                AlreadySeenVersion.committedDate := time.Unix 20 0 |};
             {| AlreadySeenVersion.PR := "1";
                AlreadySeenVersion.committedDate := time.Unix 15 0 |} ]).
  - reflexivity.
  - discriminate.
  - reflexivity.
  - intros p [<-|[<-|[]]]; split.
    + exists "1:15"%string, {| AlreadySeenVersion.PR := "1";
                               AlreadySeenVersion.committedDate := time.Unix 15 0 |}.
      repeat split. right; left; reflexivity.
    + intros thisPair entry [<-|[<-|[]]] HE Hid; vm_compute in HE; injection HE as <-;
        vm_compute in Hid; try discriminate; reflexivity.
    + exists "2:20"%string, {| AlreadySeenVersion.PR := "2";
                               AlreadySeenVersion.committedDate := time.Unix 20 0 |}.
      repeat split. left; reflexivity.
    + intros thisPair entry [<-|[<-|[]]] HE Hid; vm_compute in HE; injection HE as <-;
        vm_compute in Hid; try discriminate; reflexivity.
Defined.

(** C4, as stated, fails: record 1 has its entry ["1:5"] and did not
    advance, yet [Check] does not return the previous Version, because
    another entry of the ledger does not decode. *)
Lemma steady_state_panics_on_undecodable_entry :
  Version.AlreadySeen (example.previous "1:5,P1:notanumber") <> EmptyString /\
  (forall p, In p [example.pull 1 5] -> matchedNotAdvanced "1:5,P1:notanumber" p) /\
  example.check [example.pull 1 5] "1:5,P1:notanumber"
  = Panicked (PanicError (NumError.mk "ParseInt" "notanumber" ErrSyntax)).
Proof.
  split; [discriminate|]. split; [|reflexivity].
  intros p [<-|[]]. split.
  - exists "1:5"%string, {| AlreadySeenVersion.PR := "1";
                            AlreadySeenVersion.committedDate := time.Unix 5 0 |}.
    repeat split. left; reflexivity.
  - intros thisPair entry [<-|[<-|[]]] HE Hid; vm_compute in HE; [|discriminate].
    injection HE as <-. reflexivity.
Qed.

(** *** Equal timestamps *)

(** A record whose tip carries the timestamp of its entry is below the fold
    of a ledger that decodes to entries with distinct ids. *)
Lemma same_timestamp_below_fold (alreadySeen : string)
  (entries : list AlreadySeenVersion.t) (p : PullRequest.t) :
  decodeLedger alreadySeen = Returned entries ->
  NoDup (map AlreadySeenVersion.PR entries) ->
  In (entryOf p) entries ->
  AboveTheFold (GetVersionStringFromPullRequest p) alreadySeen = Returned false.
Proof.
  intros Hd Hnd Hin.
  apply (matchedNotAdvanced_below alreadySeen entries p Hd).
  destruct (decodeEntries_In _ _ Hd) as [I1 I2]. split.
  - destruct (I1 _ Hin) as (q & Hq & Eq). exists q, (entryOf p). auto.
  - intros q entry Hq Eq Hid.
    destruct (I2 q Hq) as (entry' & Hin' & Eq').
    assert (entry' = entry) by congruence. subst entry'.
    assert (entry = entryOf p).
    { apply (NoDup_map_injective AlreadySeenVersion.PR entries); auto. }
    subst entry. apply After_irreflexive.
Qed.

(** C5, on the code. Four pull requests are open, listed newest first;
    records 2, 3 and 4 advanced past the ledger and record 1 carries exactly
    the timestamp of its entry. [AboveTheFold] puts record 1 below the fold
    and record 4 above it, and still [Check] returns a Version of record 1
    and none of record 4: [append] had room for record 1 in the array of
    [newPullsToReturn], whose first three cells, once [combinedVersions] is
    sorted by number, are records 1, 2 and 3. *)
Theorem unchanged_record_is_reported :
  AboveTheFold (GetVersionStringFromPullRequest (example.pull 1 5)) "1:5,2:1,3:1,4:1"
  = Returned false /\
  AboveTheFold (GetVersionStringFromPullRequest (example.pull 4 40)) "1:5,2:1,3:1,4:1"
  = Returned true /\
  example.check [example.pull 4 40; example.pull 3 30; example.pull 2 20; example.pull 1 5]
                "1:5,2:1,3:1,4:1"
  = Returned [NewVersion (example.pull 1 5) "1:5,2:20,3:30,4:40";
              NewVersion (example.pull 2 20) "1:5,2:20,3:30,4:40";
              NewVersion (example.pull 3 30) "1:5,2:20,3:30,4:40"].
Proof. repeat split. Qed.

(** With one pull request less ahead of it the array is full, [append]
    copies, and the same record 1 is hidden. *)
Example unchanged_record_is_hidden :
  example.check [example.pull 3 30; example.pull 2 20; example.pull 1 5] "1:5,2:1,3:1"
  = Returned [NewVersion (example.pull 2 20) "1:5,2:20,3:30";
              NewVersion (example.pull 3 30) "1:5,2:20,3:30"].
Proof. reflexivity. Qed.

(** *** Further properties *)

(** A ledger records a tip to the second: for a tip within the range of
    [Time], the instant of its entry is the tip without its nanoseconds. *)
Lemma tip_to_the_second (t : time.Time) :
  isInt64 (time.sec t) -> time.Unix (time.Time_Unix t) 0 = time.mkTime (time.sec t) 0.
Proof.
  unfold isInt64, strconv.minInt64, strconv.maxInt64. intros H.
  unfold time.Unix, time.Time_Unix, time.wrap64. f_equal.
  replace ((time.sec t - time.unixToInternal + 2 ^ 63) mod 2 ^ 64 - 2 ^ 63
           + time.unixToInternal + 2 ^ 63)
    with ((time.sec t - time.unixToInternal + 2 ^ 63) mod 2 ^ 64 + time.unixToInternal)
    by lia.
  rewrite Zplus_mod_idemp_l.
  replace (time.sec t - time.unixToInternal + 2 ^ 63 + time.unixToInternal)
    with (time.sec t + 2 ^ 63) by lia.
  rewrite Z.mod_small by lia. lia.
Qed.

(** [time.Unix] wraps around: an entry stamped with the largest [int64]
    decodes to an instant before year 1, and a tip at second 5 is after it. *)
Example far_future_entry_wraps :
  AboveTheFold (GetVersionStringFromPullRequest (example.pull 1 5)) "1:9223372036854775807"
  = Returned true.
Proof. reflexivity. Qed.

(** When [append] has room for the seen pull requests in the array of the
    new ones, [Check] builds its Versions from the first cells of the array
    once sorted by number: from the lowest-numbered records of the snapshot,
    as many as are new, whether they are new or not. *)
Theorem Check_reads_sorted_array (go : GoRuntime) {G : Type}
  (request : CheckRequest.t) (manager : Github G) (g : G) (snap : list PullRequest.t) :
  snapshot go request manager g = Ok snap ->
  (forall p, In p snap ->
     exists above,
       AboveTheFold (GetVersionStringFromPullRequest p)
                    (Version.AlreadySeen (CheckRequest.Version request)) = Returned above) ->
  shares go (newRecords (Version.AlreadySeen (CheckRequest.Version request)) snap)
            (seenRecords (Version.AlreadySeen (CheckRequest.Version request)) snap) = true ->
  Check go request manager g
  = Returned
      (applyPolicy (CheckRequest.Version request)
         (sort_Sort go CheckResponse_Less
            (map (fun p =>
                    NewVersion p
                      (GenerateVersion
                         (sort_Sort go Pulls_Less
                            (newRecords (Version.AlreadySeen (CheckRequest.Version request)) snap
                             ++ seenRecords (Version.AlreadySeen (CheckRequest.Version request)) snap))))
                 (firstn
                    (List.length
                       (newRecords (Version.AlreadySeen (CheckRequest.Version request)) snap))
                    (sort_Sort go Pulls_Less
                       (newRecords (Version.AlreadySeen (CheckRequest.Version request)) snap
                        ++ seenRecords (Version.AlreadySeen (CheckRequest.Version request)) snap)))))).
Proof.
  intros Hs Hall Hshare. rewrite (Check_assembles go request manager g snap Hs Hall).
  unfold assemble, sortedResponse, reported, versionsJustSeen. rewrite Hshare. reflexivity.
Qed.

Lemma Check_reads_sorted_array_witness :
  example.check [example.pull 4 40; example.pull 3 30; example.pull 2 20; example.pull 1 5]
                "1:5,2:1,3:1,4:1"
  = Returned [NewVersion (example.pull 1 5) "1:5,2:20,3:30,4:40";
              NewVersion (example.pull 2 20) "1:5,2:20,3:30,4:40";
              NewVersion (example.pull 3 30) "1:5,2:20,3:30,4:40"].
Proof.
  apply (Check_reads_sorted_array smallRuntime (example.request "1:5,2:1,3:1,4:1")
           (example.manager
              [example.pull 4 40; example.pull 3 30; example.pull 2 20; example.pull 1 5]) tt
           [example.pull 4 40; example.pull 3 30; example.pull 2 20; example.pull 1 5]).
  - reflexivity.
  - intros p [<-|[<-|[<-|[<-|[]]]]]; eexists; reflexivity.
  - reflexivity.
Defined.

(** When [append] has to copy, [Check] hides what is below the fold: with
    distinct global ids in the snapshot and some record above the fold, no
    returned Version is one of a record below it. *)
Theorem hidden_when_append_copies (go : GoRuntime) {G : Type}
  (request : CheckRequest.t) (manager : Github G) (g : G)
  (snap : list PullRequest.t) (response : CheckResponse)
  (p : PullRequest.t) (v : Version.t) :
  snapshot go request manager g = Ok snap ->
  Check go request manager g = Returned response ->
  shares go (newRecords (Version.AlreadySeen (CheckRequest.Version request)) snap)
            (seenRecords (Version.AlreadySeen (CheckRequest.Version request)) snap) = false ->
  newRecords (Version.AlreadySeen (CheckRequest.Version request)) snap <> [] ->
  NoDup (map PullRequest.ID snap) ->
  In p snap ->
  AboveTheFold (GetVersionStringFromPullRequest p)
               (Version.AlreadySeen (CheckRequest.Version request)) = Returned false ->
  In v response ->
  Version.PR v <> PullRequest.ID p.
Proof.
  intros Hs Hc Hshare Hnew Hnd Hp Hbelow Hv.
  destruct (Check_Returned_assembles go request manager g response Hc) as (snap' & Hs' & Hr & _).
  rewrite Hs in Hs'. injection Hs' as <-.
  rewrite assemble_policy in Hr. rewrite Hr in Hv.
  apply applyPolicy_In in Hv; [|apply sortedResponse_nonempty, Hnew].
  apply sortedResponse_In in Hv. destruct Hv as (q & Hq & ->).
  unfold reported in Hq. rewrite Hshare in Hq.
  apply filter_In in Hq. destruct Hq as [Hq Habove].
  cbn [NewVersion Version.PR]. intros E.
  assert (q = p) by (apply (NoDup_map_injective PullRequest.ID snap); auto).
  subst q. unfold isAbove in Habove. rewrite Hbelow in Habove. discriminate.
Qed.

Lemma hidden_when_append_copies_witness :
  Version.PR (NewVersion (example.pull 2 20) "1:5,2:20,3:30")
  <> PullRequest.ID (example.pull 1 5).
Proof.
  apply (hidden_when_append_copies smallRuntime (example.request "1:5,2:1,3:1")
           (example.manager [example.pull 3 30; example.pull 2 20; example.pull 1 5]) tt
           [example.pull 3 30; example.pull 2 20; example.pull 1 5]
           [NewVersion (example.pull 2 20) "1:5,2:20,3:30";
            NewVersion (example.pull 3 30) "1:5,2:20,3:30"]).
  - reflexivity.
  - reflexivity.
  - reflexivity.
  - discriminate.
  - repeat constructor; simpl; intros H;
      repeat (destruct H as [H|H]; [discriminate|]); exact H.
  - right; right; left; reflexivity.
  - reflexivity.
  - left; reflexivity.
Defined.

Lemma same_timestamp_below_fold_witness :
  AboveTheFold (GetVersionStringFromPullRequest (example.pull 2 7)) "1:5,2:7" = Returned false.
Proof.
  apply (same_timestamp_below_fold "1:5,2:7"
           [entryOf (example.pull 1 5); entryOf (example.pull 2 7)] (example.pull 2 7)).
  - reflexivity.
  - repeat constructor; simpl; intros H;
      repeat (destruct H as [H|H]; [discriminate|]); exact H.
  - right; left; reflexivity.
Defined.

(** ** More of [Check]: what it returns and when *)

(** A remote side whose only open pull request carries a skip marker. *)
Definition countingManagerEmpty : Github nat :=
  {| ListOpenPullRequests := fun calls =>
       (Ok [ {| PullRequest.ID := "PR9"; PullRequest.Number := 9;
                PullRequest.Title := "wip [skip ci]"; PullRequest.URL := "";
                PullRequest.BaseRefName := ""; PullRequest.HeadRefName := "";
                PullRequest.RepositoryURL := "";
                PullRequest.Tip := PullRequest.Tip (example.pull 9 90) |} ], S calls);
     ListModifiedFiles := fun _ calls => (Ok [], S calls) |}.

Lemma reported_from_snapshot (go : GoRuntime) (alreadySeen : string)
  (snap : list PullRequest.t) (p : PullRequest.t) :
  In p (reported go (newRecords alreadySeen snap) (seenRecords alreadySeen snap)) ->
  In p snap.
Proof.
  unfold reported. destruct (shares go _ _); intros H.
  - match type of H with In _ (firstn ?n ?l) =>
      assert (H' : In p l)
        by (rewrite <- (firstn_skipn n l); apply in_or_app; left; exact H)
    end. clear H. rename H' into H.
    apply (Permutation_in _ (sort_Sort_permutes go _ _ _)) in H.
    apply (Permutation_in _ (partition_Permutation (isAbove alreadySeen) snap)) in H.
    exact H.
  - apply filter_In in H. tauto.
Qed.

(** [Check] invents no Version: whatever it returns is the previous Version
    or the Version of a record of the snapshot, with the one ledger encoded
    from the sorted snapshot. *)
Theorem Check_returns_snapshot_versions (go : GoRuntime) {G : Type}
  (request : CheckRequest.t) (manager : Github G) (g : G)
  (snap : list PullRequest.t) (response : CheckResponse) (v : Version.t) :
  snapshot go request manager g = Ok snap ->
  Check go request manager g = Returned response ->
  In v response ->
  v = CheckRequest.Version request \/
  exists p, In p snap /\
            Version.PR v = PullRequest.ID p /\
            Version.Commit v = CommitObject.ID (PullRequest.Tip p) /\
            Version.CommittedDate v = tipDate p /\
            exists sorted, Permutation sorted snap /\
                           Version.AlreadySeen v = GenerateVersion sorted.
Proof.
  intros Hs Hc Hv.
  destruct (Check_Returned_assembles go request manager g response Hc) as (snap' & Hs' & Hr & _).
  rewrite Hs in Hs'. injection Hs' as <-.
  set (alreadySeen := Version.AlreadySeen (CheckRequest.Version request)) in *.
  rewrite assemble_policy in Hr.
  destruct (newRecords alreadySeen snap) as [|n news] eqn:En.
  - left. rewrite sortedResponse_nothing in Hr. unfold applyPolicy in Hr. cbn in Hr.
    destruct (String.eqb _ _); cbn in Hr; subst response.
    + destruct Hv.
    + destruct Hv as [<-|[]]. reflexivity.
  - right. rewrite Hr in Hv.
    apply applyPolicy_In in Hv; [|apply sortedResponse_nonempty; discriminate].
    apply sortedResponse_In in Hv. destruct Hv as (p & Hp & ->).
    rewrite <- En in Hp. apply reported_from_snapshot in Hp.
    exists p. repeat split; [exact Hp|].
    exists (sort_Sort go Pulls_Less ((n :: news) ++ seenRecords alreadySeen snap)).
    split; [|reflexivity].
    eapply perm_trans; [apply sort_Sort_permutes|].
    rewrite <- En. apply partition_Permutation.
Qed.

Lemma Check_returns_snapshot_versions_witness :
  NewVersion (example.pull 2 30) "1:10,2:30" = example.previous "1:10,2:20" \/
  exists p, In p [example.pull 1 10; example.pull 2 30] /\
            Version.PR (NewVersion (example.pull 2 30) "1:10,2:30") = PullRequest.ID p /\
            Version.Commit (NewVersion (example.pull 2 30) "1:10,2:30")
            = CommitObject.ID (PullRequest.Tip p) /\
            Version.CommittedDate (NewVersion (example.pull 2 30) "1:10,2:30") = tipDate p /\
            exists sorted, Permutation sorted [example.pull 1 10; example.pull 2 30] /\
                           Version.AlreadySeen (NewVersion (example.pull 2 30) "1:10,2:30")
                           = GenerateVersion sorted.
Proof.
  apply (Check_returns_snapshot_versions smallRuntime (example.request "1:10,2:20")
           (example.manager [example.pull 1 10; example.pull 2 30]) tt
           [example.pull 1 10; example.pull 2 30]
           [NewVersion (example.pull 2 30) "1:10,2:30"]).
  - reflexivity.
  - reflexivity.
  - left; reflexivity.
Defined.

(** With a previous ledger [Check] never returns the empty list: it returns
    new Versions or the previous one. *)
Theorem Check_with_ledger_returns_some (go : GoRuntime) {G : Type}
  (request : CheckRequest.t) (manager : Github G) (g : G) (response : CheckResponse) :
  Version.AlreadySeen (CheckRequest.Version request) <> EmptyString ->
  Check go request manager g = Returned response ->
  response <> [].
Proof.
  intros Hne Hc.
  destruct (Check_Returned_assembles go request manager g response Hc) as (snap & _ & Hr & _).
  rewrite assemble_policy in Hr. subst response.
  match goal with |- applyPolicy _ ?r <> [] => destruct r eqn:E end.
  - rewrite applyPolicy_nothing_new by exact Hne. discriminate.
  - apply applyPolicy_nonempty. discriminate.
Qed.

Lemma Check_with_ledger_returns_some_witness :
  [example.previous "1:10,2:20"] <> [].
Proof.
  apply (Check_with_ledger_returns_some smallRuntime (example.request "1:10,2:20")
           (example.manager []) tt).
  - discriminate.
  - reflexivity.
Defined.

(** On the first check (empty previous ledger) [Check] returns nothing when
    no record is open, and otherwise exactly one Version, of a record of the
    snapshot that no other record's tip is after, whether or not tips tie. *)
Theorem first_check_at_most_one (go : GoRuntime) {G : Type}
  (request : CheckRequest.t) (manager : Github G) (g : G) (snap : list PullRequest.t) :
  snapshot go request manager g = Ok snap ->
  Version.AlreadySeen (CheckRequest.Version request) = EmptyString ->
  (snap = [] /\ Check go request manager g = Returned []) \/
  exists latest,
    In latest snap /\
    (forall p, In p snap -> time.After (tipDate p) (tipDate latest) = false) /\
    Check go request manager g
    = Returned [NewVersion latest (GenerateVersion (sort_Sort go Pulls_Less snap))].
Proof.
  intros Hs Hempty.
  assert (Hc : strings.Contains (Version.AlreadySeen (CheckRequest.Version request)) ":" = false)
    by (rewrite Hempty; reflexivity).
  destruct (Check_without_colon go request manager g snap Hc Hs)
    as (_ & _ & response & Hp & Hsorted & Hr).
  set (ledger := GenerateVersion (sort_Sort go Pulls_Less snap)) in *.
  destruct response as [|v0 rest0] eqn:Eresp.
  - left. apply Permutation_nil, map_eq_nil in Hp. split; [exact Hp|].
    rewrite Hr. rewrite applyPolicy_first_check_empty by exact Hempty. reflexivity.
  - right. assert (Hrne : v0 :: rest0 <> []) by discriminate.
    destruct (exists_last Hrne) as (older & last & Elast). rewrite Elast in *.
    rewrite (applyPolicy_first_check _ older last Hempty) in Hr.
    assert (Hlast : In last (map (fun p => NewVersion p ledger) snap)).
    { eapply Permutation_in; [exact Hp|]. apply in_or_app; right; left; reflexivity. }
    apply in_map_iff in Hlast. destruct Hlast as (latest & <- & Hin).
    exists latest. split; [exact Hin|]. split; [|exact Hr].
    intros p Hpin.
    assert (Hv : In (NewVersion p ledger) (older ++ [NewVersion latest ledger])).
    { eapply Permutation_in; [apply Permutation_sym, Hp|].
      apply (in_map (fun q => NewVersion q ledger)), Hpin. }
    apply in_app_or in Hv. destruct Hv as [Hv|[Hv|[]]].
    + apply (StronglySorted_last _ _ _ Hsorted _ Hv).
    + apply (f_equal Version.CommittedDate) in Hv. cbn in Hv. unfold tipDate.
      rewrite Hv. apply After_irreflexive.
Qed.

Lemma first_check_at_most_one_witness :
  ([example.pull 1 20; example.pull 2 20] = [] /\
   example.check [example.pull 1 20; example.pull 2 20] "" = Returned []) \/
  exists latest,
    In latest [example.pull 1 20; example.pull 2 20] /\
    (forall p, In p [example.pull 1 20; example.pull 2 20] ->
               time.After (tipDate p) (tipDate latest) = false) /\
    example.check [example.pull 1 20; example.pull 2 20] ""
    = Returned [NewVersion latest
                  (GenerateVersion
                     (sort_Sort smallRuntime Pulls_Less
                        [example.pull 1 20; example.pull 2 20]))].
Proof.
  apply (first_check_at_most_one smallRuntime (example.request "")
           (example.manager [example.pull 1 20; example.pull 2 20]) tt); reflexivity.
Defined.

(** With no record in the snapshot [Check] decodes nothing: whatever the
    previous ledger holds, it returns the previous Version when the ledger is
    not empty, and nothing when it is. *)
Theorem Check_empty_snapshot (go : GoRuntime) {G : Type}
  (request : CheckRequest.t) (manager : Github G) (g : G) :
  snapshot go request manager g = Ok [] ->
  Check go request manager g
  = Returned (if String.eqb (Version.AlreadySeen (CheckRequest.Version request)) ""
              then [] else [CheckRequest.Version request]).
Proof.
  intros Hs. rewrite (Check_assembles go request manager g [] Hs) by (intros p []).
  cbn [newRecords seenRecords filter]. rewrite assemble_policy, sortedResponse_nothing.
  unfold applyPolicy. cbn. destruct (String.eqb _ _); reflexivity.
Qed.

Lemma Check_empty_snapshot_witness :
  Check smallRuntime (example.request "not,a:ledger") countingManagerEmpty 0%nat
  = Returned [example.previous "not,a:ledger"].
Proof.
  apply (Check_empty_snapshot smallRuntime (example.request "not,a:ledger")
           countingManagerEmpty 0%nat).
  reflexivity.
Defined.

(** A ledger encoded from the whole snapshot puts every record of the
    snapshot below the fold, when record numbers are distinct. *)
Lemma whole_ledger_hides_all (snap sorted : list PullRequest.t) (p : PullRequest.t) :
  Permutation sorted snap ->
  Forall inRange snap ->
  NoDup (map PullRequest.Number snap) ->
  In p snap ->
  AboveTheFold (GetVersionStringFromPullRequest p) (GenerateVersion sorted) = Returned false.
Proof.
  intros P Hr Hnd Hp.
  assert (Hne : sorted <> []).
  { intros E. rewrite E in P. apply Permutation_nil in P. subst snap. destruct Hp. }
  pose proof (decodeLedger_GenerateVersion sorted Hne) as Hd.
  apply (matchedNotAdvanced_below _ (map entryOf sorted) p Hd).
  destruct (decodeEntries_In _ _ Hd) as [I1 I2].
  assert (Hin : In (entryOf p) (map entryOf sorted)).
  { apply in_map. eapply Permutation_in; [apply Permutation_sym, P | exact Hp]. }
  split.
  - destruct (I1 _ Hin) as (q & Hq & Eq). exists q, (entryOf p). auto.
  - intros q entry Hq Eq Hid.
    destruct (I2 q Hq) as (entry' & Hin' & Eq').
    assert (entry' = entry) by congruence. subst entry'.
    apply in_map_iff in Hin'. destruct Hin' as (r & <- & Hrin).
    assert (Hrs : In r snap) by (eapply Permutation_in; [exact P | exact Hrin]).
    cbn [entryOf AlreadySeenVersion.PR] in Hid.
    rewrite Forall_forall in Hr.
    assert (PullRequest.Number r = PullRequest.Number p)
      by (apply FormatInt_injective; [apply (Hr r Hrs) | apply (Hr p Hp) | exact Hid]).
    assert (r = p) by (apply (NoDup_map_injective PullRequest.Number snap); auto).
    subst r. apply After_irreflexive.
Qed.

(** A returned Version is a fixed point: given back as the previous Version,
    with the same snapshot (record numbers distinct), the next [Check]
    returns exactly that Version again and reports nothing new. *)
Theorem returned_version_is_stable (go : GoRuntime) {G G' : Type}
  (request request' : CheckRequest.t) (manager : Github G) (manager' : Github G')
  (g : G) (g' : G') (snap : list PullRequest.t) (response : CheckResponse) (v : Version.t) :
  snapshot go request manager g = Ok snap ->
  Check go request manager g = Returned response ->
  In v response ->
  Forall inRange snap ->
  NoDup (map PullRequest.Number snap) ->
  snapshot go request' manager' g' = Ok snap ->
  CheckRequest.Version request' = v ->
  Check go request' manager' g' = Returned [v].
Proof.
  intros Hs Hc Hv Hr Hnd Hs' Hprev.
  destruct (Check_Returned_assembles go request manager g response Hc) as (snap' & Hs2 & Hresp & _).
  rewrite Hs in Hs2. injection Hs2 as <-.
  set (alreadySeen := Version.AlreadySeen (CheckRequest.Version request)) in *.
  rewrite assemble_policy in Hresp.
  destruct (newRecords alreadySeen snap) as [|n news] eqn:En.
  - rewrite sortedResponse_nothing in Hresp.
    destruct (String.eqb_spec alreadySeen "") as [Ee|Ee].
    + rewrite applyPolicy_first_check_empty in Hresp by exact Ee. subst response. destruct Hv.
    + rewrite applyPolicy_nothing_new in Hresp by exact Ee. subst response.
      destruct Hv as [<-|[]].
      rewrite (Check_resolves go request' manager' g' snap Hs'), Hprev.
      rewrite <- (Check_resolves go request manager g snap Hs). exact Hc.
  - rewrite Hresp in Hv.
    apply applyPolicy_In in Hv; [|apply sortedResponse_nonempty; discriminate].
    apply sortedResponse_In in Hv. destruct Hv as (p & _ & Ev).
    set (sorted := sort_Sort go Pulls_Less ((n :: news) ++ seenRecords alreadySeen snap)) in *.
    assert (P : Permutation sorted snap).
    { eapply perm_trans; [apply sort_Sort_permutes|]. rewrite <- En.
      apply partition_Permutation. }
    assert (Hledger : Version.AlreadySeen (CheckRequest.Version request') = GenerateVersion sorted).
    { rewrite Hprev, Ev. reflexivity. }
    assert (Hbelow : forall q, In q snap ->
              AboveTheFold (GetVersionStringFromPullRequest q)
                           (Version.AlreadySeen (CheckRequest.Version request')) = Returned false).
    { intros q Hq. rewrite Hledger. apply (whole_ledger_hides_all snap sorted q); assumption. }
    rewrite (Check_assembles go request' manager' g' snap Hs')
      by (intros q Hq; exists false; apply Hbelow, Hq).
    assert (Hnew : newRecords (Version.AlreadySeen (CheckRequest.Version request')) snap = []).
    { apply filter_none. intros q Hq. unfold isAbove. rewrite (Hbelow q Hq). reflexivity. }
    rewrite Hnew, assemble_policy, sortedResponse_nothing, applyPolicy_nothing_new.
    + rewrite Hprev. reflexivity.
    + rewrite Hledger. intros E.
      assert (Hsne : sorted <> []).
      { intros X. rewrite X in P. apply Permutation_nil in P. rewrite P in En. discriminate. }
      pose proof (GenerateVersion_colon sorted Hsne) as C. rewrite E in C. discriminate.
Qed.

Lemma returned_version_is_stable_witness :
  Check smallRuntime
    {| CheckRequest.Source := example.source;
       CheckRequest.Version := NewVersion (example.pull 2 30) "1:10,2:30" |}
    countingManager 3%nat
  = Returned [NewVersion (example.pull 2 30) "1:10,2:30"].
Proof.
  apply (returned_version_is_stable smallRuntime (example.request "1:10,2:20")
           {| CheckRequest.Source := example.source;
              CheckRequest.Version := NewVersion (example.pull 2 30) "1:10,2:30" |}
           (example.manager [example.pull 1 10; example.pull 2 30]) countingManager
           tt 3%nat [example.pull 1 10; example.pull 2 30]
           [NewVersion (example.pull 2 30) "1:10,2:30"]).
  - reflexivity.
  - reflexivity.
  - left; reflexivity.
  - repeat constructor; cbv; intros; discriminate.
  - repeat constructor; simpl; intros H;
      repeat (destruct H as [H|H]; [discriminate|]); exact H.
  - reflexivity.
  - reflexivity.
Defined.

(** When [append] has to copy and the previous ledger is not empty, [Check]
    returns a Version of every record above the fold, once each, and of no
    other record. *)
Theorem new_records_all_reported (go : GoRuntime) {G : Type}
  (request : CheckRequest.t) (manager : Github G) (g : G)
  (snap : list PullRequest.t) (response : CheckResponse) :
  snapshot go request manager g = Ok snap ->
  Check go request manager g = Returned response ->
  shares go (newRecords (Version.AlreadySeen (CheckRequest.Version request)) snap)
            (seenRecords (Version.AlreadySeen (CheckRequest.Version request)) snap) = false ->
  Version.AlreadySeen (CheckRequest.Version request) <> EmptyString ->
  newRecords (Version.AlreadySeen (CheckRequest.Version request)) snap <> [] ->
  Permutation response
    (map (fun p => NewVersion p
                     (versionsJustSeen go
                        (newRecords (Version.AlreadySeen (CheckRequest.Version request)) snap)
                        (seenRecords (Version.AlreadySeen (CheckRequest.Version request)) snap)))
         (newRecords (Version.AlreadySeen (CheckRequest.Version request)) snap)).
Proof.
  intros Hs Hc Hshare Hne Hnew.
  destruct (Check_Returned_assembles go request manager g response Hc) as (snap' & Hs' & Hr & _).
  rewrite Hs in Hs'. injection Hs' as <-.
  rewrite assemble_policy in Hr.
  rewrite applyPolicy_new in Hr; [|apply sortedResponse_nonempty, Hnew | exact Hne].
  subst response. unfold sortedResponse, reported. rewrite Hshare.
  apply sort_Sort_permutes.
Qed.

Lemma new_records_all_reported_witness :
  Permutation
    [NewVersion (example.pull 2 20) "1:5,2:20,3:30";
     NewVersion (example.pull 3 30) "1:5,2:20,3:30"]
    (map (fun p => NewVersion p
                     (versionsJustSeen smallRuntime
                        (newRecords "1:5,2:1,3:1"
                           [example.pull 3 30; example.pull 2 20; example.pull 1 5])
                        (seenRecords "1:5,2:1,3:1"
                           [example.pull 3 30; example.pull 2 20; example.pull 1 5])))
         (newRecords "1:5,2:1,3:1"
            [example.pull 3 30; example.pull 2 20; example.pull 1 5])).
Proof.
  apply (new_records_all_reported smallRuntime (example.request "1:5,2:1,3:1")
           (example.manager [example.pull 3 30; example.pull 2 20; example.pull 1 5]) tt
           [example.pull 3 30; example.pull 2 20; example.pull 1 5]).
  - reflexivity.
  - reflexivity.
  - reflexivity.
  - discriminate.
  - discriminate.
Defined.

(** ** The filters ahead of the fold *)

Section Filters.
Variable go : GoRuntime.

Lemma FilterPath_returns (matches : string -> bool) (files : list string) (pattern : string) :
  (forall file, In file files -> filepath_Match go pattern file = Ok (matches file)) ->
  FilterPath go files pattern = Ok (filter matches files).
Proof.
  induction files as [|file rest IH]; intros H; cbn [FilterPath filter]; [reflexivity|].
  rewrite (H file (or_introl eq_refl)), IH by (intros f Hf; apply H; right; exact Hf).
  reflexivity.
Qed.

Lemma FilterIgnorePath_returns (matches : string -> bool) (files : list string)
  (pattern : string) :
  (forall file, In file files -> filepath_Match go pattern file = Ok (matches file)) ->
  FilterIgnorePath go files pattern = Ok (filter (fun file => negb (matches file)) files).
Proof.
  induction files as [|file rest IH]; intros H; cbn [FilterIgnorePath filter]; [reflexivity|].
  rewrite (H file (or_introl eq_refl)), IH by (intros f Hf; apply H; right; exact Hf).
  reflexivity.
Qed.

(** When the pattern matches or not, without error, on every file,
    [FilterPath] returns the files that match and [FilterIgnorePath] those
    that do not, each in the order of the input: together they hold every
    file once. *)
Theorem FilterPath_FilterIgnorePath_split (matches : string -> bool)
  (files : list string) (pattern : string) :
  (forall file, In file files -> filepath_Match go pattern file = Ok (matches file)) ->
  FilterPath go files pattern = Ok (filter matches files) /\
  FilterIgnorePath go files pattern = Ok (filter (fun file => negb (matches file)) files) /\
  Permutation (filter matches files ++ filter (fun file => negb (matches file)) files) files.
Proof.
  intros H. split; [apply FilterPath_returns, H|].
  split; [apply FilterIgnorePath_returns, H | apply partition_Permutation].
Qed.

(** A pattern that [filepath.Match] rejects on some file makes both filters
    fail with the error of the first such file, and return no file at all. *)
Theorem Filter_fails_with_first_error (matches : string -> bool)
  (before after : list string) (file pattern : string) (err : error) :
  (forall f, In f before -> filepath_Match go pattern f = Ok (matches f)) ->
  filepath_Match go pattern file = Err err ->
  FilterPath go (before ++ file :: after) pattern = Err err /\
  FilterIgnorePath go (before ++ file :: after) pattern = Err err.
Proof.
  intros Hb He. induction before as [|b before IH]; cbn [app FilterPath FilterIgnorePath].
  - rewrite He. split; reflexivity.
  - rewrite (Hb b (or_introl eq_refl)).
    destruct (IH (fun f Hf => Hb f (or_intror Hf))) as [-> ->]. split; reflexivity.
Qed.

(** *** The two loops over the patterns *)

Lemma nonEmpty_filter {A : Type} (f : A -> bool) (l : list A) :
  nonEmpty (filter f l) = existsb f l.
Proof.
  induction l as [|x l IH]; cbn [filter existsb]; [reflexivity|].
  destruct (f x); [reflexivity | exact IH].
Qed.

Lemma nonEmpty_app {A : Type} (l1 l2 : list A) :
  nonEmpty (l1 ++ l2) = nonEmpty l1 || nonEmpty l2.
Proof. destruct l1; reflexivity. Qed.

Section Matcher.
Variable matches : string -> string -> bool.

Lemma wantedByPaths_returns (files patterns wanted : list string) :
  (forall pattern file, In pattern patterns -> In file files ->
     filepath_Match go pattern file = Ok (matches pattern file)) ->
  exists more,
    wantedByPaths go files patterns wanted = Ok (wanted ++ more) /\
    nonEmpty more = existsb (fun pattern => existsb (matches pattern) files) patterns.
Proof.
  revert wanted. induction patterns as [|pattern rest IH]; intros wanted H;
    cbn [wantedByPaths existsb].
  - exists []. rewrite app_nil_r. split; reflexivity.
  - rewrite (FilterPath_returns (matches pattern))
      by (intros file Hf; apply H; [left; reflexivity | exact Hf]).
    destruct (IH (wanted ++ filter (matches pattern) files)) as (more & -> & Hn).
    { intros q file Hq Hf. apply H; [right; exact Hq | exact Hf]. }
    exists (filter (matches pattern) files ++ more). rewrite app_assoc. split; [reflexivity|].
    rewrite nonEmpty_app, nonEmpty_filter, Hn. reflexivity.
Qed.

Lemma wantedByIgnorePaths_returns (files wanted patterns : list string) :
  (forall pattern file, In pattern patterns -> In file files ->
     filepath_Match go pattern file = Ok (matches pattern file)) ->
  incl wanted files ->
  wantedByIgnorePaths go wanted patterns
  = Ok (filter (fun file => forallb (fun pattern => negb (matches pattern file)) patterns) wanted).
Proof.
  revert wanted. induction patterns as [|pattern rest IH]; intros wanted H Hw;
    cbn [wantedByIgnorePaths forallb].
  - f_equal. symmetry. apply filter_all. reflexivity.
  - rewrite (FilterIgnorePath_returns (matches pattern))
      by (intros file Hf; apply H; [left; reflexivity | apply Hw, Hf]).
    rewrite IH.
    + f_equal. clear Hw.
      induction wanted as [|file wanted IHw]; cbn [filter]; [reflexivity|].
      destruct (matches pattern file); cbn [negb andb filter]; [exact IHw|].
      destruct (forallb _ rest); rewrite IHw; reflexivity.
    + intros q file Hq Hf. apply H; [right; exact Hq | exact Hf].
    + intros file Hf. apply filter_In in Hf. apply Hw, Hf.
Qed.

(** How [Check] reads the path filters, when [filepath.Match] decides the
    configured patterns on the modified files without error. A pull request
    without skip marker, whose modified files are listed, goes on to the
    fold exactly when some file matches some pattern of [paths] (if any is
    configured) and some file, of all the modified files, matches no pattern
    of [ignore_paths] (if any is configured). *)
Theorem path_filters_decide {G : Type} (request : CheckRequest.t) (manager : Github G)
  (disableSkipCI : bool) (p : PullRequest.t) (g g' : G) (files : list string) :
  (negb disableSkipCI && ContainsSkipCI go (PullRequest.Title p) = false) ->
  (negb disableSkipCI && ContainsSkipCI go (CommitObject.Message (PullRequest.Tip p)) = false) ->
  nonEmpty (Source.Paths (CheckRequest.Source request))
  || nonEmpty (Source.IgnorePaths (CheckRequest.Source request)) = true ->
  ListModifiedFiles manager (PullRequest.Number p) g = (Ok files, g') ->
  (forall pattern file,
      In pattern (Source.Paths (CheckRequest.Source request)
                  ++ Source.IgnorePaths (CheckRequest.Source request)) ->
      In file files ->
      filepath_Match go pattern file = Ok (matches pattern file)) ->
  passesFilters go request manager disableSkipCI p g
  = (Ok ((negb (nonEmpty (Source.Paths (CheckRequest.Source request)))
          || existsb (fun pattern => existsb (matches pattern) files)
                     (Source.Paths (CheckRequest.Source request)))
         && (negb (nonEmpty (Source.IgnorePaths (CheckRequest.Source request)))
             || existsb (fun file =>
                           forallb (fun pattern => negb (matches pattern file))
                                   (Source.IgnorePaths (CheckRequest.Source request)))
                        files)),
     g').
Proof.
  intros Ht Hm Hcfg Hl Hmatch. unfold passesFilters. rewrite Ht, Hm, Hcfg, Hl.
  assert (Hpaths : forall pattern file,
             In pattern (Source.Paths (CheckRequest.Source request)) -> In file files ->
             filepath_Match go pattern file = Ok (matches pattern file)).
  { intros pattern file Hp Hf. apply Hmatch; [apply in_or_app; left; exact Hp | exact Hf]. }
  assert (Hignore : forall pattern file,
             In pattern (Source.IgnorePaths (CheckRequest.Source request)) -> In file files ->
             filepath_Match go pattern file = Ok (matches pattern file)).
  { intros pattern file Hp Hf. apply Hmatch; [apply in_or_app; right; exact Hp | exact Hf]. }
  destruct (nonEmpty (Source.Paths _)) eqn:Ep; cbn [negb orb].
  - destruct (wantedByPaths_returns files (Source.Paths (CheckRequest.Source request)) [] Hpaths)
      as (more & -> & Hn).
    cbn [app]. rewrite Hn.
    destruct (existsb _ (Source.Paths _)); cbn [andb]; [|reflexivity].
    destruct (nonEmpty (Source.IgnorePaths _)); cbn [negb orb]; [|reflexivity].
    rewrite (wantedByIgnorePaths_returns files files _ Hignore (incl_refl files)), nonEmpty_filter.
    reflexivity.
  - cbn [andb]. destruct (nonEmpty (Source.IgnorePaths _)); cbn [negb orb]; [|reflexivity].
    rewrite (wantedByIgnorePaths_returns files files _ Hignore (incl_refl files)), nonEmpty_filter.
    reflexivity.
Qed.

End Matcher.
End Filters.

(** A request with one pattern in [paths] and the same one in
    [ignore_paths], and a remote side that lists two modified files. *)
Definition pathsRequest : CheckRequest.t :=
  {| CheckRequest.Source :=
       {| Source.Repository := "itsdalmo/test-repository";
          Source.AccessToken := "oauthtoken";
          Source.V3Endpoint := "";
          Source.V4Endpoint := "";
          Source.Paths := ["main.tf"%string];
          Source.IgnorePaths := ["main.tf"%string];
          Source.DisableCISkip := "" |};
     CheckRequest.Version := example.previous "" |}.

Definition filesManager (pulls : list PullRequest.t) : Github unit :=
  {| ListOpenPullRequests := fun g => (Ok pulls, g);
     ListModifiedFiles := fun _ g => (Ok ["main.tf"; "README.md"]%string, g) |}.

(** The pull request passes: [ignore_paths] is applied to all the modified
    files, not to those [paths] wanted. *)
Example ignored_path_match_still_passes :
  passesFilters smallRuntime pathsRequest (filesManager []) false (example.pull 1 10) tt
  = (Ok true, tt).
Proof. reflexivity. Qed.

Lemma FilterPath_FilterIgnorePath_split_witness :
  FilterPath smallRuntime ["a.txt"; "b.md"; "a.txt"]%string "a.txt"
  = Ok (filter (String.eqb "a.txt") ["a.txt"; "b.md"; "a.txt"]%string) /\
  FilterIgnorePath smallRuntime ["a.txt"; "b.md"; "a.txt"]%string "a.txt"
  = Ok (filter (fun file => negb (String.eqb "a.txt" file)) ["a.txt"; "b.md"; "a.txt"]%string) /\
  Permutation
    (filter (String.eqb "a.txt") ["a.txt"; "b.md"; "a.txt"]%string
     ++ filter (fun file => negb (String.eqb "a.txt" file)) ["a.txt"; "b.md"; "a.txt"]%string)
    ["a.txt"; "b.md"; "a.txt"]%string.
Proof.
  apply (FilterPath_FilterIgnorePath_split smallRuntime (String.eqb "a.txt")).
  intros file _. reflexivity.
Defined.

(** A runtime whose [filepath.Match] rejects the pattern ["["], as Go's does. *)
Definition strictRuntime : GoRuntime :=
  {| sort_Sort := fun A => @sort_Sort smallRuntime A;
     sort_Sort_permutes := sort_Sort_permutes smallRuntime;
     sort_Sort_sorts := sort_Sort_sorts smallRuntime;
     growslice := growslice smallRuntime;
     growslice_fits := growslice_fits smallRuntime;
     filepath_Match := fun pattern name =>
       if String.eqb pattern "[" then Err ErrBadPattern else small.Match pattern name;
     regexp_MatchString := regexp_MatchString smallRuntime |}.

Lemma path_filters_decide_witness :
  passesFilters strictRuntime pathsRequest (filesManager []) false (example.pull 1 10) tt
  = (Ok ((negb (nonEmpty (Source.Paths (CheckRequest.Source pathsRequest)))
          || existsb (fun pattern => existsb (String.eqb pattern) ["main.tf"; "README.md"]%string)
                     (Source.Paths (CheckRequest.Source pathsRequest)))
         && (negb (nonEmpty (Source.IgnorePaths (CheckRequest.Source pathsRequest)))
             || existsb (fun file =>
                           forallb (fun pattern => negb (String.eqb pattern file))
                                   (Source.IgnorePaths (CheckRequest.Source pathsRequest)))
                        ["main.tf"; "README.md"]%string)),
     tt).
Proof.
  apply (path_filters_decide strictRuntime String.eqb
           pathsRequest (filesManager []) false (example.pull 1 10) tt tt
           ["main.tf"; "README.md"]%string); try reflexivity.
  intros pattern file Hp Hf. simpl in Hp.
  destruct Hp as [<-|[<-|[]]]; reflexivity.
Defined.

Lemma Filter_fails_with_first_error_witness :
  FilterPath strictRuntime ([] ++ "a.txt"%string :: ["b.md"%string]) "[" = Err ErrBadPattern /\
  FilterIgnorePath strictRuntime ([] ++ "a.txt"%string :: ["b.md"%string]) "["
  = Err ErrBadPattern.
Proof.
  apply (Filter_fails_with_first_error strictRuntime (fun _ => false)).
  - intros f [].
  - reflexivity.
Defined.

(** *** Skip markers, and the listing of modified files *)

(** The format strings of the errors [Check] returns. *)
Definition CheckErrorFormats : list string :=
  [ "failed to get last commits: %s";
    "failed to parse disable_ci_skip: %s";
    "failed to list modified files: %s";
    "path match failed: %s";
    "ignore path match failed: %s" ]%string.

Section FilterLoop.
Variable go : GoRuntime.
Context {G : Type}.
Variable request : CheckRequest.t.
Variable manager : Github G.
Variable disableSkipCI : bool.

Lemma passesFilters_true (p : PullRequest.t) (g : G) :
  fst (passesFilters go request manager disableSkipCI p g) = Ok true ->
  negb disableSkipCI && ContainsSkipCI go (PullRequest.Title p) = false /\
  negb disableSkipCI && ContainsSkipCI go (CommitObject.Message (PullRequest.Tip p)) = false.
Proof.
  unfold passesFilters.
  destruct (negb disableSkipCI && ContainsSkipCI go (PullRequest.Title p)); [discriminate|].
  destruct (negb disableSkipCI && ContainsSkipCI go (CommitObject.Message _)); [discriminate|].
  auto.
Qed.

Lemma filterLoop_In (pulls : list PullRequest.t) :
  forall (g : G) (snap : list PullRequest.t),
    filterLoop go request manager disableSkipCI pulls g = Ok snap ->
    forall p, In p snap ->
      In p pulls /\ exists g0, fst (passesFilters go request manager disableSkipCI p g0) = Ok true.
Proof.
  induction pulls as [|q rest IH]; intros g snap H p Hp; cbn [filterLoop] in H.
  - injection H as <-. destruct Hp.
  - destruct (passesFilters go request manager disableSkipCI q g) as [[keep|err] g'] eqn:E;
      [|discriminate].
    destruct (filterLoop go request manager disableSkipCI rest g') as [kept|] eqn:Ek;
      [|discriminate].
    injection H as <-.
    destruct keep.
    + destruct Hp as [<-|Hp].
      * split; [left; reflexivity|]. exists g. rewrite E. reflexivity.
      * destruct (IH g' kept Ek p Hp) as [Hin Hg]. split; [right; exact Hin | exact Hg].
    + destruct (IH g' kept Ek p Hp) as [Hin Hg]. split; [right; exact Hin | exact Hg].
Qed.

Lemma wantedByPaths_Err (files patterns wanted : list string) (e : error) :
  wantedByPaths go files patterns wanted = Err e ->
  exists cause, e = Errorf "path match failed: %s" cause.
Proof.
  revert wanted. induction patterns as [|pattern rest IH]; intros wanted H;
    cbn [wantedByPaths] in H; [discriminate|].
  destruct (FilterPath go files pattern) as [w|err].
  - eapply IH; exact H.
  - injection H as <-. eauto.
Qed.

Lemma wantedByIgnorePaths_Err (wanted patterns : list string) (e : error) :
  wantedByIgnorePaths go wanted patterns = Err e ->
  exists cause, e = Errorf "ignore path match failed: %s" cause.
Proof.
  revert wanted. induction patterns as [|pattern rest IH]; intros wanted H;
    cbn [wantedByIgnorePaths] in H; [discriminate|].
  destruct (FilterIgnorePath go wanted pattern) as [w|err].
  - eapply IH; exact H.
  - injection H as <-. eauto.
Qed.

Lemma passesFilters_Err (p : PullRequest.t) (g : G) (e : error) :
  fst (passesFilters go request manager disableSkipCI p g) = Err e ->
  exists format cause, e = Errorf format cause /\ In format CheckErrorFormats.
Proof.
  unfold passesFilters, CheckErrorFormats.
  destruct (negb disableSkipCI && ContainsSkipCI go (PullRequest.Title p)); [discriminate|].
  destruct (negb disableSkipCI && ContainsSkipCI go (CommitObject.Message _)); [discriminate|].
  destruct (if nonEmpty _ || nonEmpty _ then _ else _) as [[files|err] g'];
    cbn [fst]; [|intros H; injection H as <-; do 2 eexists; split; [reflexivity|simpl; tauto]].
  destruct (nonEmpty (Source.Paths _)).
  - destruct (wantedByPaths go files _ []) as [wanted|err] eqn:Ew; cbn [fst].
    + destruct (nonEmpty wanted); cbn [fst]; [|discriminate].
      destruct (nonEmpty (Source.IgnorePaths _)); cbn [fst]; [|discriminate].
      destruct (wantedByIgnorePaths go files _) as [w|err] eqn:Ei; cbn [fst]; [discriminate|].
      intros H; injection H as <-.
      destruct (wantedByIgnorePaths_Err _ _ _ Ei) as [cause ->].
      do 2 eexists; split; [reflexivity|simpl; tauto].
    + intros H; injection H as <-.
      destruct (wantedByPaths_Err _ _ _ _ Ew) as [cause ->].
      do 2 eexists; split; [reflexivity|simpl; tauto].
  - destruct (nonEmpty (Source.IgnorePaths _)); cbn [fst]; [|discriminate].
    destruct (wantedByIgnorePaths go files _) as [w|err] eqn:Ei; cbn [fst]; [discriminate|].
    intros H; injection H as <-.
    destruct (wantedByIgnorePaths_Err _ _ _ Ei) as [cause ->].
    do 2 eexists; split; [reflexivity|simpl; tauto].
Qed.

Lemma filterLoop_Err (pulls : list PullRequest.t) :
  forall (g : G) (e : error),
    filterLoop go request manager disableSkipCI pulls g = Err e ->
    exists format cause, e = Errorf format cause /\ In format CheckErrorFormats.
Proof.
  induction pulls as [|q rest IH]; intros g e H; cbn [filterLoop] in H; [discriminate|].
  destruct (passesFilters go request manager disableSkipCI q g) as [[keep|err] g'] eqn:E.
  - destruct (filterLoop go request manager disableSkipCI rest g') as [kept|err] eqn:Ek;
      [discriminate|].
    injection H as <-. eapply IH; exact Ek.
  - injection H as <-. apply (passesFilters_Err q g). rewrite E. reflexivity.
Qed.

Lemma checkLoop_Failed (pulls : list PullRequest.t) :
  forall (g : G) h newS seenS (e : error),
    checkLoop go request manager disableSkipCI pulls h newS seenS g = Failed e ->
    filterLoop go request manager disableSkipCI pulls g = Err e.
Proof.
  induction pulls as [|q rest IH]; intros g h newS seenS e H; cbn [filterLoop checkLoop] in *;
    [discriminate|].
  destruct (passesFilters go request manager disableSkipCI q g) as [[keep|err] g'].
  - assert (R : filterLoop go request manager disableSkipCI rest g' = Err e).
    { destruct keep; [|eapply IH; exact H].
      destruct (AboveTheFold _ _) as [above|e0|v] eqn:Ea; cbn [bind] in H; try discriminate.
      - destruct above.
        + destruct (slices.append go h newS [q]) as [h' s']. eapply IH; exact H.
        + destruct (slices.append go h seenS [q]) as [h' s']. eapply IH; exact H.
      - exfalso. exact (AboveTheFold_not_Failed _ _ _ Ea). }
    rewrite R. reflexivity.
  - injection H as <-. reflexivity.
Qed.

Lemma checkLoop_on_filter_error (pulls : list PullRequest.t) :
  forall (g : G) h newS seenS (e : error),
    filterLoop go request manager disableSkipCI pulls g = Err e ->
    checkLoop go request manager disableSkipCI pulls h newS seenS g = Failed e \/
    exists before p after kept v,
      pulls = before ++ p :: after /\
      filterLoop go request manager disableSkipCI (before ++ [p]) g = Ok (kept ++ [p]) /\
      (forall q, In q kept ->
         exists above,
           AboveTheFold (GetVersionStringFromPullRequest q)
                        (Version.AlreadySeen (CheckRequest.Version request)) = Returned above) /\
      AboveTheFold (GetVersionStringFromPullRequest p)
                   (Version.AlreadySeen (CheckRequest.Version request)) = Panicked v /\
      checkLoop go request manager disableSkipCI pulls h newS seenS g = Panicked v.
Proof.
  induction pulls as [|q rest IH]; intros g h newS seenS e H; cbn [filterLoop checkLoop] in *;
    [discriminate|].
  destruct (passesFilters go request manager disableSkipCI q g) as [[keep|err] g'] eqn:Eq.
  - destruct (filterLoop go request manager disableSkipCI rest g') as [kept|err] eqn:Ek;
      [discriminate|].
    injection H as <-.
    destruct keep.
    + destruct (AboveTheFold _ _) as [above|e0|v] eqn:Ea; cbn [bind].
      * assert (Step : forall h' newS' seenS',
                   checkLoop go request manager disableSkipCI rest h' newS' seenS' g' = Failed err \/
                   exists before p after kept v,
                     q :: rest = before ++ p :: after /\
                     filterLoop go request manager disableSkipCI (before ++ [p]) g
                     = Ok (kept ++ [p]) /\
                     (forall q0, In q0 kept ->
                        exists above0,
                          AboveTheFold (GetVersionStringFromPullRequest q0)
                                       (Version.AlreadySeen (CheckRequest.Version request))
                          = Returned above0) /\
                     AboveTheFold (GetVersionStringFromPullRequest p)
                                  (Version.AlreadySeen (CheckRequest.Version request))
                     = Panicked v /\
                     checkLoop go request manager disableSkipCI rest h' newS' seenS' g'
                     = Panicked v).
        { intros h' newS' seenS'.
          destruct (IH g' h' newS' seenS' err Ek)
            as [L|(before & p & after & kept' & v & -> & Hf & Hk & Hp & Hc)]; [left; exact L|].
          right. exists (q :: before), p, after, (q :: kept'), v.
          split; [reflexivity|]. split; [|split; [|split; [exact Hp | exact Hc]]].
          - cbn [app filterLoop]. rewrite Eq, Hf. reflexivity.
          - intros q0 [<-|Hq0]; [eauto | apply Hk, Hq0]. }
        destruct above.
        -- destruct (slices.append go h newS [q]) as [h' s']. apply Step.
        -- destruct (slices.append go h seenS [q]) as [h' s']. apply Step.
      * exfalso. exact (AboveTheFold_not_Failed _ _ _ Ea).
      * right. exists [], q, rest, [], v.
        split; [reflexivity|]. split; [|split; [intros q0 []|split; [exact Ea | reflexivity]]].
        cbn [app filterLoop]. rewrite Eq. reflexivity.
    + destruct (IH g' h newS seenS err Ek)
        as [L|(before & p & after & kept' & v & -> & Hf & Hk & Hp & Hc)]; [left; exact L|].
      right. exists (q :: before), p, after, kept', v.
      split; [reflexivity|]. split; [|split; [exact Hk|split; [exact Hp | exact Hc]]].
      cbn [app filterLoop]. rewrite Eq, Hf. reflexivity.
  - injection H as <-. left; reflexivity.
Qed.

End FilterLoop.

(** An error [Check] returns is the error the filters raised, and it is
    always wrapped: [fmt.Errorf] with one of five formats around the cause
    (the remote side's error, the flag's parse error, a bad pattern). *)
Theorem Check_errors_are_wrapped (go : GoRuntime) {G : Type}
  (request : CheckRequest.t) (manager : Github G) (g : G) (e : error) :
  Check go request manager g = Failed e ->
  snapshot go request manager g = Err e /\
  exists format cause, e = Errorf format cause /\ In format CheckErrorFormats.
Proof.
  unfold Check, snapshot. intros H.
  destruct (ListOpenPullRequests manager g) as [[pulls|err] g1].
  - unfold parseDisableCISkip in *.
    destruct (String.eqb _ "").
    + destruct (checkLoop go request manager false pulls _ _ _ g1) as [st|e0|v] eqn:E;
        cbn [bind] in H; try discriminate.
      * destruct st as [[h n] s]. destruct (slices.append go h n _). discriminate.
      * injection H as <-. apply checkLoop_Failed in E. split; [exact E|].
        eapply filterLoop_Err; exact E.
    + destruct (strconv.ParseBool _) as [err|b].
      * injection H as <-. split; [reflexivity|].
        do 2 eexists; split; [reflexivity|simpl; tauto].
      * destruct (checkLoop go request manager b pulls _ _ _ g1) as [st|e0|v] eqn:E;
          cbn [bind] in H; try discriminate.
        -- destruct st as [[h n] s]. destruct (slices.append go h n _). discriminate.
        -- injection H as <-. apply checkLoop_Failed in E. split; [exact E|].
           eapply filterLoop_Err; exact E.
  - injection H as <-. split; [reflexivity|].
    do 2 eexists; split; [reflexivity|simpl; tauto].
Qed.

(** A remote side that cannot list the modified files. *)
Definition failingFilesManager (pulls : list PullRequest.t) : Github unit :=
  {| ListOpenPullRequests := fun g => (Ok pulls, g);
     ListModifiedFiles := fun _ g => (Err (ErrManager "rate limited"), g) |}.

Lemma Check_errors_are_wrapped_witness :
  snapshot smallRuntime pathsRequest (failingFilesManager [example.pull 1 10]) tt
  = Err (Errorf "failed to list modified files: %s" (ErrManager "rate limited")) /\
  exists format cause,
    Errorf "failed to list modified files: %s" (ErrManager "rate limited") = Errorf format cause /\
    In format CheckErrorFormats.
Proof.
  apply (Check_errors_are_wrapped smallRuntime pathsRequest
           (failingFilesManager [example.pull 1 10]) tt).
  reflexivity.
Defined.

(** When the listing, the flag or a filter raises an error, [Check] returns
    that error, unless [AboveTheFold] panicked before: on a pull request
    [p] listed ahead of the failing one, that passed the filters, the pull
    requests ahead of it having raised no error in the filters and no panic
    in the fold. [Check] then panics as [AboveTheFold] did on [p]. *)
Theorem filter_error_fails_or_panics (go : GoRuntime) {G : Type}
  (request : CheckRequest.t) (manager : Github G) (g : G) (e : error) :
  snapshot go request manager g = Err e ->
  Check go request manager g = Failed e \/
  exists pulls g1 disableSkipCI before p after kept v,
    ListOpenPullRequests manager g = (Ok pulls, g1) /\
    parseDisableCISkip request = Ok disableSkipCI /\
    pulls = before ++ p :: after /\
    filterLoop go request manager disableSkipCI (before ++ [p]) g1 = Ok (kept ++ [p]) /\
    (forall q, In q kept ->
       exists above,
         AboveTheFold (GetVersionStringFromPullRequest q)
                      (Version.AlreadySeen (CheckRequest.Version request)) = Returned above) /\
    AboveTheFold (GetVersionStringFromPullRequest p)
                 (Version.AlreadySeen (CheckRequest.Version request)) = Panicked v /\
    Check go request manager g = Panicked v.
Proof.
  unfold Check, snapshot. intros H.
  destruct (ListOpenPullRequests manager g) as [[pulls|err] g1].
  - destruct (parseDisableCISkip request) as [d|err].
    + destruct (checkLoop_on_filter_error go request manager d pulls g1
                  slices.empty slices.nil slices.nil e H)
        as [->|(before & p & after & kept & v & Hpulls & Hf & Hk & Hp & ->)]; cbn [bind].
      * left; reflexivity.
      * right. exists pulls, g1, d, before, p, after, kept, v. auto 10.
    + injection H as <-. left; reflexivity.
  - injection H as <-. left; reflexivity.
Qed.

(** A request with path filters and a previous ledger that does not decode,
    and a remote side that cannot list the files of pull request 2. *)
Definition undecodableRequest : CheckRequest.t :=
  {| CheckRequest.Source := CheckRequest.Source pathsRequest;
     CheckRequest.Version := example.previous "P1:notanumber" |}.

Definition flakyFilesManager (pulls : list PullRequest.t) : Github unit :=
  {| ListOpenPullRequests := fun g => (Ok pulls, g);
     ListModifiedFiles := fun number g =>
       if number =? 2 then (Err (ErrManager "rate limited"), g)
       else (Ok ["main.tf"; "README.md"]%string, g) |}.

(** The listing error of pull request 2 is not returned: pull request 1,
    ahead of it, reached the fold, and the fold panicked. *)
Example panic_ahead_of_listing_error :
  snapshot smallRuntime undecodableRequest
           (flakyFilesManager [example.pull 1 10; example.pull 2 20]) tt
  = Err (Errorf "failed to list modified files: %s" (ErrManager "rate limited")) /\
  Check smallRuntime undecodableRequest
        (flakyFilesManager [example.pull 1 10; example.pull 2 20]) tt
  = Panicked (PanicError (NumError.mk "ParseInt" "notanumber" ErrSyntax)).
Proof. split; reflexivity. Qed.

(** With the failing pull request first, the error is returned. *)
Example listing_error_ahead_of_panic :
  Check smallRuntime undecodableRequest
        (flakyFilesManager [example.pull 2 20; example.pull 1 10]) tt
  = Failed (Errorf "failed to list modified files: %s" (ErrManager "rate limited")).
Proof. reflexivity. Qed.

Lemma filter_error_fails_or_panics_witness :
  Check smallRuntime undecodableRequest
        (flakyFilesManager [example.pull 1 10; example.pull 2 20]) tt
  = Failed (Errorf "failed to list modified files: %s" (ErrManager "rate limited")) \/
  exists pulls g1 disableSkipCI before p after kept v,
    ListOpenPullRequests (flakyFilesManager [example.pull 1 10; example.pull 2 20]) tt
    = (Ok pulls, g1) /\
    parseDisableCISkip undecodableRequest = Ok disableSkipCI /\
    pulls = before ++ p :: after /\
    filterLoop smallRuntime undecodableRequest
               (flakyFilesManager [example.pull 1 10; example.pull 2 20])
               disableSkipCI (before ++ [p]) g1 = Ok (kept ++ [p]) /\
    (forall q, In q kept ->
       exists above,
         AboveTheFold (GetVersionStringFromPullRequest q)
                      (Version.AlreadySeen (CheckRequest.Version undecodableRequest))
         = Returned above) /\
    AboveTheFold (GetVersionStringFromPullRequest p)
                 (Version.AlreadySeen (CheckRequest.Version undecodableRequest)) = Panicked v /\
    Check smallRuntime undecodableRequest
          (flakyFilesManager [example.pull 1 10; example.pull 2 20]) tt = Panicked v.
Proof.
  apply (filter_error_fails_or_panics smallRuntime undecodableRequest
           (flakyFilesManager [example.pull 1 10; example.pull 2 20]) tt).
  reflexivity.
Defined.

(** Unless [disable_ci_skip] is set to true, a Version [Check] returns is the
    previous one or the Version of a listed pull request that carries no
    skip marker, neither in its title nor in the message of its tip. *)
Theorem Check_skips_marked (go : GoRuntime) {G : Type}
  (request : CheckRequest.t) (manager : Github G) (g : G)
  (response : CheckResponse) (v : Version.t) :
  Check go request manager g = Returned response ->
  parseDisableCISkip request = Ok false ->
  In v response ->
  v = CheckRequest.Version request \/
  exists p pulls g1,
    ListOpenPullRequests manager g = (Ok pulls, g1) /\
    In p pulls /\
    v = NewVersion p (Version.AlreadySeen v) /\
    ContainsSkipCI go (PullRequest.Title p) = false /\
    ContainsSkipCI go (CommitObject.Message (PullRequest.Tip p)) = false.
Proof.
  intros Hc Hd Hv.
  destruct (Check_Returned_assembles go request manager g response Hc) as (snap & Hs & Hr & _).
  set (alreadySeen := Version.AlreadySeen (CheckRequest.Version request)) in *.
  rewrite assemble_policy in Hr.
  destruct (newRecords alreadySeen snap) as [|n news] eqn:En.
  - left. rewrite sortedResponse_nothing in Hr.
    destruct (String.eqb_spec alreadySeen "") as [Ee|Ee].
    + rewrite applyPolicy_first_check_empty in Hr by exact Ee. subst response. destruct Hv.
    + rewrite applyPolicy_nothing_new in Hr by exact Ee. subst response.
      destruct Hv as [<-|[]]. reflexivity.
  - right. rewrite Hr in Hv.
    apply applyPolicy_In in Hv; [|apply sortedResponse_nonempty; discriminate].
    apply sortedResponse_In in Hv. destruct Hv as (p & Hp & ->).
    rewrite <- En in Hp. apply reported_from_snapshot in Hp.
    unfold snapshot in Hs.
    destruct (ListOpenPullRequests manager g) as [[pulls|err] g1]; [|discriminate].
    rewrite Hd in Hs.
    destruct (filterLoop_In go request manager false pulls g1 snap Hs p Hp) as [Hin [g0 Hg0]].
    destruct (passesFilters_true go request manager false p g0 Hg0) as [Ht Hm].
    exists p, pulls, g1. cbn [negb andb] in Ht, Hm. auto.
Qed.

Lemma Check_skips_marked_witness :
  NewVersion (example.pull 2 30) "1:10,2:30" = example.previous "1:10,2:20" \/
  exists p pulls g1,
    ListOpenPullRequests countingManager 7%nat = (Ok pulls, g1) /\
    In p pulls /\
    NewVersion (example.pull 2 30) "1:10,2:30"
    = NewVersion p (Version.AlreadySeen (NewVersion (example.pull 2 30) "1:10,2:30")) /\
    ContainsSkipCI smallRuntime (PullRequest.Title p) = false /\
    ContainsSkipCI smallRuntime (CommitObject.Message (PullRequest.Tip p)) = false.
Proof.
  apply (Check_skips_marked smallRuntime (example.request "1:10,2:20") countingManager 7%nat
           [NewVersion (example.pull 2 30) "1:10,2:30"]).
  - reflexivity.
  - reflexivity.
  - left; reflexivity.
Defined.

Lemma passesFilters_without_paths (go : GoRuntime) {G : Type}
  (request : CheckRequest.t) (manager manager' : Github G) (disableSkipCI : bool)
  (p : PullRequest.t) (g : G) :
  Source.Paths (CheckRequest.Source request) = [] ->
  Source.IgnorePaths (CheckRequest.Source request) = [] ->
  passesFilters go request manager disableSkipCI p g
  = passesFilters go request manager' disableSkipCI p g /\
  snd (passesFilters go request manager disableSkipCI p g) = g.
Proof.
  intros Hp Hi. unfold passesFilters. rewrite Hp, Hi. cbn.
  destruct (negb disableSkipCI && ContainsSkipCI go (PullRequest.Title p)); [auto|].
  destruct (negb disableSkipCI && ContainsSkipCI go (CommitObject.Message _)); auto.
Qed.

Lemma checkLoop_without_paths (go : GoRuntime) {G : Type}
  (request : CheckRequest.t) (manager manager' : Github G) (disableSkipCI : bool)
  (pulls : list PullRequest.t) :
  Source.Paths (CheckRequest.Source request) = [] ->
  Source.IgnorePaths (CheckRequest.Source request) = [] ->
  forall h newS seenS (g : G),
    checkLoop go request manager disableSkipCI pulls h newS seenS g
    = checkLoop go request manager' disableSkipCI pulls h newS seenS g.
Proof.
  intros Hp Hi. induction pulls as [|q rest IH]; intros h newS seenS g; cbn [checkLoop];
    [reflexivity|].
  destruct (passesFilters_without_paths go request manager manager' disableSkipCI q g Hp Hi)
    as [<- _].
  destruct (passesFilters go request manager disableSkipCI q g) as [[keep|err] g'];
    [|reflexivity].
  destruct keep; [|apply IH].
  destruct (AboveTheFold _ _) as [above|e|v]; cbn [bind]; try reflexivity.
  destruct above.
  - destruct (slices.append go h newS [q]). apply IH.
  - destruct (slices.append go h seenS [q]). apply IH.
Qed.

(** Without [paths] and [ignore_paths] in the source, [Check] never lists
    modified files. Whatever the remote side is, the body of the loop hands
    its state on as it found it, a remote side that counts or records its
    calls included; it raises no error, and lets through every pull request
    without skip marker. And [Check] ends the same whatever
    [ListModifiedFiles] would answer. *)
Theorem no_path_filter_no_listing (go : GoRuntime) {G : Type}
  (request : CheckRequest.t) (manager : Github G)
  (listModifiedFiles : Z -> G -> result (list string) * G)
  (disableSkipCI : bool) (p : PullRequest.t) (g : G) :
  Source.Paths (CheckRequest.Source request) = [] ->
  Source.IgnorePaths (CheckRequest.Source request) = [] ->
  passesFilters go request manager disableSkipCI p g
  = (Ok (negb (negb disableSkipCI && ContainsSkipCI go (PullRequest.Title p))
         && negb (negb disableSkipCI
                  && ContainsSkipCI go (CommitObject.Message (PullRequest.Tip p)))),
     g) /\
  Check go request
        {| ListOpenPullRequests := ListOpenPullRequests manager;
           ListModifiedFiles := listModifiedFiles |} g
  = Check go request manager g.
Proof.
  intros Hp Hi. split.
  - unfold passesFilters. rewrite Hp, Hi. cbn.
    destruct (negb disableSkipCI && ContainsSkipCI go (PullRequest.Title p)); [reflexivity|].
    destruct (negb disableSkipCI && ContainsSkipCI go (CommitObject.Message _)); reflexivity.
  - unfold Check. cbn [ListOpenPullRequests].
    destruct (ListOpenPullRequests manager g) as [[pulls|err] g1]; [|reflexivity].
    destruct (parseDisableCISkip request) as [d|err]; [|reflexivity].
    rewrite (checkLoop_without_paths go request _ manager d pulls Hp Hi). reflexivity.
Qed.

Lemma no_path_filter_no_listing_witness :
  passesFilters smallRuntime (example.request "1:10,2:20") countingManager false
                (example.pull 2 30) 7%nat
  = (Ok (negb (negb false && ContainsSkipCI smallRuntime (PullRequest.Title (example.pull 2 30)))
         && negb (negb false
                  && ContainsSkipCI smallRuntime
                       (CommitObject.Message (PullRequest.Tip (example.pull 2 30))))),
     7%nat) /\
  Check smallRuntime (example.request "1:10,2:20")
        {| ListOpenPullRequests := ListOpenPullRequests countingManager;
           ListModifiedFiles := fun _ calls => (Err (ErrManager "rate limited"), S calls) |}
        7%nat
  = Check smallRuntime (example.request "1:10,2:20") countingManager 7%nat.
Proof.
  apply (no_path_filter_no_listing smallRuntime (example.request "1:10,2:20") countingManager);
    reflexivity.
Defined.

(** With a path filter the same remote side counts one call more. *)
Example path_filter_lists_files :
  snd (passesFilters smallRuntime pathsRequest countingManager false (example.pull 2 30) 7%nat)
  = 8%nat.
Proof. reflexivity. Qed.

(** ** More of the ledger codec and of the fold *)

Lemma decodeLedger_Returned_colon (alreadySeen : string) (entries : list AlreadySeenVersion.t) :
  decodeLedger alreadySeen = Returned entries -> strings.Contains alreadySeen ":" = true.
Proof.
  intros Hd. destruct (decodeEntries_In _ _ Hd) as [_ I2].
  assert (S : exists first rest, strings.Split alreadySeen "," = first :: rest).
  { destruct alreadySeen as [|a s]; cbn; [eauto|].
    destruct (Ascii.eqb a ","); [eauto|]. destruct (strings.Split s ","); eauto. }
  destruct S as (first & rest & E).
  destruct (I2 first) as (entry & _ & He); [rewrite E; left; reflexivity|].
  eapply Contains_field; [rewrite E; left; reflexivity|].
  eapply Extract_Returned; exact He.
Qed.

Lemma AboveTheFold_verdict (alreadySeen : string) (entries : list AlreadySeenVersion.t)
  (p : PullRequest.t) :
  decodeLedger alreadySeen = Returned entries ->
  AboveTheFold (GetVersionStringFromPullRequest p) alreadySeen
  = Returned (aboveEntries (entryOf p) entries).
Proof.
  intros Hd. rewrite AboveTheFold_decodes, (decodeLedger_Returned_colon _ _ Hd).
  cbn [negb]. rewrite Extract_GetVersionString, Hd. reflexivity.
Qed.

(** Encoding then decoding a ledger gives back one entry per pull request,
    in order, with its number and its tip to the second; but the ledger of
    no pull request, the empty string, does not decode: its only pair has no
    second field. *)
Theorem ledger_round_trip (pulls : list PullRequest.t) :
  decodeLedger (GenerateVersion pulls)
  = match pulls with
    | [] => Panicked (IndexOutOfRange 1 1)
    | _ :: _ => Returned (map entryOf pulls)
    end.
Proof.
  destruct pulls as [|p rest]; [reflexivity|].
  apply decodeLedger_GenerateVersion. discriminate.
Qed.

(** A record whose number no entry of the ledger carries is above the fold. *)
Theorem unknown_record_is_new (alreadySeen : string) (entries : list AlreadySeenVersion.t)
  (p : PullRequest.t) :
  decodeLedger alreadySeen = Returned entries ->
  (forall entry, In entry entries ->
                 AlreadySeenVersion.PR entry <> strconv.Itoa (PullRequest.Number p)) ->
  AboveTheFold (GetVersionStringFromPullRequest p) alreadySeen = Returned true.
Proof.
  intros Hd Hnone. rewrite (AboveTheFold_verdict _ _ _ Hd). unfold aboveEntries.
  replace (existsb (sameRecord (entryOf p)) entries) with false; [reflexivity|].
  symmetry. apply not_true_is_false. intros H. apply existsb_exists in H.
  destruct H as (entry & Hin & Hs). apply (Hnone entry Hin).
  unfold sameRecord in Hs. apply String.eqb_eq in Hs. exact Hs.
Qed.

Lemma unknown_record_is_new_witness :
  AboveTheFold (GetVersionStringFromPullRequest (example.pull 3 1)) "1:5,2:7" = Returned true.
Proof.
  apply (unknown_record_is_new "1:5,2:7"
           [entryOf (example.pull 1 5); entryOf (example.pull 2 7)] (example.pull 3 1)).
  - reflexivity.
  - intros entry [<-|[<-|[]]]; discriminate.
Defined.

(** A record whose tip, to the second, is after the timestamp of some entry
    with its number is above the fold, whatever the other entries say, also
    other entries with that number. *)
Theorem advanced_record_is_new (alreadySeen : string) (entries : list AlreadySeenVersion.t)
  (p : PullRequest.t) (entry : AlreadySeenVersion.t) :
  decodeLedger alreadySeen = Returned entries ->
  In entry entries ->
  AlreadySeenVersion.PR entry = strconv.Itoa (PullRequest.Number p) ->
  time.After (AlreadySeenVersion.committedDate (entryOf p))
             (AlreadySeenVersion.committedDate entry) = true ->
  AboveTheFold (GetVersionStringFromPullRequest p) alreadySeen = Returned true.
Proof.
  intros Hd Hin Hid Hafter. rewrite (AboveTheFold_verdict _ _ _ Hd). unfold aboveEntries.
  assert (Hadv : existsb (advanced (entryOf p)) entries = true).
  { apply existsb_exists. exists entry. split; [exact Hin|].
    unfold advanced, sameRecord. rewrite Hafter, andb_true_r.
    apply String.eqb_eq. exact Hid. }
  rewrite Hadv. destruct (negb _); reflexivity.
Qed.

Lemma advanced_record_is_new_witness :
  AboveTheFold (GetVersionStringFromPullRequest (example.pull 2 8)) "2:9,1:5,2:7"
  = Returned true.
Proof.
  apply (advanced_record_is_new "2:9,1:5,2:7"
           [entryOf (example.pull 2 9); entryOf (example.pull 1 5); entryOf (example.pull 2 7)]
           (example.pull 2 8) (entryOf (example.pull 2 7))).
  - reflexivity.
  - right; right; left; reflexivity.
  - reflexivity.
  - reflexivity.
Defined.

(** [AboveTheFold] returns, rather than panics, exactly when the ledger
    holds no colon, or the current entry and every comma-separated entry of
    the ledger decode. *)
Theorem AboveTheFold_returns_iff (pullRequestVersion alreadySeen : string) :
  (exists above, AboveTheFold pullRequestVersion alreadySeen = Returned above) <->
  strings.Contains alreadySeen ":" = false \/
  ((exists pullRequest,
       ExtractVersionFromVersionString pullRequestVersion = Returned pullRequest) /\
   exists entries, decodeLedger alreadySeen = Returned entries).
Proof.
  rewrite AboveTheFold_decodes.
  destruct (strings.Contains alreadySeen ":"); cbn [negb].
  - destruct (ExtractVersionFromVersionString pullRequestVersion) as [pr|e|v]; cbn [bind].
    + destruct (decodeLedger alreadySeen) as [entries|e|v]; cbn [bind]; split.
      * intros _. right. eauto.
      * eauto.
      * intros [above H]; discriminate.
      * intros [H|[_ [entries H]]]; discriminate.
      * intros [above H]; discriminate.
      * intros [H|[_ [entries H]]]; discriminate.
    + split; [intros [above H]; discriminate | intros [H|[[pr H] _]]; discriminate].
    + split; [intros [above H]; discriminate | intros [H|[[pr H] _]]; discriminate].
  - split; eauto.
Qed.

(** Decoding reads the first two colon-separated fields of an entry and
    ignores any further one; the id is taken as it is written. *)
Theorem Extract_reads_two_fields (id field rest : string) (seconds : Z) :
  strings.Contains id ":" = false ->
  strings.Contains field ":" = false ->
  strconv.ParseInt field = inr seconds ->
  ExtractVersionFromVersionString (id ++ ":" ++ field)
  = Returned {| AlreadySeenVersion.PR := id;
                AlreadySeenVersion.committedDate := time.Unix seconds 0 |} /\
  ExtractVersionFromVersionString (id ++ ":" ++ field ++ ":" ++ rest)
  = Returned {| AlreadySeenVersion.PR := id;
                AlreadySeenVersion.committedDate := time.Unix seconds 0 |}.
Proof.
  intros Hid Hf Hp. unfold ExtractVersionFromVersionString.
  assert (C : forall x : string, (":" ++ x)%string = String ":" x) by reflexivity.
  rewrite !C.
  rewrite !(Split_append id _ ":" Hid).
  rewrite (Split_append field _ ":" Hf), (Split_without field ":" Hf).
  cbn [nth_error nth]. rewrite Hp. split; reflexivity.
Qed.

Lemma Extract_reads_two_fields_witness :
  ExtractVersionFromVersionString ("P1" ++ ":" ++ "+7")
  = Returned {| AlreadySeenVersion.PR := "P1";
                AlreadySeenVersion.committedDate := time.Unix 7 0 |} /\
  ExtractVersionFromVersionString ("P1" ++ ":" ++ "+7" ++ ":" ++ "x:y")
  = Returned {| AlreadySeenVersion.PR := "P1";
                AlreadySeenVersion.committedDate := time.Unix 7 0 |}.
Proof.
  apply (Extract_reads_two_fields "P1" "+7" "x:y" 7); reflexivity.
Defined.

(** ** The rest of [models.go], and [Get] of [in.go] *)

(** [Source.Validate]: nil, or [errors.New] of a text. *)
Definition Validate (s : Source.t) : option string :=
  if String.eqb (Source.AccessToken s) "" then Some "access_token must be set"%string
  else if String.eqb (Source.Repository s) "" then Some "repository must be set"%string
  else if negb (String.eqb (Source.V3Endpoint s) "") && String.eqb (Source.V4Endpoint s) ""
  then Some "v4_endpoint must be set together with v3_endpoint"%string
  else if negb (String.eqb (Source.V4Endpoint s) "") && String.eqb (Source.V3Endpoint s) ""
  then Some "v3_endpoint must be set together with v4_endpoint"%string
  else None.

Module MetadataField.
Record t := mk {
  Name : string;
  Value : string
}.
End MetadataField.

(** [Metadata], the output from get and put steps. *)
Definition Metadata := list MetadataField.t.

(** [Metadata.Add] appends a field. *)
Definition Metadata_Add (m : Metadata) (name value : string) : Metadata :=
  m ++ [MetadataField.mk name value].

Module GetRequest.
Record t := mk {
  Source : Source.t;
  Version : Version.t;
  Params : unit
}.
End GetRequest.

Module GetResponse.
Record t := mk {
  Version : Version.t;
  Metadata : Metadata
}.
End GetResponse.

(** What [Get] asks of its collaborators, with the arguments it passes. *)
Inductive Call :=
| GetPullRequestCall (prNumber commitRef : string)
| InitCall
| PullCall (uri : string)
| FetchCall (uri : string) (prNumber : Z)
| RevParseCall (ref : string)
| CheckoutCall (sha : string)
| MergeCall (oid : string)
| MkdirAllCall (path : string) (perm : Z)
| WriteFileCall (filename data : string) (perm : Z).

(** The collaborators of [Get]: the interfaces [Github] (as far as [Get]
    calls it) and [Git], and the packages [os], [ioutil], [json] and
    [filepath]. A call with an effect answers from the calls made so far;
    [json.Marshal] and [filepath.Join] have none. [GetPullRequest] answers
    an error or a pull request: a nil pointer with a nil error, which [Get]
    would dereference, is left out. *)
Module World.
Record t := mk {
  GetPullRequest : list Call -> string -> string -> result PullRequest.t;
  Init : list Call -> option error;
  Pull : list Call -> string -> option error;
  Fetch : list Call -> string -> Z -> option error;
  RevParse : list Call -> string -> result string;
  Checkout : list Call -> string -> option error;
  Merge : list Call -> string -> option error;
  MkdirAll : list Call -> string -> Z -> option error;
  WriteFile : list Call -> string -> string -> Z -> option error;
  MarshalVersion : Version.t -> result string;
  MarshalMetadata : Metadata -> result string;
  Join : list string -> string
}.
End World.

(** A step of [Get]: from the calls made so far, a value or an error, and
    the calls made then. *)
Definition step (A : Type) : Type := list Call -> result A * list Call.

Definition ret {A : Type} (a : A) : step A := fun calls => (Ok a, calls).

Definition andThen {A B : Type} (m : step A) (k : A -> step B) : step B :=
  fun calls =>
    match m calls with
    | (Ok a, calls') => k a calls'
    | (Err e, calls') => (Err e, calls')
    end.

Notation "x <~ m ;;; k" := (andThen m (fun x => k))
  (at level 61, m at next level, right associativity).

(** A call that answers an error or nil. *)
Definition perform (c : Call) (answer : list Call -> option error) : step unit :=
  fun calls =>
    (match answer calls with None => Ok tt | Some err => Err err end, calls ++ [c]).

(** A call that answers a value or an error. *)
Definition ask {A : Type} (c : Call) (answer : list Call -> result A) : step A :=
  fun calls => (answer calls, calls ++ [c]).

(** [fmt.Errorf(format, err)] around the error of a step. *)
Definition wrapped {A : Type} (format : string) (m : step A) : step A :=
  fun calls =>
    match m calls with
    | (Ok a, calls') => (Ok a, calls')
    | (Err err, calls') => (Err (Errorf format err), calls')
    end.

(** [os.ModePerm] and the mode of the two files. *)
Definition ModePerm : Z := 511.
Definition mode0644 : Z := 420.

(** The metadata [Get] creates. *)
Definition getMetadata (pull : PullRequest.t) (baseSHA : string) : Metadata :=
  let metadata := [] in
  let metadata := Metadata_Add metadata "pr" (strconv.Itoa (PullRequest.Number pull)) in
  let metadata := Metadata_Add metadata "url" (PullRequest.URL pull) in
  let metadata := Metadata_Add metadata "head_sha" (CommitObject.OID (PullRequest.Tip pull)) in
  let metadata := Metadata_Add metadata "base_sha" baseSHA in
  let metadata := Metadata_Add metadata "message" (CommitObject.Message (PullRequest.Tip pull)) in
  Metadata_Add metadata "author" (CommitObject.AuthorLogin (PullRequest.Tip pull)).

(** [Get] (business logic). *)
Definition Get (w : World.t) (request : GetRequest.t) (outputDir : string)
  : step GetResponse.t :=
  let version := GetRequest.Version request in
  pull <~ wrapped "failed to retrieve pull request: %s"
            (ask (GetPullRequestCall (Version.PR version) (Version.Commit version))
                 (fun calls => World.GetPullRequest w calls (Version.PR version)
                                                    (Version.Commit version))) ;;;
  _ <~ perform InitCall (World.Init w) ;;;
  _ <~ perform (PullCall (PullRequest.RepositoryURL pull))
               (fun calls => World.Pull w calls (PullRequest.RepositoryURL pull)) ;;;
  _ <~ perform (FetchCall (PullRequest.RepositoryURL pull) (PullRequest.Number pull))
               (fun calls => World.Fetch w calls (PullRequest.RepositoryURL pull)
                                         (PullRequest.Number pull)) ;;;
  baseSHA <~ ask (RevParseCall (PullRequest.BaseRefName pull))
                 (fun calls => World.RevParse w calls (PullRequest.BaseRefName pull)) ;;;
  _ <~ perform (CheckoutCall baseSHA) (fun calls => World.Checkout w calls baseSHA) ;;;
  _ <~ perform (MergeCall (CommitObject.OID (PullRequest.Tip pull)))
               (fun calls => World.Merge w calls (CommitObject.OID (PullRequest.Tip pull))) ;;;
  let metadata := getMetadata pull baseSHA in
  let path := World.Join w [outputDir; ".git"; "resource"]%string in
  _ <~ wrapped "failed to create output directory: %s"
         (perform (MkdirAllCall path ModePerm)
                  (fun calls => World.MkdirAll w calls path ModePerm)) ;;;
  b <~ wrapped "failed to marshal version: %s"
         (fun calls => (World.MarshalVersion w version, calls)) ;;;
  _ <~ wrapped "failed to write version: %s"
         (perform (WriteFileCall (World.Join w [path; "version.json"%string]) b mode0644)
                  (fun calls => World.WriteFile w calls
                                  (World.Join w [path; "version.json"%string]) b mode0644)) ;;;
  b <~ wrapped "failed to marshal metadata: %s"
         (fun calls => (World.MarshalMetadata w metadata, calls)) ;;;
  _ <~ wrapped "failed to write metadata: %s"
         (perform (WriteFileCall (World.Join w [path; "metadata.json"%string]) b mode0644)
                  (fun calls => World.WriteFile w calls
                                  (World.Join w [path; "metadata.json"%string]) b mode0644)) ;;;
  ret {| GetResponse.Version := version; GetResponse.Metadata := metadata |}.

(** The calls of a [Get] that goes through. *)
Definition getScript (w : World.t) (request : GetRequest.t) (outputDir : string)
  (pull : PullRequest.t) (baseSHA versionJSON metadataJSON : string) : list Call :=
  let path := World.Join w [outputDir; ".git"; "resource"]%string in
  [ GetPullRequestCall (Version.PR (GetRequest.Version request))
                       (Version.Commit (GetRequest.Version request));
    InitCall;
    PullCall (PullRequest.RepositoryURL pull);
    FetchCall (PullRequest.RepositoryURL pull) (PullRequest.Number pull);
    RevParseCall (PullRequest.BaseRefName pull);
    CheckoutCall baseSHA;
    MergeCall (CommitObject.OID (PullRequest.Tip pull));
    MkdirAllCall path ModePerm;
    WriteFileCall (World.Join w [path; "version.json"%string]) versionJSON mode0644;
    WriteFileCall (World.Join w [path; "metadata.json"%string]) metadataJSON mode0644 ].

(** The error the world answers to a call, or nil, from the calls made
    before it. *)
Definition answered (w : World.t) (calls : list Call) (c : Call) : option error :=
  match c with
  | GetPullRequestCall prNumber commitRef =>
      match World.GetPullRequest w calls prNumber commitRef with
      | Ok _ => None
      | Err err => Some err
      end
  | InitCall => World.Init w calls
  | PullCall uri => World.Pull w calls uri
  | FetchCall uri prNumber => World.Fetch w calls uri prNumber
  | RevParseCall ref =>
      match World.RevParse w calls ref with
      | Ok _ => None
      | Err err => Some err
      end
  | CheckoutCall sha => World.Checkout w calls sha
  | MergeCall oid => World.Merge w calls oid
  | MkdirAllCall path perm => World.MkdirAll w calls path perm
  | WriteFileCall filename data perm => World.WriteFile w calls filename data perm
  end.

(** The format [Get] wraps the error of each call of [getScript] in; the
    errors of [Git] are returned as they are. *)
Definition getFormats : list (option string) :=
  [ Some "failed to retrieve pull request: %s"%string;
    None; None; None; None; None; None;
    Some "failed to create output directory: %s"%string;
    Some "failed to write version: %s"%string;
    Some "failed to write metadata: %s"%string ].

(** A world in which every step goes through. *)
Definition calmWorld : World.t :=
  {| World.GetPullRequest := fun _ _ _ => Ok (example.pull 7 70);
     World.Init := fun _ => None;
     World.Pull := fun _ _ => None;
     World.Fetch := fun _ _ _ => None;
     World.RevParse := fun _ _ => Ok "base"%string;
     World.Checkout := fun _ _ => None;
     World.Merge := fun _ _ => None;
     World.MkdirAll := fun _ _ _ => None;
     World.WriteFile := fun _ _ _ _ => None;
     World.MarshalVersion := fun _ => Ok "{version}"%string;
     World.MarshalMetadata := fun _ => Ok "{metadata}"%string;
     World.Join := fun elems => strings.Join elems "/" |}.

(** A world in which the merge conflicts, once the checkout was made. *)
Definition conflictWorld : World.t :=
  {| World.GetPullRequest := World.GetPullRequest calmWorld;
     World.Init := World.Init calmWorld;
     World.Pull := World.Pull calmWorld;
     World.Fetch := World.Fetch calmWorld;
     World.RevParse := World.RevParse calmWorld;
     World.Checkout := World.Checkout calmWorld;
     World.Merge := fun calls _ =>
       if existsb (fun c => match c with CheckoutCall _ => true | _ => false end) calls
       then Some (ErrManager "merge conflict") else None;
     World.MkdirAll := World.MkdirAll calmWorld;
     World.WriteFile := World.WriteFile calmWorld;
     World.MarshalVersion := World.MarshalVersion calmWorld;
     World.MarshalMetadata := World.MarshalMetadata calmWorld;
     World.Join := World.Join calmWorld |}.

(** A world in which the output directory cannot be created. *)
Definition readOnlyWorld : World.t :=
  {| World.GetPullRequest := World.GetPullRequest calmWorld;
     World.Init := World.Init calmWorld;
     World.Pull := World.Pull calmWorld;
     World.Fetch := World.Fetch calmWorld;
     World.RevParse := World.RevParse calmWorld;
     World.Checkout := World.Checkout calmWorld;
     World.Merge := World.Merge calmWorld;
     World.MkdirAll := fun _ _ _ => Some (ErrManager "read-only file system");
     World.WriteFile := World.WriteFile calmWorld;
     World.MarshalVersion := World.MarshalVersion calmWorld;
     World.MarshalMetadata := World.MarshalMetadata calmWorld;
     World.Join := World.Join calmWorld |}.

Definition getRequest : GetRequest.t :=
  {| GetRequest.Source := example.source;
     GetRequest.Version := NewVersion (example.pull 7 70) "7:70";
     GetRequest.Params := tt |}.

Example Get_goes_through :
  Get calmWorld getRequest "/tmp/build" []
  = (Ok {| GetResponse.Version := NewVersion (example.pull 7 70) "7:70";
           GetResponse.Metadata :=
             [ MetadataField.mk "pr" "7"; MetadataField.mk "url" "";
               MetadataField.mk "head_sha" ""; MetadataField.mk "base_sha" "base";
               MetadataField.mk "message" "a commit"; MetadataField.mk "author" "" ] |},
     getScript calmWorld getRequest "/tmp/build" (example.pull 7 70) "base"
               "{version}" "{metadata}").
Proof. reflexivity. Qed.

(** *** [Get]: the order of its steps, its response, its failures *)

Ltac answer_case :=
  match goal with
  | |- context [match ?x with Ok _ => _ | Err _ => _ end] =>
      lazymatch x with
      | context [match _ with _ => _ end] => fail
      | _ => destruct x eqn:?
      end
  | |- context [match ?x with Some _ => _ | None => _ end] =>
      lazymatch x with
      | context [match _ with _ => _ end] => fail
      | _ => destruct x eqn:?
      end
  end.

Ltac run_Get :=
  unfold Get, andThen, wrapped, perform, ask, ret;
  repeat (answer_case; cbn [fst snd]).

Ltac flatten_calls :=
  repeat match goal with
         | H : context [(_ ++ _) ++ _] |- _ => rewrite <- !app_assoc in H; cbn [app] in H
         end;
  rewrite <- ?app_assoc; cbn [app].

Ltac by_answer :=
  cbn [firstn nth app answered]; rewrite ?app_nil_r;
  repeat match goal with
         | H : ?x = _ |- context [?x] => rewrite H
         end;
  first [reflexivity | eassumption].

Ltac each_call n :=
  do 10 (destruct n as [|n]; [first [exfalso; lia | by_answer]|]); exfalso; lia.

(** A [Get] that returns a response has made the ten calls of [getScript],
    in this order and no other: the pull request of the requested Version is
    retrieved, the repository initialised, pulled and fetched, the base
    resolved, checked out and merged with the tip, and then the two files
    written. Every call was answered without error, from the calls made
    before it; what is checked out and reported as [base_sha] is what
    [RevParse] answered for the base of the pull request [GetPullRequest]
    answered. The response carries the requested Version as it came, and
    the six metadata fields. *)
Theorem Get_goes_through_in_order (w : World.t) (request : GetRequest.t)
  (outputDir : string) (calls : list Call) (response : GetResponse.t) :
  fst (Get w request outputDir calls) = Ok response ->
  exists pull baseSHA versionJSON metadataJSON,
    World.GetPullRequest w calls (Version.PR (GetRequest.Version request))
                         (Version.Commit (GetRequest.Version request)) = Ok pull /\
    snd (Get w request outputDir calls)
    = calls ++ getScript w request outputDir pull baseSHA versionJSON metadataJSON /\
    World.MarshalVersion w (GetRequest.Version request) = Ok versionJSON /\
    GetResponse.Version response = GetRequest.Version request /\
    GetResponse.Metadata response
    = [ MetadataField.mk "pr" (strconv.Itoa (PullRequest.Number pull));
        MetadataField.mk "url" (PullRequest.URL pull);
        MetadataField.mk "head_sha" (CommitObject.OID (PullRequest.Tip pull));
        MetadataField.mk "base_sha" baseSHA;
        MetadataField.mk "message" (CommitObject.Message (PullRequest.Tip pull));
        MetadataField.mk "author" (CommitObject.AuthorLogin (PullRequest.Tip pull)) ] /\
    World.MarshalMetadata w (GetResponse.Metadata response) = Ok metadataJSON /\
    World.RevParse w
      (calls ++ firstn 4 (getScript w request outputDir pull baseSHA versionJSON metadataJSON))
      (PullRequest.BaseRefName pull) = Ok baseSHA /\
    forall n, (n < 10)%nat ->
      answered w
        (calls ++ firstn n (getScript w request outputDir pull baseSHA versionJSON metadataJSON))
        (nth n (getScript w request outputDir pull baseSHA versionJSON metadataJSON) InitCall)
      = None.
Proof.
  run_Get; intros H; try discriminate.
  injection H as <-. flatten_calls.
  do 4 eexists. split; [reflexivity|].
  split; [unfold getScript; reflexivity|].
  split; [first [reflexivity | eassumption]|]. split; [reflexivity|]. split; [reflexivity|].
  split; [cbn [GetResponse.Metadata]; first [reflexivity | eassumption]|].
  unfold getScript. split; [by_answer|].
  intros n Hn. each_call n.
Qed.

Lemma Get_goes_through_in_order_witness :
  exists pull baseSHA versionJSON metadataJSON,
    World.GetPullRequest calmWorld [] (Version.PR (GetRequest.Version getRequest))
                         (Version.Commit (GetRequest.Version getRequest)) = Ok pull /\
    snd (Get calmWorld getRequest "/tmp/build" [])
    = [] ++ getScript calmWorld getRequest "/tmp/build" pull baseSHA versionJSON metadataJSON /\
    World.MarshalVersion calmWorld (GetRequest.Version getRequest) = Ok versionJSON /\
    GetResponse.Version
      {| GetResponse.Version := GetRequest.Version getRequest;
         GetResponse.Metadata := getMetadata (example.pull 7 70) "base" |}
    = GetRequest.Version getRequest /\
    GetResponse.Metadata
      {| GetResponse.Version := GetRequest.Version getRequest;
         GetResponse.Metadata := getMetadata (example.pull 7 70) "base" |}
    = [ MetadataField.mk "pr" (strconv.Itoa (PullRequest.Number pull));
        MetadataField.mk "url" (PullRequest.URL pull);
        MetadataField.mk "head_sha" (CommitObject.OID (PullRequest.Tip pull));
        MetadataField.mk "base_sha" baseSHA;
        MetadataField.mk "message" (CommitObject.Message (PullRequest.Tip pull));
        MetadataField.mk "author" (CommitObject.AuthorLogin (PullRequest.Tip pull)) ] /\
    World.MarshalMetadata calmWorld
      (GetResponse.Metadata
         {| GetResponse.Version := GetRequest.Version getRequest;
            GetResponse.Metadata := getMetadata (example.pull 7 70) "base" |})
    = Ok metadataJSON /\
    World.RevParse calmWorld
      ([] ++ firstn 4 (getScript calmWorld getRequest "/tmp/build" pull baseSHA
                                 versionJSON metadataJSON))
      (PullRequest.BaseRefName pull) = Ok baseSHA /\
    forall n, (n < 10)%nat ->
      answered calmWorld
        ([] ++ firstn n (getScript calmWorld getRequest "/tmp/build" pull baseSHA
                                   versionJSON metadataJSON))
        (nth n (getScript calmWorld getRequest "/tmp/build" pull baseSHA
                          versionJSON metadataJSON) InitCall)
      = None.
Proof.
  apply (Get_goes_through_in_order calmWorld getRequest "/tmp/build" []).
  reflexivity.
Defined.

(** Whether it goes through or fails, [Get] makes its calls in the order of
    [getScript] and stops at some point of it: no step is skipped, repeated
    or taken out of turn, and the pull request is always asked for first. *)
Theorem Get_calls_follow_script (w : World.t) (request : GetRequest.t)
  (outputDir : string) (calls : list Call) :
  exists pull baseSHA versionJSON metadataJSON n,
    (1 <= n)%nat /\
    snd (Get w request outputDir calls)
    = calls ++ firstn n (getScript w request outputDir pull baseSHA versionJSON metadataJSON).
Proof.
  run_Get; do 4 eexists; unfold getScript; rewrite <- ?app_assoc; cbn [app];
    first [ exists 1%nat; split; [lia | reflexivity]
          | exists 2%nat; split; [lia | reflexivity]
          | exists 3%nat; split; [lia | reflexivity]
          | exists 4%nat; split; [lia | reflexivity]
          | exists 5%nat; split; [lia | reflexivity]
          | exists 6%nat; split; [lia | reflexivity]
          | exists 7%nat; split; [lia | reflexivity]
          | exists 8%nat; split; [lia | reflexivity]
          | exists 9%nat; split; [lia | reflexivity]
          | exists 10%nat; split; [lia | reflexivity] ].
  Unshelve.
  all: first [exact EmptyString | exact (example.pull 0 0)].
Qed.

Ltac when_reached :=
  intros ?; first [exfalso; lia | by_answer].

Ltac stops_at n :=
  exists n; unfold getScript, getFormats;
  split; [reflexivity|];
  split; [lia|];
  split; [let k := fresh "k" in intros k ?; each_call k|];
  split; [when_reached|];
  split; [when_reached|];
  split; [when_reached|];
  split; [when_reached|];
  cbn [firstn nth app answered]; rewrite ?app_nil_r;
  repeat match goal with
         | H : ?x = _ |- context [?x] => rewrite H
         end;
  first [ reflexivity
        | left; split; [reflexivity|]; eexists;
          split; [first [reflexivity | eassumption] | reflexivity]
        | right; split; [reflexivity|]; eexists;
          split; [first [reflexivity | eassumption] | reflexivity] ].

(** A [Get] that fails stops with the call that failed, or with the call
    before the [json.Marshal] that failed: it has made the calls of
    [getScript] up to and including call [n], every call before it was
    answered without error, and the values passed on are those answered (the
    pull request, the base revision, the two marshalled texts). The error
    is the one call [n] was answered with, as it is for the calls of [Git],
    and wrapped in the format of its step for the others; when call [n] went
    through, it is the error of [json.Marshal], of the Version after
    [MkdirAll] and of the metadata after the first [WriteFile], wrapped. *)
Theorem Get_fails_at_last_call (w : World.t) (request : GetRequest.t)
  (outputDir : string) (calls : list Call) (e : error) :
  fst (Get w request outputDir calls) = Err e ->
  exists pull baseSHA versionJSON metadataJSON n,
    snd (Get w request outputDir calls)
    = calls ++ firstn (S n) (getScript w request outputDir pull baseSHA versionJSON metadataJSON) /\
    (n < 10)%nat /\
    (forall k, (k < n)%nat ->
       answered w
         (calls ++ firstn k (getScript w request outputDir pull baseSHA versionJSON metadataJSON))
         (nth k (getScript w request outputDir pull baseSHA versionJSON metadataJSON) InitCall)
       = None) /\
    ((1 <= n)%nat ->
     World.GetPullRequest w calls (Version.PR (GetRequest.Version request))
                          (Version.Commit (GetRequest.Version request)) = Ok pull) /\
    ((5 <= n)%nat ->
     World.RevParse w
       (calls ++ firstn 4 (getScript w request outputDir pull baseSHA versionJSON metadataJSON))
       (PullRequest.BaseRefName pull) = Ok baseSHA) /\
    ((8 <= n)%nat -> World.MarshalVersion w (GetRequest.Version request) = Ok versionJSON) /\
    ((9 <= n)%nat -> World.MarshalMetadata w (getMetadata pull baseSHA) = Ok metadataJSON) /\
    match answered w
            (calls ++ firstn n (getScript w request outputDir pull baseSHA
                                          versionJSON metadataJSON))
            (nth n (getScript w request outputDir pull baseSHA versionJSON metadataJSON)
                 InitCall) with
    | Some cause =>
        e = match nth n getFormats None with
            | Some format => Errorf format cause
            | None => cause
            end
    | None =>
        (n = 7%nat /\
         exists cause,
           World.MarshalVersion w (GetRequest.Version request) = Err cause /\
           e = Errorf "failed to marshal version: %s" cause) \/
        (n = 8%nat /\
         exists cause,
           World.MarshalMetadata w (getMetadata pull baseSHA) = Err cause /\
           e = Errorf "failed to marshal metadata: %s" cause)
    end.
Proof.
  run_Get; intros H; try discriminate; injection H as <-; flatten_calls;
    do 4 eexists;
    first [ stops_at 0%nat | stops_at 1%nat | stops_at 2%nat | stops_at 3%nat
          | stops_at 4%nat | stops_at 5%nat | stops_at 6%nat | stops_at 7%nat
          | stops_at 8%nat | stops_at 9%nat ].
  Unshelve.
  all: first [exact EmptyString | exact (example.pull 0 0)].
Qed.

(** A merge conflict is returned as [Git] answered it, after seven calls. *)
Example merge_conflict_is_returned :
  Get conflictWorld getRequest "/tmp/build" []
  = (Err (ErrManager "merge conflict"),
     firstn 7 (getScript conflictWorld getRequest "/tmp/build" (example.pull 7 70) "base"
                         "{version}" "{metadata}")).
Proof. reflexivity. Qed.

(** The error of [os.MkdirAll] is wrapped, and nothing is written. *)
Example mkdir_error_is_wrapped :
  Get readOnlyWorld getRequest "/tmp/build" []
  = (Err (Errorf "failed to create output directory: %s" (ErrManager "read-only file system")),
     firstn 8 (getScript readOnlyWorld getRequest "/tmp/build" (example.pull 7 70) "base"
                         "{version}" "{metadata}")).
Proof. reflexivity. Qed.

Lemma Get_fails_at_last_call_witness :
  exists pull baseSHA versionJSON metadataJSON n,
    snd (Get readOnlyWorld getRequest "/tmp/build" [])
    = [] ++ firstn (S n) (getScript readOnlyWorld getRequest "/tmp/build" pull baseSHA
                                    versionJSON metadataJSON) /\
    (n < 10)%nat /\
    (forall k, (k < n)%nat ->
       answered readOnlyWorld
         ([] ++ firstn k (getScript readOnlyWorld getRequest "/tmp/build" pull baseSHA
                                    versionJSON metadataJSON))
         (nth k (getScript readOnlyWorld getRequest "/tmp/build" pull baseSHA
                           versionJSON metadataJSON) InitCall)
       = None) /\
    ((1 <= n)%nat ->
     World.GetPullRequest readOnlyWorld [] (Version.PR (GetRequest.Version getRequest))
                          (Version.Commit (GetRequest.Version getRequest)) = Ok pull) /\
    ((5 <= n)%nat ->
     World.RevParse readOnlyWorld
       ([] ++ firstn 4 (getScript readOnlyWorld getRequest "/tmp/build" pull baseSHA
                                  versionJSON metadataJSON))
       (PullRequest.BaseRefName pull) = Ok baseSHA) /\
    ((8 <= n)%nat ->
     World.MarshalVersion readOnlyWorld (GetRequest.Version getRequest) = Ok versionJSON) /\
    ((9 <= n)%nat ->
     World.MarshalMetadata readOnlyWorld (getMetadata pull baseSHA) = Ok metadataJSON) /\
    match answered readOnlyWorld
            ([] ++ firstn n (getScript readOnlyWorld getRequest "/tmp/build" pull baseSHA
                                       versionJSON metadataJSON))
            (nth n (getScript readOnlyWorld getRequest "/tmp/build" pull baseSHA
                              versionJSON metadataJSON) InitCall) with
    | Some cause =>
        Errorf "failed to create output directory: %s" (ErrManager "read-only file system")
        = match nth n getFormats None with
          | Some format => Errorf format cause
          | None => cause
          end
    | None =>
        (n = 7%nat /\
         exists cause,
           World.MarshalVersion readOnlyWorld (GetRequest.Version getRequest) = Err cause /\
           Errorf "failed to create output directory: %s" (ErrManager "read-only file system")
           = Errorf "failed to marshal version: %s" cause) \/
        (n = 8%nat /\
         exists cause,
           World.MarshalMetadata readOnlyWorld (getMetadata pull baseSHA) = Err cause /\
           Errorf "failed to create output directory: %s" (ErrManager "read-only file system")
           = Errorf "failed to marshal metadata: %s" cause)
    end.
Proof.
  apply (Get_fails_at_last_call readOnlyWorld getRequest "/tmp/build" []).
  reflexivity.
Defined.

(** [os.MkdirAll] and [ioutil.WriteFile]. *)
Definition writes (c : Call) : bool :=
  match c with
  | MkdirAllCall _ _ | WriteFileCall _ _ _ => true
  | _ => false
  end.

(** [Get] touches the output directory only after a merge that succeeded:
    if a directory was created or a file written, then among the calls of
    this [Get] there is, earlier, a [Merge] that [Git] answered with nil. *)
Theorem Get_writes_after_merge (w : World.t) (request : GetRequest.t)
  (outputDir : string) (calls made : list Call) :
  snd (Get w request outputDir calls) = calls ++ made ->
  existsb writes made = true ->
  exists before oid after,
    made = before ++ MergeCall oid :: after /\
    World.Merge w (calls ++ before) oid = None /\
    existsb writes before = false.
Proof.
  run_Get; rewrite <- ?app_assoc; cbn [app]; intros Hm Hw;
    apply app_inv_head in Hm; subst made; cbn in Hw; try discriminate;
    repeat match goal with
           | H : context [(_ ++ _) ++ _] |- _ => rewrite <- !app_assoc in H; cbn [app] in H
           end;
    match goal with
    | |- exists before oid after,
          ?a :: ?b :: ?c :: ?d :: ?e :: ?f :: MergeCall ?o :: ?r = _ /\ _ =>
        exists [a; b; c; d; e; f], o, r
    end;
    (split; [reflexivity|]); (split; [assumption | reflexivity]).
Qed.

Lemma Get_writes_after_merge_witness :
  exists before oid after,
    getScript calmWorld getRequest "/tmp/build" (example.pull 7 70) "base"
              "{version}" "{metadata}"
    = before ++ MergeCall oid :: after /\
    World.Merge calmWorld ([] ++ before) oid = None /\
    existsb writes before = false.
Proof.
  apply (Get_writes_after_merge calmWorld getRequest "/tmp/build" []); reflexivity.
Defined.

(** [Validate] accepts a source exactly when the access token and the
    repository are set, and the two endpoints are set together or not at
    all. *)
Theorem Validate_accepts (s : Source.t) :
  Validate s = None <->
  Source.AccessToken s <> EmptyString /\
  Source.Repository s <> EmptyString /\
  (Source.V3Endpoint s = EmptyString <-> Source.V4Endpoint s = EmptyString).
Proof.
  unfold Validate.
  destruct (String.eqb_spec (Source.AccessToken s) "") as [Ea|Ea];
    [split; [discriminate | tauto]|].
  destruct (String.eqb_spec (Source.Repository s) "") as [Er|Er];
    [split; [discriminate | tauto]|].
  destruct (String.eqb_spec (Source.V3Endpoint s) "") as [E3|E3];
    destruct (String.eqb_spec (Source.V4Endpoint s) "") as [E4|E4]; cbn [negb andb];
    split; try discriminate; try tauto.
Qed.

(** The two methods [Less] order their slices as [sort.Sort] needs it: each
    is the strict part of a total preorder, by committed date and by number. *)
Theorem Less_methods_order :
  strictOrder CheckResponse_Less /\ strictOrder Pulls_Less /\
  (forall r, CheckResponse_Less r r = false) /\ (forall p, Pulls_Less p p = false).
Proof.
  split; [apply CheckResponse_Less_order|]. split; [apply Pulls_Less_order|]. split.
  - intros r. apply After_irreflexive.
  - intros p. apply Z.ltb_irrefl.
Qed.
